(** * Minesweeper: the board engine and the reveal / cascade logic

    A shallow embedding of [cell.h], [board.cpp] and the game logic of
    [minesweeperwindow.cpp]: first the handlers as they read and write the
    board, then the same handlers with the grid of buttons they redraw; with
    the properties of the specification stated and proved over it.

    C++ [int] values are modelled as [Z]; every coordinate the program forms
    is within one of an in-range coordinate, so no arithmetic leaves the
    range of [int].  A [QVector] is a [list]; indexing it outside its size has
    no defined result in the source, which the model records as [Undef]. *)

From Stdlib Require Import ZArith Lia List Bool.
From stdpp Require Import base tactics option list list_numbers sets strings pretty.

Local Open Scope Z_scope.
Set Warnings "-clear-no-such-hyp".

(** ** Results of running a piece of the program *)

(** [Ret a]: the call returns [a].
    [Undef]: the call indexes a vector outside its bounds (or divides by
    zero); the C++ has no defined behaviour there, and no function of the
    program reports an error of its own.
    [Fuel]: a [while] loop was cut before it finished (the iteration budget,
    or the supply of random numbers, was used up). *)
Inductive run (A : Type) : Type :=
| Ret (a : A)
| Undef
| Fuel.
Arguments Ret {A} a.
Arguments Undef {A}.
Arguments Fuel {A}.

Definition run_bind {A B : Type} (m : run A) (k : A -> run B) : run B :=
  match m with
  | Ret a => k a
  | Undef => Undef
  | Fuel => Fuel
  end.

Notation "'do' x <- e ; k" := (run_bind e (fun x => k))
  (at level 10, x name, e at level 100, k at level 200).

(** A [for] loop over the values of [l], threading the loop state. *)
Fixpoint for_each {S A : Type} (l : list A) (body : S -> A -> run S) (s : S) : run S :=
  match l with
  | [] => Ret s
  | x :: l' => do s' <- body s x ; for_each l' body s'
  end.

(** A [for] loop whose body may [return] from the enclosing function:
    [Some v] is an early return of [v], [None] falls through. *)
Fixpoint for_return {A R : Type} (l : list A) (body : A -> run (option R)) : run (option R) :=
  match l with
  | [] => Ret None
  | x :: l' =>
      do o <- body x ;
      match o with
      | Some v => Ret (Some v)
      | None => for_return l' body
      end
  end.

(** [v[i]] on a [QVector]: the index is not checked (Qt asserts on it in
    debug builds only), so outside [0 .. size-1] there is no defined result. *)
Definition at_ {A : Type} (v : list A) (i : Z) : run A :=
  if 0 <=? i then
    match v !! Z.to_nat i with
    | Some a => Ret a
    | None => Undef
    end
  else Undef.

(** ** cell.h *)

(** [MarkState::None] is written [NoMark]. *)
Inductive MarkState : Type := NoMark | Flag | Question.

Global Instance MarkState_eq_dec : EqDecision MarkState.
Proof. solve_decision. Defined.

Record Cell : Type := mkCell {
  m_hasMine : bool;
  m_revealed : bool;
  m_mark : MarkState
}.

Definition Cell_new : Cell := mkCell false false NoMark.

Definition Cell_setMine (c : Cell) (hasMine : bool) : Cell :=
  mkCell hasMine (m_revealed c) (m_mark c).

Definition Cell_setRevealed (c : Cell) (r : bool) : Cell :=
  mkCell (m_hasMine c) r (m_mark c).

Definition Cell_setMarkState (c : Cell) (state : MarkState) : Cell :=
  mkCell (m_hasMine c) (m_revealed c) state.

Definition Cell_reset (c : Cell) : Cell := mkCell false false NoMark.

(** ** board.cpp *)

Record Board : Type := mkBoard {
  m_width : Z;
  m_height : Z;
  m_mineCount : Z;
  m_cells : list (list Cell)
}.

Abbreviation Point := (Z * Z)%type.

(** The constructor: [m_height] rows of [m_width] default cells. *)
Definition Board_new (width height mineCount : Z) : Board :=
  mkBoard width height mineCount
          (replicate (Z.to_nat height) (replicate (Z.to_nat width) Cell_new)).

(** [m_cells[row][col]] read. *)
Definition cell_ref (b : Board) (row col : Z) : run Cell :=
  do line <- at_ (m_cells b) row ;
  at_ line col.

(** [m_cells[row][col].set...(...)]: the cell is replaced in place. *)
Definition cell_update (b : Board) (row col : Z) (f : Cell -> Cell) : run Board :=
  do _ <- cell_ref b row col ;
  Ret (mkBoard (m_width b) (m_height b) (m_mineCount b)
               (alter (alter f (Z.to_nat col)) (Z.to_nat row) (m_cells b))).

Definition inBounds (b : Board) (row col : Z) : bool :=
  (0 <=? row) && (row <? m_height b) && (0 <=? col) && (col <? m_width b).

Definition isMine (b : Board) (row col : Z) : run bool :=
  do c <- cell_ref b row col ; Ret (m_hasMine c).

Definition setMine (b : Board) (row col : Z) (isMine : bool) : run Board :=
  cell_update b row col (fun c => Cell_setMine c isMine).

Definition isRevealed (b : Board) (row col : Z) : run bool :=
  do c <- cell_ref b row col ; Ret (m_revealed c).

Definition setRevealed (b : Board) (row col : Z) (r : bool) : run Board :=
  cell_update b row col (fun c => Cell_setRevealed c r).

Definition markState (b : Board) (row col : Z) : run MarkState :=
  do c <- cell_ref b row col ; Ret (m_mark c).

Definition setMarkState (b : Board) (row col : Z) (state : MarkState) : run Board :=
  cell_update b row col (fun c => Cell_setMarkState c state).

(** The values of [dr] and of [dc] in [for (int d = -1; d <= 1; ++d)]. *)
Definition deltas : list Z := [-1; 0; 1].

Definition neighborMineCount (b : Board) (row col : Z) : run Z :=
  for_each deltas (fun count dr =>
    for_each deltas (fun count dc =>
      if (dr =? 0) && (dc =? 0) then Ret count
      else
        let rr := row + dr in
        let cc := col + dc in
        if inBounds b rr cc then
          do cell <- cell_ref b rr cc ;
          if m_hasMine cell then Ret (count + 1) else Ret count
        else Ret count) count) 0.

(** The rows [0 .. m_height-1] and the columns [0 .. m_width-1]. *)
Definition rows (b : Board) : list Z := seqZ 0 (m_height b).
Definition cols (b : Board) : list Z := seqZ 0 (m_width b).

Definition allNonMinesRevealed (b : Board) : run bool :=
  do o <- for_return (rows b) (fun r =>
         for_return (cols b) (fun c =>
           do cell <- cell_ref b r c ;
           if negb (m_hasMine cell) && negb (m_revealed cell)
           then Ret (Some false) else Ret None)) ;
  match o with
  | Some v => Ret v
  | None => Ret true
  end.

Definition isClearedCell (b : Board) (row col : Z) : run bool :=
  if negb (inBounds b row col) then Ret false
  else
    do rv <- isRevealed b row col ;
    if negb rv then Ret false
    else do n <- neighborMineCount b row col ; Ret (n =? 0).

(** Step 1 of [initialize]: every cell is reset. *)
Definition reset_all (b : Board) : run Board :=
  for_each (rows b) (fun s r =>
    for_each (cols b) (fun s c => cell_update s r c Cell_reset) s) b.

(** Step 2 of [initialize]: the [while (placed < m_mineCount)] loop.
    [draws] are the successive results of [std::rand()], which the C
    library takes from [0 .. RAND_MAX]; the loop uses two of them per
    iteration and is cut ([Fuel]) when they run out. *)
Fixpoint place_mines (draws : list Z) (placed : Z) (b : Board) : run Board :=
  if placed <? m_mineCount b then
    match draws with
    | x :: y :: rest =>
        if (m_height b =? 0) || (m_width b =? 0) then Undef
        else
          let rr := Z.rem x (m_height b) in
          let cc := Z.rem y (m_width b) in
          do cell <- cell_ref b rr cc ;
          if negb (m_hasMine cell) then
            do b' <- cell_update b rr cc (fun c => Cell_setMine c true) ;
            place_mines rest (placed + 1) b'
          else place_mines rest placed b
    | _ => Fuel
    end
  else Ret b.

Definition initialize (b : Board) (draws : list Z) : run Board :=
  do b0 <- reset_all b ;
  place_mines draws 0 b0.

(** ** minesweeperwindow.cpp

    The window owns one board, created as [Board(m_cols, m_rows, m_mineCount)]:
    its [m_rows] and [m_cols] are the board's height and width, and the
    buttons are exactly the in-range coordinates. *)

(** What a left click tells the player: [gameOver(false)] is [Loss],
    [gameOver(true)] is [Win], a return with no dialog is [Continue]. *)
Inductive Outcome : Type := Continue | Win | Loss.

(** The loop of [gameOver] that runs when the game is lost: every mined
    cell is set revealed.  The board it leaves is the one on display when the
    dialog opens; a restart then goes through [resetGame]. *)
Definition gameOver (b : Board) (won : bool) : run Board :=
  if negb won then
    for_each (rows b) (fun s r =>
      for_each (cols b) (fun s c =>
        do m <- isMine s r c ;
        if m then setRevealed s r c true else Ret s) s) b
  else Ret b.

Definition resetGame (b : Board) (draws : list Z) : run Board :=
  initialize b draws.

Definition checkWinCondition (b : Board) : run (Board * Outcome) :=
  do w <- allNonMinesRevealed b ;
  if w then (do b' <- gameOver b true ; Ret (b', Win))
  else Ret (b, Continue).

(** The state of one run of [cascadeReveal]: the board, the queue [q], and
    two logs: every cell given to [q.push] and every cell the loop has set
    revealed (the calls of [updateButtonAppearance]), oldest first. *)
Record Cascade : Type := mkCascade {
  c_board : Board;
  c_queue : list Point;
  c_pushed : list Point;
  c_shown : list Point
}.

(** The body of the two [for] loops of [cascadeReveal] for one [(dr, dc)]. *)
Definition cascade_visit (p : Point) (s : Cascade) (dr dc : Z) : run Cascade :=
  if (dr =? 0) && (dc =? 0) then Ret s
  else
    let rr := p.1 + dr in
    let cc := p.2 + dc in
    let b := c_board s in
    if negb (inBounds b rr cc) then Ret s
    else
      do rv <- isRevealed b rr cc ;
      if rv then Ret s
      else
        do mk <- markState b rr cc ;
        if decide (mk = Flag) then Ret s
        else
          do b' <- setRevealed b rr cc true ;
          do n <- neighborMineCount b' rr cc ;
          if n =? 0 then
            Ret (mkCascade b' (c_queue s ++ [(rr, cc)])
                           (c_pushed s ++ [(rr, cc)]) (c_shown s ++ [(rr, cc)]))
          else
            Ret (mkCascade b' (c_queue s) (c_pushed s) (c_shown s ++ [(rr, cc)])).

(** One iteration of [while (!q.empty())], after [p] has been popped. *)
Definition cascade_expand (p : Point) (s : Cascade) : run Cascade :=
  for_each deltas (fun s dr =>
    for_each deltas (fun s dc => cascade_visit p s dr dc) s) s.

Fixpoint cascade_loop (fuel : nat) (s : Cascade) : run Cascade :=
  match c_queue s with
  | [] => Ret s
  | p :: q =>
      match fuel with
      | O => Fuel
      | S fuel' =>
          do s' <- cascade_expand p (mkCascade (c_board s) q (c_pushed s) (c_shown s)) ;
          cascade_loop fuel' s'
      end
  end.

(** The number of cells of the grid. *)
Definition area (b : Board) : nat := Z.to_nat (m_height b) * Z.to_nat (m_width b).

(** [cascadeReveal]: the loop is given one iteration per cell of the grid
    and one for the start, which is all it can use (see [cascade_loop_fuel]). *)
Definition cascadeReveal (b : Board) (startRow startCol : Z) : run Cascade :=
  cascade_loop (S (area b))
               (mkCascade b [(startRow, startCol)] [(startRow, startCol)] []).

Definition revealCell (b : Board) (row col : Z) : run (Board * Outcome) :=
  do m <- isMine b row col ;
  if m then
    do b1 <- setRevealed b row col true ;
    do b2 <- gameOver b1 false ;
    Ret (b2, Loss)
  else
    do b1 <- setRevealed b row col true ;
    do n <- neighborMineCount b1 row col ;
    do b2 <- (if n =? 0 then do s <- cascadeReveal b1 row col ; Ret (c_board s)
           else Ret b1) ;
    checkWinCondition b2.

(** A left click on the button of cell [(row, col)]. *)
Definition onCellLeftClicked (b : Board) (row col : Z) : run (Board * Outcome) :=
  do rv <- isRevealed b row col ;
  if rv then Ret (b, Continue)
  else
    do mk <- markState b row col ;
    if decide (mk = Flag) then Ret (b, Continue)
    else revealCell b row col.

(** A right-button press on the object tagged [(row, col)]: the two [for]
    loops of [eventFilter] find the button when the tag is one of the grid's,
    and the event is passed on otherwise. *)
Definition eventFilter (b : Board) (row col : Z) : run Board :=
  if inBounds b row col then
    do st <- markState b row col ;
    match st with
    | NoMark => setMarkState b row col Flag
    | Flag => setMarkState b row col Question
    | Question => setMarkState b row col NoMark
    end
  else Ret b.

(** ** minesweeperwindow.cpp: the buttons

    The functions above are the handlers as they act on the board.  The
    window also keeps one [QPushButton] per cell, which
    [updateButtonAppearance] redraws; what follows is the same handlers with
    the buttons they touch.  A button is the four properties the program
    sets on it; its fixed size and its [row] and [col] tags never change. *)

Inductive Icon : Type := NoIcon | MineIcon | FlagIcon | QuestionIcon.

(** [b_iconSize] is [None] until [setIconSize] is called (the size is then
    the widget style's). *)
Record Button : Type := mkButton {
  b_icon : Icon;
  b_iconSize : option (Z * Z);
  b_text : string;
  b_enabled : bool;
  b_styleSheet : string
}.

(** [new QPushButton(this)]. *)
Definition Button_new : Button := mkButton NoIcon None "" true "".

Abbreviation Buttons := (list (list Button)).

(** [m_buttons[row][col]], and a change of the button it points to. *)
Definition button_ref (g : Buttons) (row col : Z) : run Button :=
  do line <- at_ g row ;
  at_ line col.

Definition button_update (g : Buttons) (row col : Z) (f : Button -> Button) : run Buttons :=
  do _ <- button_ref g row col ;
  Ret (alter (alter f (Z.to_nat col)) (Z.to_nat row) g).

(** The window: its board and its grid of buttons ([m_rows] and [m_cols]
    are the board's height and width). *)
Record Window : Type := mkWindow {
  m_board : Board;
  m_buttons : Buttons
}.

(** [setupUI]: [m_rows] rows of [m_cols] new buttons. *)
Definition setupUI (m_rows m_cols : Z) : Buttons :=
  replicate (Z.to_nat m_rows) (replicate (Z.to_nat m_cols) Button_new).

(** The constructor, for given values of [m_rows], [m_cols] and
    [m_mineCount]: the board is made with the width [m_cols] and the height
    [m_rows], initialized, and the buttons are set up. *)
Definition MinesweeperWindow_with (m_rows m_cols mineCount : Z) (draws : list Z) : run Window :=
  do b <- initialize (Board_new m_cols m_rows mineCount) draws ;
  Ret (mkWindow b (setupUI m_rows m_cols)).

(** The constructor as it is: 16 rows, 30 columns, 99 mines. *)
Definition MinesweeperWindow_new (draws : list Z) : run Window :=
  MinesweeperWindow_with 16 30 99 draws.

(** The buttons are never null, so the test [if (!btn) return] is passed. *)
Definition updateButtonAppearance (b : Board) (g : Buttons) (row col : Z) : run Buttons :=
  do _ <- button_ref g row col ;
  do rv <- isRevealed b row col ;
  if rv then
    do m <- isMine b row col ;
    if m then
      button_update g row col (fun btn =>
        mkButton MineIcon (Some (24, 24)) (b_text btn) false (b_styleSheet btn))
    else
      do count <- neighborMineCount b row col ;
      button_update g row col (fun btn =>
        mkButton (b_icon btn) (b_iconSize btn)
                 (if 0 <? count then pretty count else "")
                 false "background-color: #d0d0d0;")
  else
    do st <- markState b row col ;
    match st with
    | NoMark =>
        button_update g row col (fun btn =>
          mkButton NoIcon (b_iconSize btn) "" true "")
    | Flag =>
        button_update g row col (fun btn =>
          mkButton FlagIcon (Some (24, 24)) "" true (b_styleSheet btn))
    | Question =>
        button_update g row col (fun btn =>
          mkButton QuestionIcon (Some (24, 24)) "" true (b_styleSheet btn))
    end.

Definition ui_eventFilter (w : Window) (row col : Z) : run Window :=
  let b := m_board w in
  if inBounds b row col then
    do st <- markState b row col ;
    do b' <- match st with
             | NoMark => setMarkState b row col Flag
             | Flag => setMarkState b row col Question
             | Question => setMarkState b row col NoMark
             end ;
    do g' <- updateButtonAppearance b' (m_buttons w) row col ;
    Ret (mkWindow b' g')
  else Ret w.

(** [gameOver] up to its dialog. *)
Definition ui_gameOver (w : Window) (won : bool) : run Window :=
  if negb won then
    for_each (rows (m_board w)) (fun s r =>
      for_each (cols (m_board w)) (fun s c =>
        do m <- isMine (m_board s) r c ;
        if m then
          do b' <- setRevealed (m_board s) r c true ;
          do g' <- updateButtonAppearance b' (m_buttons s) r c ;
          Ret (mkWindow b' g')
        else Ret s) s) w
  else Ret w.

Definition ui_checkWinCondition (w : Window) : run (Window * Outcome) :=
  do v <- allNonMinesRevealed (m_board w) ;
  if v then (do w' <- ui_gameOver w true ; Ret (w', Win))
  else Ret (w, Continue).

Definition ui_cascade_visit (p : Point) (sg : Cascade * Buttons) (dr dc : Z)
  : run (Cascade * Buttons) :=
  let s := sg.1 in
  if (dr =? 0) && (dc =? 0) then Ret sg
  else
    let rr := p.1 + dr in
    let cc := p.2 + dc in
    let b := c_board s in
    if negb (inBounds b rr cc) then Ret sg
    else
      do rv <- isRevealed b rr cc ;
      if rv then Ret sg
      else
        do mk <- markState b rr cc ;
        if decide (mk = Flag) then Ret sg
        else
          do b' <- setRevealed b rr cc true ;
          do g' <- updateButtonAppearance b' sg.2 rr cc ;
          do n <- neighborMineCount b' rr cc ;
          if n =? 0 then
            Ret (mkCascade b' (c_queue s ++ [(rr, cc)])
                           (c_pushed s ++ [(rr, cc)]) (c_shown s ++ [(rr, cc)]), g')
          else
            Ret (mkCascade b' (c_queue s) (c_pushed s) (c_shown s ++ [(rr, cc)]), g').

Definition ui_cascade_expand (p : Point) (sg : Cascade * Buttons) : run (Cascade * Buttons) :=
  for_each deltas (fun sg dr =>
    for_each deltas (fun sg dc => ui_cascade_visit p sg dr dc) sg) sg.

Fixpoint ui_cascade_loop (fuel : nat) (sg : Cascade * Buttons) : run (Cascade * Buttons) :=
  match c_queue sg.1 with
  | [] => Ret sg
  | p :: q =>
      match fuel with
      | O => Fuel
      | S fuel' =>
          do sg' <- ui_cascade_expand p
                      (mkCascade (c_board sg.1) q (c_pushed sg.1) (c_shown sg.1), sg.2) ;
          ui_cascade_loop fuel' sg'
      end
  end.

Definition ui_cascadeReveal (w : Window) (startRow startCol : Z) : run (Cascade * Buttons) :=
  ui_cascade_loop (S (area (m_board w)))
    (mkCascade (m_board w) [(startRow, startCol)] [(startRow, startCol)] [], m_buttons w).

Definition ui_revealCell (w : Window) (row col : Z) : run (Window * Outcome) :=
  do m <- isMine (m_board w) row col ;
  if m then
    do b1 <- setRevealed (m_board w) row col true ;
    do g1 <- updateButtonAppearance b1 (m_buttons w) row col ;
    do w2 <- ui_gameOver (mkWindow b1 g1) false ;
    Ret (w2, Loss)
  else
    do b1 <- setRevealed (m_board w) row col true ;
    do g1 <- updateButtonAppearance b1 (m_buttons w) row col ;
    do n <- neighborMineCount b1 row col ;
    do w2 <- (if n =? 0
              then do sg <- ui_cascadeReveal (mkWindow b1 g1) row col ;
                   Ret (mkWindow (c_board sg.1) sg.2)
              else Ret (mkWindow b1 g1)) ;
    ui_checkWinCondition w2.

Definition ui_onCellLeftClicked (w : Window) (row col : Z) : run (Window * Outcome) :=
  do rv <- isRevealed (m_board w) row col ;
  if rv then Ret (w, Continue)
  else
    do mk <- markState (m_board w) row col ;
    if decide (mk = Flag) then Ret (w, Continue)
    else ui_revealCell w row col.

(** [resetGame]: a new game on the board, and every button back to no
    icon, no text, enabled, no style sheet. *)
Definition ui_resetGame (w : Window) (draws : list Z) : run Window :=
  do b' <- initialize (m_board w) draws ;
  do g' <- for_each (rows (m_board w)) (fun g r =>
             for_each (cols (m_board w)) (fun g c =>
               button_update g r c (fun btn =>
                 mkButton NoIcon (b_iconSize btn) "" true "")) g) (m_buttons w) ;
  Ret (mkWindow b' g').

(** * The vocabulary of the properties *)

(** The cell at [p], when [p] indexes the vectors within their sizes. *)
Definition cell_at (b : Board) (p : Point) : option Cell :=
  match cell_ref b p.1 p.2 with
  | Ret c => Some c
  | _ => None
  end.

Definition mineAt (b : Board) (p : Point) : bool :=
  match cell_at b p with Some c => m_hasMine c | None => false end.

Definition revealedAt (b : Board) (p : Point) : bool :=
  match cell_at b p with Some c => m_revealed c | None => false end.

Definition markAt (b : Board) (p : Point) : MarkState :=
  match cell_at b p with Some c => m_mark c | None => NoMark end.

(** [p] is a coordinate of the grid. *)
Definition inGrid (b : Board) (p : Point) : Prop := inBounds b p.1 p.2 = true.

(** The shape the constructor gives [m_cells] and every operation keeps:
    [m_height] rows of [m_width] cells. *)
Definition wf (b : Board) : Prop :=
  length (m_cells b) = Z.to_nat (m_height b) /\
  Forall (fun line => length line = Z.to_nat (m_width b)) (m_cells b).

(** Two boards of the same dimensions and mine count. *)
Definition same_dims (b b' : Board) : Prop :=
  m_width b' = m_width b /\ m_height b' = m_height b /\ m_mineCount b' = m_mineCount b.

(** [b'] is [b] with the cell at [p] replaced by [f] of it. *)
Definition updated (b : Board) (p : Point) (f : Cell -> Cell) (b' : Board) : Prop :=
  wf b' /\ same_dims b b' /\
  cell_at b' p = f <$> cell_at b p /\
  (forall q, q <> p -> cell_at b' q = cell_at b q).

(** The pairs [(dr, dc)] the two loops over [deltas] reach, in their order. *)
Definition offsets8 : list Point :=
  [(-1, -1); (-1, 0); (-1, 1); (0, -1); (0, 1); (1, -1); (1, 0); (1, 1)].

Definition shift (p o : Point) : Point := (p.1 + o.1, p.2 + o.2).

Definition neighbours (p : Point) : list Point := map (shift p) offsets8.

(** All coordinates of the grid, row by row. *)
Definition coords (b : Board) : list Point := list_prod (rows b) (cols b).

(** The number of mined cells among the coordinates [l]. *)
Definition mines_among (b : Board) (l : list Point) : Z :=
  Z.of_nat (length (filter (fun q => mineAt b q = true) l)).

(** The distance of the specification: the larger of the row and column
    differences. *)
Definition chebyshev (p q : Point) : Z :=
  Z.max (Z.abs (q.1 - p.1)) (Z.abs (q.2 - p.2)).

(** The cells of the grid at distance exactly 1 from [p] that hold a mine. *)
Definition moore_mines (b : Board) (p : Point) : list Point :=
  filter (fun q => chebyshev p q = 1 /\ mineAt b q = true) (coords b).

(** A cell the cascade may reveal: on the grid, hidden, and not flagged. *)
Definition open_cell (b : Board) (q : Point) : Prop :=
  inGrid b q /\ revealedAt b q = false /\ markAt b q <> Flag.

(** [neighborMineCount] is zero at [p]. *)
Definition zero_count (b : Board) (p : Point) : Prop :=
  mines_among b (neighbours p) = 0.

(** The cells a cascade from [start] gets to on board [b]: the open
    neighbours of [start], and the open neighbours of every cell of count zero
    it has got to. *)
Inductive reached (b : Board) (start : Point) : Point -> Prop :=
| reached_first q :
    q ∈ neighbours start -> open_cell b q -> reached b start q
| reached_next p q :
    reached b start p -> zero_count b p ->
    q ∈ neighbours p -> open_cell b q -> reached b start q.

(** The number of hidden cells of the grid. *)
Definition hidden (b : Board) : nat :=
  length (filter (fun q => revealedAt b q = false) (coords b)).

(** What bounds the iterations left: one per queued cell, and one per cell
    that can still be pushed. *)
Definition cascade_measure (s : Cascade) : nat :=
  (length (c_queue s) + hidden (c_board s))%nat.

(** A cell whose neighbours the loop has to go through: the start, and
    every cell of count zero it has revealed. *)
Definition expandable (b0 : Board) (start : Point) (s : Cascade) (p : Point) : Prop :=
  p = start \/ (p ∈ c_shown s /\ zero_count b0 p).

(** Every open neighbour of [p] has been revealed. *)
Definition expanded (b0 : Board) (s : Cascade) (p : Point) : Prop :=
  forall q, q ∈ neighbours p -> open_cell b0 q -> revealedAt (c_board s) q = true.

(** The invariant of the loop of [cascadeReveal] called on board [b0] with
    start cell [start]; [cur] is the cell popped and being expanded. *)
Record cascade_inv (b0 : Board) (start : Point) (cur : option Point) (s : Cascade) : Prop := {
  ci_wf : wf (c_board s);
  ci_dims : same_dims b0 (c_board s);
  ci_mine : forall q, mineAt (c_board s) q = mineAt b0 q;
  ci_mark : forall q, markAt (c_board s) q = markAt b0 q;
  ci_rev : forall q, revealedAt (c_board s) q = true <->
                     revealedAt b0 q = true \/ q ∈ c_shown s;
  ci_shown : forall q, q ∈ c_shown s -> reached b0 start q /\ revealedAt b0 q = false;
  ci_nodup : NoDup (c_shown s);
  ci_pushed : exists l, c_pushed s = start :: l /\ sublist l (c_shown s) /\
                        forall p, p ∈ l -> zero_count b0 p;
  ci_queue : forall p, p ∈ c_queue s -> expandable b0 start s p;
  ci_todo : forall p, expandable b0 start s p ->
                     p ∈ c_queue s \/ Some p = cur \/ expanded b0 s p
}.

(** Every cell without a mine is revealed. *)
Definition all_safe_revealed (b : Board) : Prop :=
  forall q, inGrid b q -> mineAt b q = false -> revealedAt b q = true.

(** The region the specification speaks of: the cells of count zero
    connected to [start] through cells of count zero, and the cells of the
    grid next to one of them. *)
Inductive zero_region (b : Board) (start : Point) : Point -> Prop :=
| zero_region_start : zero_region b start start
| zero_region_step p q :
    zero_region b start p -> q ∈ neighbours p -> inGrid b q -> zero_count b q ->
    zero_region b start q.

Definition region_or_border (b : Board) (start q : Point) : Prop :=
  zero_region b start q \/
  exists p, zero_region b start p /\ q ∈ neighbours p /\ inGrid b q /\ ~ zero_count b q.

(** The cycle of the specification: [None -> Flag -> Question -> None]. *)
Definition cycle_next (st : MarkState) : MarkState :=
  match st with
  | NoMark => Flag
  | Flag => Question
  | Question => NoMark
  end.

Definition hid : Cell := mkCell false false NoMark.
Definition shown_cell : Cell := mkCell false true NoMark.
Definition mine_cell : Cell := mkCell true false NoMark.

(** One row, three columns, the mine in column 2 (the scenario of the
    specification). *)
Definition board_1x3 : Board := mkBoard 3 1 1 [[hid; hid; mine_cell]].

(** One row, six columns, the mine in column 5; column 1 is revealed and
    its neighbours are not.  Play gets there ([play_to_barrier]). *)
Definition board_barrier : Board :=
  mkBoard 6 1 1 [[hid; shown_cell; hid; hid; hid; mine_cell]].

(** Two rows, two columns, mines in [(0, 0)] and [(1, 1)]. *)
Definition board_2x2 : Board :=
  mkBoard 2 2 2 [[mine_cell; hid]; [hid; mine_cell]].

(** One row, three columns, the mine in column 2, column 0 revealed. *)
Definition board_1x3_open : Board := mkBoard 3 1 1 [[shown_cell; hid; mine_cell]].

(** [board_barrier] after a left click on column 3 and a right click on
    column 5. *)
Definition board_late : Board :=
  mkBoard 6 1 1 [[hid; shown_cell; shown_cell; shown_cell; shown_cell;
                  mkCell true false Flag]].

(** The coordinates of the mined cells, row by row. *)
Definition mined_coords (b : Board) : list Point :=
  filter (fun q => mineAt b q = true) (coords b).

(** No cell of the grid is revealed or marked. *)
Definition all_hidden_unmarked (b : Board) : Prop :=
  forall q, inGrid b q -> revealedAt b q = false /\ markAt b q = NoMark.

(** Draws that hit the cells number [k], [k + 1], ... of the grid, counted
    row by row: each of them is a cell without a mine when its turn comes. *)
Fixpoint fresh_draws (w k : Z) (n : nat) : list Z :=
  match n with
  | O => []
  | S n' => (k / w) :: (k mod w) :: fresh_draws w (k + 1) n'
  end.

(** The boards a game passes through: from [b0], by left clicks that
    end with no dialog ([Continue]) and right clicks, each on a button of the
    grid. *)
Inductive plays (b0 : Board) : Board -> Prop :=
| plays_start : plays b0 b0
| plays_left b row col b' :
    plays b0 b -> inBounds b row col = true ->
    onCellLeftClicked b row col = Ret (b', Continue) -> plays b0 b'
| plays_right b row col b' :
    plays b0 b -> inBounds b row col = true ->
    eventFilter b row col = Ret b' -> plays b0 b'.

(** The buttons form a grid of the shape of the board. *)
Definition wf_buttons (b : Board) (g : Buttons) : Prop :=
  length g = Z.to_nat (m_height b) /\
  Forall (fun line => length line = Z.to_nat (m_width b)) g.

(** The button of cell [p]. *)
Definition button_at (g : Buttons) (p : Point) : option Button :=
  match button_ref g p.1 p.2 with
  | Ret btn => Some btn
  | _ => None
  end.

(** The icon [updateButtonAppearance] gives a hidden cell. *)
Definition icon_of_mark (st : MarkState) : Icon :=
  match st with
  | NoMark => NoIcon
  | Flag => FlagIcon
  | Question => QuestionIcon
  end.

(** The text it gives a revealed cell without a mine: the count, or
    nothing when the count is zero. *)
Definition count_text (b : Board) (p : Point) : string :=
  if 0 <? mines_among b (neighbours p) then pretty (mines_among b (neighbours p)) else "".

(** What [updateButtonAppearance] makes of the button of cell [p]. *)
Definition redraw (b : Board) (p : Point) (btn : Button) : Button :=
  if revealedAt b p then
    if mineAt b p then
      mkButton MineIcon (Some (24, 24)) (b_text btn) false (b_styleSheet btn)
    else
      mkButton (b_icon btn) (b_iconSize btn) (count_text b p) false
               "background-color: #d0d0d0;"
  else
    match markAt b p with
    | NoMark => mkButton NoIcon (b_iconSize btn) "" true ""
    | Flag => mkButton FlagIcon (Some (24, 24)) "" true (b_styleSheet btn)
    | Question => mkButton QuestionIcon (Some (24, 24)) "" true (b_styleSheet btn)
    end.

(** The button [btn] shows cell [p] as the program draws it: enabled
    exactly while the cell is hidden; an icon, when there is one, of 24 by
    24; on a hidden cell the icon of its mark, no text and no style sheet; on
    a revealed mine the mine icon; on a revealed cell without a mine its
    count on grey, with no icon or with the question mark it had when it was
    revealed. *)
Definition button_ok (b : Board) (p : Point) (btn : Button) : Prop :=
  b_enabled btn = negb (revealedAt b p) /\
  (b_icon btn <> NoIcon -> b_iconSize btn = Some (24, 24)) /\
  if revealedAt b p then
    if mineAt b p then
      b_icon btn = MineIcon /\ b_text btn = "" /\ b_styleSheet btn = ""
    else
      (b_icon btn = NoIcon \/ b_icon btn = QuestionIcon) /\
      b_text btn = count_text b p /\
      b_styleSheet btn = "background-color: #d0d0d0;"
  else
    b_icon btn = icon_of_mark (markAt b p) /\ b_text btn = "" /\ b_styleSheet btn = "".

(** Every button of the window shows its cell. *)
Definition ui_ok (w : Window) : Prop :=
  wf (m_board w) /\ wf_buttons (m_board w) (m_buttons w) /\
  forall p, inGrid (m_board w) p ->
            exists btn, button_at (m_buttons w) p = Some btn /\
                        button_ok (m_board w) p btn.

(** From [w] to [w'] cells were revealed and nothing else changed on the
    board, and every button of [w'] is the button of [w] redrawn for the
    board of [w']. *)
Definition redrawn (w w' : Window) : Prop :=
  ui_ok w' /\ same_dims (m_board w) (m_board w') /\
  (forall q, mineAt (m_board w') q = mineAt (m_board w) q /\
             markAt (m_board w') q = markAt (m_board w) q) /\
  (forall q, revealedAt (m_board w) q = true -> revealedAt (m_board w') q = true) /\
  (forall q, inGrid (m_board w) q ->
             button_at (m_buttons w') q
             = redraw (m_board w') q <$> button_at (m_buttons w) q).

(** The windows a session reaches from [w0]: left clicks that do not end the
    game, right clicks, and a new game after a left click that ends one. *)
Inductive ui_plays (w0 : Window) : Window -> Prop :=
| ui_plays_start : ui_plays w0 w0
| ui_plays_left w row col w' :
    ui_plays w0 w -> inBounds (m_board w) row col = true ->
    ui_onCellLeftClicked w row col = Ret (w', Continue) -> ui_plays w0 w'
| ui_plays_right w row col w' :
    ui_plays w0 w -> inBounds (m_board w) row col = true ->
    ui_eventFilter w row col = Ret w' -> ui_plays w0 w'
| ui_plays_again w row col w1 o draws w' :
    ui_plays w0 w -> inBounds (m_board w) row col = true ->
    ui_onCellLeftClicked w row col = Ret (w1, o) -> o <> Continue ->
    Forall (fun x => 0 <= x) draws ->
    ui_resetGame w1 draws = Ret w' -> ui_plays w0 w'.

(** The window the constructor makes of one row, three columns and one
    mine on the draws [0; 2]. *)
Definition window_1x3 : Window := mkWindow board_1x3 (setupUI 1 3).

(** [window_1x3] after two right clicks on column 1. *)
Definition window_1x3_question : Window :=
  mkWindow (mkBoard 3 1 1 [[hid; mkCell false false Question; mine_cell]])
           [[Button_new; mkButton QuestionIcon (Some (24, 24)) "" true ""; Button_new]].

(** * Reading the model *)

(** ** The [run] monad and the loops *)

Lemma bind_Ret {A B : Type} (m : run A) (k : A -> run B) (v : B) :
  (do x <- m ; k x) = Ret v <-> exists a, m = Ret a /\ k a = Ret v.
Proof.
  destruct m as [a| |]; simpl; split; try (intros [a' [? ?]]); try discriminate; eauto.
  intros. congruence.
Qed.

Lemma for_each_app {S A : Type} (l1 l2 : list A) (body : S -> A -> run S) (s : S) :
  for_each (l1 ++ l2) body s = (do s' <- for_each l1 body s ; for_each l2 body s').
Proof.
  revert s. induction l1 as [|x l1 IH]; intros s; simpl; [done|].
  destruct (body s x); simpl; auto.
Qed.

(** Two nested [for] loops are one loop over the pairs, and likewise when
    the body may return. *)
Lemma for_each_prod {S A B : Type} (l1 : list A) (l2 : list B)
    (body : S -> A * B -> run S) (s : S) :
  for_each l1 (fun s x => for_each l2 (fun s y => body s (x, y)) s) s
  = for_each (list_prod l1 l2) body s.
Proof.
  revert s. induction l1 as [|x l1 IH]; intros s; simpl; [done|].
  rewrite for_each_app.
  assert (forall s, for_each (map (fun y => (x, y)) l2) body s
                    = for_each l2 (fun s y => body s (x, y)) s) as ->.
  { clear IH. induction l2 as [|y l2 IH2]; intros s'; simpl; [done|].
    destruct (body s' (x, y)); simpl; auto. }
  destruct (for_each l2 _ s); simpl; auto.
Qed.

Lemma for_return_app {A R : Type} (l1 l2 : list A) (body : A -> run (option R)) :
  for_return (l1 ++ l2) body
  = (do o <- for_return l1 body ;
     match o with Some v => Ret (Some v) | None => for_return l2 body end).
Proof.
  induction l1 as [|x l1 IH]; simpl.
  - by destruct (for_return l2 body) as [[?|]| |].
  - destruct (body x) as [[v|]| |]; simpl; auto.
Qed.

Lemma for_return_prod {A B R : Type} (l1 : list A) (l2 : list B)
    (body : A * B -> run (option R)) :
  for_return l1 (fun x => for_return l2 (fun y => body (x, y)))
  = for_return (list_prod l1 l2) body.
Proof.
  induction l1 as [|x l1 IH]; simpl; [done|].
  rewrite for_return_app.
  assert (for_return (map (fun y => (x, y)) l2) body
          = for_return l2 (fun y => body (x, y))) as ->.
  { clear IH. induction l2 as [|y l2 IH2]; simpl; [done|].
    destruct (body (x, y)) as [[v|]| |]; simpl; auto. }
  destruct (for_return l2 _) as [[v|]| |]; simpl; auto.
Qed.

(** A loop whose body always returns, with an invariant that knows the
    values already gone through, returns a state that satisfies it. *)
Lemma for_each_inv_prefix {S A : Type} (I : list A -> S -> Prop) (l : list A)
    (body : S -> A -> run S) :
  (forall done x s, x ∈ l -> I done s ->
     exists s', body s x = Ret s' /\ I (done ++ [x]) s') ->
  forall s, I [] s -> exists s', for_each l body s = Ret s' /\ I l s'.
Proof.
  intros Hb.
  assert (forall rest done s, (forall x, x ∈ rest -> x ∈ l) -> I done s ->
            exists s', for_each rest body s = Ret s' /\ I (done ++ rest) s') as H.
  { induction rest as [|x rest IH]; intros done s Hsub Hs; simpl.
    - rewrite app_nil_r. eauto.
    - destruct (Hb done x s) as (s1 & -> & H1); [apply Hsub; by left | done |]. simpl.
      destruct (IH (done ++ [x]) s1) as (s2 & E2 & H2); [|done|].
      { intros y Hy. apply Hsub. by right. }
      rewrite <- app_assoc in H2. eauto. }
  intros s Hs. by apply (H l [] s).
Qed.

(** A loop whose body always returns and keeps an invariant returns a
    state that satisfies the invariant. *)
Lemma for_each_inv {S A : Type} (I : S -> Prop) (l : list A) (body : S -> A -> run S) :
  (forall s x, x ∈ l -> I s -> exists s', body s x = Ret s' /\ I s') ->
  forall s, I s -> exists s', for_each l body s = Ret s' /\ I s'.
Proof.
  induction l as [|x l IH]; intros Hb s Hs; simpl.
  - eauto.
  - destruct (Hb s x) as [s1 [E1 H1]]; [left | done |].
    rewrite E1; simpl. apply IH; [|done].
    intros s2 y Hy. apply Hb. by right.
Qed.

(** ** Cells by coordinate *)

Lemma inBounds_spec b row col :
  inBounds b row col = true <-> 0 <= row < m_height b /\ 0 <= col < m_width b.
Proof. unfold inBounds. rewrite !andb_true_iff. lia. Qed.

Lemma inBounds_same b b' row col :
  same_dims b b' -> inBounds b' row col = inBounds b row col.
Proof. intros (Hw & Hh & _). unfold inBounds. by rewrite Hw, Hh. Qed.

Lemma at_Ret {A : Type} (v : list A) (i : Z) (a : A) :
  at_ v i = Ret a <-> 0 <= i /\ v !! Z.to_nat i = Some a.
Proof.
  unfold at_. destruct (Z.leb_spec 0 i).
  - destruct (v !! Z.to_nat i); split; intros; destruct_and?; simplify_eq; auto; try done.
  - split; [done | lia].
Qed.

Lemma at_not_Fuel {A : Type} (v : list A) (i : Z) : at_ v i <> Fuel.
Proof. unfold at_. repeat case_match; done. Qed.

Lemma cell_ref_Ret b row col cell :
  cell_ref b row col = Ret cell <->
  0 <= row /\ 0 <= col /\
  exists line, m_cells b !! Z.to_nat row = Some line /\ line !! Z.to_nat col = Some cell.
Proof.
  unfold cell_ref. rewrite bind_Ret. setoid_rewrite at_Ret. split.
  - intros (line & [? ?] & [? ?]). eauto 6.
  - intros (? & ? & line & ? & ?). eauto 6.
Qed.

Lemma cell_ref_inBounds b row col :
  wf b -> inBounds b row col = true -> exists cell, cell_ref b row col = Ret cell.
Proof.
  intros [Hlen Hall] Hin. apply inBounds_spec in Hin.
  destruct (lookup_lt_is_Some_2 (m_cells b) (Z.to_nat row)) as [line Hline]; [lia|].
  assert (length line = Z.to_nat (m_width b)) as Hl.
  { rewrite Forall_lookup in Hall. eapply Hall, Hline. }
  destruct (lookup_lt_is_Some_2 line (Z.to_nat col)) as [cell Hcell]; [lia|].
  exists cell. apply cell_ref_Ret. split; [lia|]. split; [lia|]. eauto.
Qed.

Lemma cell_ref_outside b row col :
  wf b -> inBounds b row col = false -> cell_ref b row col = Undef.
Proof.
  intros [Hlen Hall] Hout.
  destruct (cell_ref b row col) as [cell| |] eqn:E; [|done|].
  - apply cell_ref_Ret in E as (Hr & Hc & line & Hline & Hcell).
    assert (length line = Z.to_nat (m_width b)) as Hl.
    { rewrite Forall_lookup in Hall. eapply Hall, Hline. }
    apply lookup_lt_Some in Hline, Hcell.
    assert (inBounds b row col = true); [apply inBounds_spec; lia | congruence].
  - unfold cell_ref in E. destruct (at_ (m_cells b) row) eqn:E1; simpl in E.
    + by apply at_not_Fuel in E.
    + done.
    + by apply at_not_Fuel in E1.
Qed.

Lemma cell_at_Some b p :
  wf b -> (is_Some (cell_at b p) <-> inGrid b p).
Proof.
  intros Hwf. unfold cell_at, inGrid. destruct (inBounds b p.1 p.2) eqn:E.
  - destruct (cell_ref_inBounds b p.1 p.2) as [cell ->]; eauto. by split.
  - rewrite cell_ref_outside by done. split; [intros [? ?]|]; done.
Qed.

(** Writing a cell that exists: the board keeps its shape, the cell is
    replaced and no other cell changes. *)
Lemma cell_update_spec b row col f cell :
  wf b -> cell_ref b row col = Ret cell ->
  exists b', cell_update b row col f = Ret b' /\ wf b' /\ same_dims b b' /\
    cell_at b' (row, col) = Some (f cell) /\
    (forall q, q <> (row, col) -> cell_at b' q = cell_at b q).
Proof.
  intros [Hlen Hall] Href. unfold cell_update. rewrite Href. simpl.
  eexists; split; [done|].
  apply cell_ref_Ret in Href as (Hr & Hc & line & Hline & Hcell).
  split; [|split; [done|split]].
  - split; simpl.
    + by rewrite length_alter.
    + apply Forall_alter; [done|]. intros l' Hl'.
      rewrite length_alter. rewrite Forall_lookup in Hall. eauto.
  - unfold cell_at. simpl.
    assert (cell_ref (mkBoard (m_width b) (m_height b) (m_mineCount b)
              (alter (alter f (Z.to_nat col)) (Z.to_nat row) (m_cells b))) row col
            = Ret (f cell)) as ->; [|done].
    apply cell_ref_Ret. simpl. repeat split; try done.
    exists (alter f (Z.to_nat col) line).
    by rewrite !list_lookup_alter_eq, Hline, Hcell.
  - intros [r' c'] Hne. unfold cell_at, cell_ref, at_. simpl.
    destruct (Z.leb_spec 0 r'); [|done].
    destruct (decide (Z.to_nat row = Z.to_nat r')) as [Er|Er].
    + assert (r' = row) as -> by lia.
      rewrite list_lookup_alter_eq, Hline. simpl.
      destruct (Z.leb_spec 0 c'); [|done].
      rewrite list_lookup_alter_ne; [done|].
      intros ?. apply Hne. f_equal. lia.
    + by rewrite list_lookup_alter_ne.
Qed.

Lemma mineAt_inGrid b p : wf b -> mineAt b p = true -> inGrid b p.
Proof.
  intros Hwf Hm. apply cell_at_Some; [done|]. unfold mineAt in Hm.
  destruct (cell_at b p); [eauto | done].
Qed.

Lemma revealedAt_inGrid b p : wf b -> revealedAt b p = true -> inGrid b p.
Proof.
  intros Hwf Hm. apply cell_at_Some; [done|]. unfold revealedAt in Hm.
  destruct (cell_at b p); [eauto | done].
Qed.

(** The readers, on a coordinate of the grid. *)
Lemma isMine_inGrid b row col :
  wf b -> inBounds b row col = true -> isMine b row col = Ret (mineAt b (row, col)).
Proof.
  intros Hwf Hin. destruct (cell_ref_inBounds b row col) as [cell E]; [done..|].
  unfold isMine, mineAt, cell_at. simpl. by rewrite E.
Qed.

Lemma isRevealed_inGrid b row col :
  wf b -> inBounds b row col = true -> isRevealed b row col = Ret (revealedAt b (row, col)).
Proof.
  intros Hwf Hin. destruct (cell_ref_inBounds b row col) as [cell E]; [done..|].
  unfold isRevealed, revealedAt, cell_at. simpl. by rewrite E.
Qed.

Lemma markState_inGrid b row col :
  wf b -> inBounds b row col = true -> markState b row col = Ret (markAt b (row, col)).
Proof.
  intros Hwf Hin. destruct (cell_ref_inBounds b row col) as [cell E]; [done..|].
  unfold markState, markAt, cell_at. simpl. by rewrite E.
Qed.

Lemma cell_update_inGrid b row col f :
  wf b -> inBounds b row col = true ->
  exists b', cell_update b row col f = Ret b' /\ updated b (row, col) f b'.
Proof.
  intros Hwf Hin. destruct (cell_ref_inBounds b row col) as [cell E]; [done..|].
  destruct (cell_update_spec b row col f cell) as (b' & E' & ? & ? & Hp & Hq); [done..|].
  exists b'. split; [done|]. split_and!; try done.
  rewrite Hp. unfold cell_at. simpl. by rewrite E.
Qed.

Lemma updated_inGrid b p f b' q : updated b p f b' -> inGrid b' q <-> inGrid b q.
Proof. intros (_ & Hd & _). unfold inGrid. by rewrite (inBounds_same b b'). Qed.

(** A cell is its three fields. *)
Lemma cell_at_ext b b' q :
  wf b -> wf b' -> same_dims b b' ->
  mineAt b' q = mineAt b q -> revealedAt b' q = revealedAt b q ->
  markAt b' q = markAt b q -> cell_at b' q = cell_at b q.
Proof.
  intros Hwf Hwf' Hd. unfold mineAt, revealedAt, markAt.
  pose proof (cell_at_Some b q Hwf) as H1. pose proof (cell_at_Some b' q Hwf') as H2.
  unfold inGrid in *. rewrite (inBounds_same b b') in H2 by done.
  destruct (cell_at b q) as [[m r k]|], (cell_at b' q) as [[m' r' k']|]; simpl.
  - by intros -> -> ->.
  - intros _ _ _. destruct H2 as [_ H2]. destruct H2; [by apply H1; eauto|done].
  - intros _ _ _. destruct H1 as [_ H1]. destruct H1; [by apply H2; eauto|done].
  - done.
Qed.

(** What [setRevealed], [setMarkState] and [setMine] leave alone. *)
Lemma updated_revealed b p v b' :
  updated b p (fun c => Cell_setRevealed c v) b' ->
  (forall q, mineAt b' q = mineAt b q) /\ (forall q, markAt b' q = markAt b q) /\
  (forall q, q <> p -> revealedAt b' q = revealedAt b q) /\
  (is_Some (cell_at b p) -> revealedAt b' p = v).
Proof.
  intros (_ & _ & Hp & Hq). split_and!.
  - intros q. unfold mineAt. destruct (decide (q = p)) as [->|Hne].
    + rewrite Hp. by destruct (cell_at b p).
    + by rewrite Hq.
  - intros q. unfold markAt. destruct (decide (q = p)) as [->|Hne].
    + rewrite Hp. by destruct (cell_at b p).
    + by rewrite Hq.
  - intros q Hne. unfold revealedAt. by rewrite Hq.
  - intros [cell Hc]. unfold revealedAt. by rewrite Hp, Hc.
Qed.

Lemma updated_mark b p st b' :
  updated b p (fun c => Cell_setMarkState c st) b' ->
  (forall q, mineAt b' q = mineAt b q) /\ (forall q, revealedAt b' q = revealedAt b q) /\
  (forall q, q <> p -> markAt b' q = markAt b q) /\
  (is_Some (cell_at b p) -> markAt b' p = st).
Proof.
  intros (_ & _ & Hp & Hq). split_and!.
  - intros q. unfold mineAt. destruct (decide (q = p)) as [->|Hne].
    + rewrite Hp. by destruct (cell_at b p).
    + by rewrite Hq.
  - intros q. unfold revealedAt. destruct (decide (q = p)) as [->|Hne].
    + rewrite Hp. by destruct (cell_at b p).
    + by rewrite Hq.
  - intros q Hne. unfold markAt. by rewrite Hq.
  - intros [cell Hc]. unfold markAt. by rewrite Hp, Hc.
Qed.

Lemma updated_mine b p v b' :
  updated b p (fun c => Cell_setMine c v) b' ->
  (forall q, revealedAt b' q = revealedAt b q) /\ (forall q, markAt b' q = markAt b q) /\
  (forall q, q <> p -> mineAt b' q = mineAt b q) /\
  (is_Some (cell_at b p) -> mineAt b' p = v).
Proof.
  intros (_ & _ & Hp & Hq). split_and!.
  - intros q. unfold revealedAt. destruct (decide (q = p)) as [->|Hne].
    + rewrite Hp. by destruct (cell_at b p).
    + by rewrite Hq.
  - intros q. unfold markAt. destruct (decide (q = p)) as [->|Hne].
    + rewrite Hp. by destruct (cell_at b p).
    + by rewrite Hq.
  - intros q Hne. unfold mineAt. by rewrite Hq.
  - intros [cell Hc]. unfold mineAt. by rewrite Hp, Hc.
Qed.

(** ** The Moore neighbourhood *)

Lemma elem_of_coords b p : p ∈ coords b <-> inGrid b p.
Proof.
  destruct p as [r c]. unfold coords, inGrid, rows, cols.
  rewrite list_elem_of_In, in_prod_iff, <- !list_elem_of_In, !elem_of_seqZ.
  rewrite inBounds_spec. simpl. lia.
Qed.

Lemma NoDup_list_prod {A B : Type} (l : list A) (k : list B) :
  NoDup l -> NoDup k -> NoDup (list_prod l k).
Proof.
  intros Hl Hk. induction Hl as [|x l Hx Hl IH]; simpl; [constructor|].
  apply NoDup_app. split_and!; [|  |done].
  - apply (NoDup_fmap_2_strong (fun y => (x, y))); [|done]. by intros ?? _ _ [=].
  - intros [a c]. rewrite list_elem_of_fmap, list_elem_of_In, in_prod_iff.
    intros (y & [=] & _) [Ha _]. subst. by apply Hx, list_elem_of_In.
Qed.

Lemma NoDup_coords b : NoDup (coords b).
Proof. apply NoDup_list_prod; apply NoDup_seqZ. Qed.

Lemma length_coords b : length (coords b) = area b.
Proof. unfold coords, area, rows, cols. by rewrite length_prod, !length_seqZ. Qed.

Lemma NoDup_neighbours p : NoDup (neighbours p).
Proof.
  unfold neighbours. apply NoDup_fmap_2_strong.
  - intros [a1 a2] [b1 b2] _ _. unfold shift. simpl. intros [=]. f_equal; lia.
  - unfold offsets8. repeat (constructor; [set_solver|]). constructor.
Qed.

Lemma neighbours_sym p q : q ∈ neighbours p -> p ∈ neighbours q.
Proof.
  unfold neighbours. rewrite !list_elem_of_fmap.
  intros ([o1 o2] & -> & Ho). exists (- o1, - o2). split.
  - unfold shift. destruct p. simpl. f_equal; lia.
  - unfold offsets8 in *. set_unfold. naive_solver.
Qed.

(** ** [neighborMineCount] *)

Lemma mine_probe b count rr cc :
  wf b ->
  (if inBounds b rr cc
   then do cell <- cell_ref b rr cc ;
        if m_hasMine cell then Ret (count + 1) else Ret count
   else Ret count)
  = Ret (count + if mineAt b (rr, cc) then 1 else 0).
Proof.
  intros Hwf. destruct (inBounds b rr cc) eqn:Hin.
  - destruct (cell_ref_inBounds b rr cc Hwf Hin) as [cell Ec].
    unfold mineAt, cell_at. simpl. rewrite Ec. simpl.
    destruct (m_hasMine cell); f_equal; lia.
  - destruct (mineAt b (rr, cc)) eqn:Hm.
    + apply mineAt_inGrid in Hm; [|done]. unfold inGrid in Hm. simpl in Hm. congruence.
    + f_equal; lia.
Qed.

Lemma fold_mines b l n :
  fold_left (fun n q => n + if mineAt b q then 1 else 0) l n = n + mines_among b l.
Proof.
  unfold mines_among. revert n. induction l as [|q l IH]; intros n; simpl.
  - lia.
  - rewrite IH, filter_cons. destruct (mineAt b q); case_decide; try done; simpl length; lia.
Qed.

Lemma neighborMineCount_neighbours b row col :
  wf b -> neighborMineCount b row col = Ret (mines_among b (neighbours (row, col))).
Proof.
  intros Hwf.
  rewrite <- (Z.add_0_l (mines_among _ _)), <- fold_mines.
  unfold neighborMineCount, deltas, neighbours, offsets8, shift.
  cbn [for_each map fold_left fst snd Z.eqb andb Pos.eqb].
  repeat (rewrite mine_probe by done; cbn [run_bind]).
  done.
Qed.

Lemma mines_among_bounds b p : 0 <= mines_among b (neighbours p) <= 8.
Proof.
  unfold mines_among.
  pose proof (length_filter (fun q => mineAt b q = true) (neighbours p)) as H.
  change (length (neighbours p)) with 8%nat in H. lia.
Qed.

(** No mine next to a cell of count zero. *)
Lemma mines_among_zero b l q :
  mines_among b l = 0 -> q ∈ l -> mineAt b q = false.
Proof.
  unfold mines_among. intros H0 Hq.
  destruct (mineAt b q) eqn:Hm; [|done].
  assert (q ∈ filter (fun q => mineAt b q = true) l) as Hin
    by (by apply list_elem_of_filter).
  destruct (filter _ l); [by apply elem_of_nil in Hin | simpl in H0; lia].
Qed.

Lemma elem_of_neighbours p q : q ∈ neighbours p <-> chebyshev p q = 1.
Proof.
  destruct p as [r c], q as [r' c']. unfold neighbours, chebyshev, offsets8, shift.
  set_unfold. simpl. split.
  - intros ([o1 o2] & [= -> ->] & Ho). simpl. destruct_or!; simplify_eq; lia.
  - intros Hd. exists (r' - r, c' - c). simpl. split; [f_equal; lia|].
    assert (r' - r = -1 \/ r' - r = 0 \/ r' - r = 1) as Hr by lia.
    assert (c' - c = -1 \/ c' - c = 0 \/ c' - c = 1) as Hc by lia.
    destruct Hr as [Hr | [Hr | Hr]], Hc as [Hc | [Hc | Hc]]; rewrite Hr, Hc;
      first [exfalso; lia | auto 10].
Qed.

Lemma mines_among_moore b p :
  wf b -> mines_among b (neighbours p) = Z.of_nat (length (moore_mines b p)).
Proof.
  intros Hwf. unfold mines_among, moore_mines. f_equal.
  apply Permutation_length, NoDup_Permutation.
  - apply NoDup_filter, NoDup_neighbours.
  - apply NoDup_filter, NoDup_coords.
  - intros q. rewrite !list_elem_of_filter, elem_of_neighbours, elem_of_coords.
    split; [|tauto]. intros [Hm Hd]. split_and!; try done. by apply mineAt_inGrid.
Qed.

(** * The cascade *)

Lemma mines_among_ext b b' l :
  (forall q, mineAt b' q = mineAt b q) -> mines_among b' l = mines_among b l.
Proof.
  intros H. unfold mines_among. f_equal. f_equal.
  apply list_filter_iff. intros q. by rewrite H.
Qed.

Lemma coords_same b b' : same_dims b b' -> coords b' = coords b.
Proof. intros (Hw & Hh & _). unfold coords, rows, cols. by rewrite Hw, Hh. Qed.

Lemma filter_agree {A : Type} (P P' : A -> Prop)
    `{!forall x, Decision (P x)} `{!forall x, Decision (P' x)} (l : list A) :
  (forall y, y ∈ l -> (P y <-> P' y)) -> filter P l = filter P' l.
Proof.
  induction l as [|y l IH]; intros Hag; [done|].
  rewrite !filter_cons, IH by (intros; apply Hag; by right).
  assert (P y <-> P' y) as Hy by (apply Hag; by left).
  destruct (decide (P y)), (decide (P' y)); tauto.
Qed.

Lemma filter_flip_one {A : Type} (P P' : A -> Prop)
    `{!forall x, Decision (P x)} `{!forall x, Decision (P' x)} (l : list A) (x : A) :
  NoDup l -> x ∈ l -> P x -> ~ P' x -> (forall y, y <> x -> (P y <-> P' y)) ->
  length (filter P l) = S (length (filter P' l)).
Proof.
  intros Hnd Hx HP HP' Hrest. induction Hnd as [|y l Hy Hnd IH].
  - by apply elem_of_nil in Hx.
  - rewrite !filter_cons. apply elem_of_cons in Hx as [<-|Hx].
    + rewrite decide_True, decide_False by done. simpl. f_equal. f_equal.
      apply filter_agree. intros z Hz. apply Hrest. by intros ->.
    + assert (y <> x) as Hne by (by intros ->).
      specialize (Hrest y Hne).
      destruct (decide (P y)), (decide (P' y)); simpl; rewrite IH by done; tauto.
Qed.

Lemma hidden_reveal b q b' :
  updated b q (fun c => Cell_setRevealed c true) b' ->
  inGrid b q -> wf b -> revealedAt b q = false ->
  hidden b = S (hidden b').
Proof.
  intros Hup Hq Hwf Hrev.
  destruct (updated_revealed _ _ _ _ Hup) as (_ & _ & Hother & Hself).
  unfold hidden. rewrite (coords_same b b') by apply Hup.
  apply (filter_flip_one _ _ _ q).
  - apply NoDup_coords.
  - by apply elem_of_coords.
  - done.
  - rewrite Hself; [done|]. by apply cell_at_Some.
  - intros y Hy. by rewrite Hother.
Qed.

Lemma hidden_le_area b : (hidden b <= area b)%nat.
Proof. unfold hidden. rewrite <- length_coords. apply length_filter. Qed.

(** One neighbour of [p]: either nothing happens (the pair is [(0, 0)], or
    the neighbour is off the grid, already revealed, or flagged), or the
    neighbour is set revealed, and pushed when its count is zero. *)
Lemma cascade_visit_cases p s o :
  wf (c_board s) ->
  let q := shift p o in
  let b := c_board s in
  (cascade_visit p s (fst o) (snd o) = Ret s /\
   (o = (0, 0) \/ ~ inGrid b q \/ revealedAt b q = true \/ markAt b q = Flag)) \/
  (o <> (0, 0) /\ open_cell b q /\
   exists b', updated b q (fun c => Cell_setRevealed c true) b' /\
     cascade_visit p s (fst o) (snd o) =
     Ret (if decide (mines_among b (neighbours q) = 0)
          then mkCascade b' (c_queue s ++ [q]) (c_pushed s ++ [q]) (c_shown s ++ [q])
          else mkCascade b' (c_queue s) (c_pushed s) (c_shown s ++ [q]))).
Proof.
  intros Hwf q b. destruct o as [dr dc]. unfold cascade_visit. cbn [fst snd].
  destruct ((dr =? 0) && (dc =? 0)) eqn:E0.
  { left. split; [done|]. left. apply andb_true_iff in E0. f_equal; lia. }
  assert ((dr, dc) <> (0, 0)) as Hne.
  { intros [= -> ->]. done. }
  fold b. cbv zeta.
  assert (q = (p.1 + dr, p.2 + dc)) as Hq by done.
  generalize dependent (p.1 + dr). generalize dependent (p.2 + dc).
  intros cc rr ->. clear Hne.
  destruct (inBounds b rr cc) eqn:Hin; cbn [negb].
  2:{ left. split; [done|]. right. left. unfold inGrid. simpl. congruence. }
  rewrite isRevealed_inGrid by done. cbn [run_bind].
  destruct (revealedAt b (rr, cc)) eqn:Hrev.
  { left. split; [done|]. tauto. }
  rewrite markState_inGrid by done. cbn [run_bind].
  destruct (decide (markAt b (rr, cc) = Flag)) as [Hmk|Hmk].
  { left. split; [done|]. tauto. }
  right. split; [intros [= -> ->]; done|]. split; [done|].
  destruct (cell_update_inGrid b rr cc (fun c => Cell_setRevealed c true))
    as (b' & Hb' & Hup); [done..|].
  exists b'. split; [done|].
  unfold setRevealed. rewrite Hb'. cbn [run_bind].
  rewrite neighborMineCount_neighbours by apply Hup. cbn [run_bind].
  rewrite (mines_among_ext b b') by apply (updated_revealed _ _ _ _ Hup).
  destruct (Z.eqb_spec (mines_among b (neighbours (rr, cc))) 0); by case_decide.
Qed.

Lemma same_dims_refl b : same_dims b b.
Proof. by split_and!. Qed.

Lemma same_dims_trans b1 b2 b3 : same_dims b1 b2 -> same_dims b2 b3 -> same_dims b1 b3.
Proof. unfold same_dims. intros (? & ? & ?) (? & ? & ?). split_and!; congruence. Qed.

(** The pairs the two loops over [deltas] go through are [(0, 0)], where
    the body does nothing, and the eight of [offsets8]. *)
Lemma elem_of_offsets8 o : o ∈ offsets8 <-> o ∈ list_prod deltas deltas /\ o <> (0, 0).
Proof.
  unfold offsets8, deltas. simpl. set_unfold. split.
  - intros H. destruct_or!; subst; split; auto 10; done.
  - intros [H Hne]. destruct_or!; subst; auto 10; done.
Qed.

Lemma shift_neighbours p o : o ∈ offsets8 -> shift p o ∈ neighbours p.
Proof. intros Ho. unfold neighbours. apply list_elem_of_fmap. eauto. Qed.

(** A run that ends within some budget ends the same way within a larger
    one. *)
Lemma cascade_loop_more fuel :
  forall s s' fuel', cascade_loop fuel s = Ret s' -> (fuel <= fuel')%nat ->
                     cascade_loop fuel' s = Ret s'.
Proof.
  induction fuel as [|fuel IH]; intros s s' fuel' E Hle.
  - destruct fuel'; simpl in *; destruct (c_queue s); done.
  - destruct fuel' as [|fuel']; [lia|]. simpl in *.
    destruct (c_queue s) as [|p q]; [done|].
    destruct (cascade_expand p _) as [s1| |]; simpl in *; try done.
    apply (IH s1); [done | lia].
Qed.

Lemma reached_open b start q : reached b start q -> open_cell b q.
Proof. by intros [? ? ?|? ? ? ? ? ?]. Qed.

Section CascadeInvariant.
(** The board and the start cell [cascadeReveal] is called with. *)
Variable b0 : Board.
Variable start : Point.

Lemma expandable_reaches s cur p q :
  cascade_inv b0 start cur s -> expandable b0 start s p -> q ∈ neighbours p -> open_cell b0 q ->
  reached b0 start q.
Proof.
  intros Hinv [->|[Hp Hz]] Hq Ho.
  - by apply reached_first.
  - apply (reached_next _ _ p); try done. by apply (ci_shown _ _ _ _ Hinv).
Qed.

(** One step of the inner loops keeps the invariant and does not raise
    the measure; afterwards the neighbour it looked at is settled. *)
Lemma cascade_visit_inv p s o :
  o ∈ list_prod deltas deltas ->
  cascade_inv b0 start (Some p) s -> expandable b0 start s p ->
  exists s', cascade_visit p s (fst o) (snd o) = Ret s' /\
    cascade_inv b0 start (Some p) s' /\ expandable b0 start s' p /\
    (cascade_measure s' <= cascade_measure s)%nat /\
    (forall q, revealedAt (c_board s) q = true -> revealedAt (c_board s') q = true) /\
    (o <> (0, 0) -> open_cell b0 (shift p o) ->
     revealedAt (c_board s') (shift p o) = true).
Proof.
  intros Hin9 Hinv Hp.
  destruct (cascade_visit_cases p s o (ci_wf _ _ _ _ Hinv)) as [[E Hwhy]|(Hne & Ho & b' & Hup & E)].
  - exists s. split_and!; try done.
    intros Hno (Hg & Hr & Hm). destruct Hwhy as [?|[Hng|[?|Hf]]]; try done.
    + exfalso. apply Hng. unfold inGrid. by rewrite (inBounds_same b0) by apply Hinv.
    + by rewrite (ci_mark _ _ _ _ Hinv) in Hf.
  - set (q := shift p o) in *.
    destruct Ho as (Hg & Hr & Hm).
    destruct (updated_revealed _ _ _ _ Hup) as (Hmine & Hmark & Hother & Hself).
    assert (revealedAt b' q = true) as Hq.
    { apply Hself, cell_at_Some; [apply Hinv | done]. }
    assert (q ∉ c_shown s) as Hfresh.
    { intros Hin. assert (revealedAt (c_board s) q = true); [|congruence].
      apply (ci_rev _ _ _ _ Hinv). by right. }
    assert (revealedAt b0 q = false) as Hr0.
    { destruct (revealedAt b0 q) eqn:E0; [|done].
      assert (revealedAt (c_board s) q = true); [|congruence].
      apply (ci_rev _ _ _ _ Hinv). by left. }
    assert (open_cell b0 q) as Ho0.
    { split_and!; [|done|by rewrite <- (ci_mark _ _ _ _ Hinv)].
      unfold inGrid. by rewrite <- (inBounds_same b0 (c_board s)) by apply Hinv. }
    assert (q ∈ neighbours p) as Hnb.
    { apply shift_neighbours, elem_of_offsets8. done. }
    assert (forall x, revealedAt (c_board s) x = true -> revealedAt b' x = true) as Hmono.
    { intros x Hx. rewrite Hother; [done|]. intros ->. congruence. }
    set (extra := if decide (mines_among (c_board s) (neighbours q) = 0) then [q] else []).
    assert (forall x, x ∈ extra -> x = q /\ zero_count b0 q) as Hextra.
    { intros x. unfold extra. case_decide as Hz.
      - intros ->%list_elem_of_singleton. split; [done|].
        unfold zero_count. by rewrite <- (mines_among_ext _ _ _ (ci_mine _ _ _ _ Hinv)).
      - by intros ?%elem_of_nil. }
    assert (zero_count b0 q -> q ∈ extra) as Hzero.
    { unfold zero_count, extra.
      rewrite <- (mines_among_ext _ _ _ (ci_mine _ _ _ _ Hinv)). intros Hz.
      rewrite decide_True by done. by apply list_elem_of_singleton. }
    assert (sublist extra [q] /\ (length extra <= 1)%nat) as [Hsub Hlen].
    { unfold extra. case_decide; simpl; split; try lia; [done | apply sublist_nil_l]. }
    exists (mkCascade b' (c_queue s ++ extra) (c_pushed s ++ extra) (c_shown s ++ [q])).
    split.
    { rewrite E. f_equal. unfold extra. case_decide; [done|]. by rewrite !app_nil_r. }
    clearbody extra. clear E.
    assert (forall x, expandable b0 start s x ->
              expandable b0 start (mkCascade b' (c_queue s ++ extra) (c_pushed s ++ extra)
                                    (c_shown s ++ [q])) x) as Hexp.
    { intros x [->|[Hx Hz]]; [by left|right]. simpl. split; [|done].
      apply elem_of_app. by left. }
    split_and!.
    + constructor; simpl.
      * apply Hup.
      * eapply same_dims_trans; [apply Hinv | apply Hup].
      * intros x. by rewrite Hmine, (ci_mine _ _ _ _ Hinv).
      * intros x. by rewrite Hmark, (ci_mark _ _ _ _ Hinv).
      * intros x. rewrite elem_of_app, list_elem_of_singleton.
        destruct (decide (x = q)) as [->|Hx].
        -- split; auto.
        -- rewrite Hother by done. rewrite (ci_rev _ _ _ _ Hinv). tauto.
      * intros x [Hx | ->%list_elem_of_singleton]%elem_of_app.
        -- by apply (ci_shown _ _ _ _ Hinv).
        -- split; [|done]. by apply (expandable_reaches s (Some p) p).
      * apply NoDup_app. split_and!.
        -- apply Hinv.
        -- by intros x Hx ->%list_elem_of_singleton.
        -- apply NoDup_singleton.
      * destruct (ci_pushed _ _ _ _ Hinv) as (l & El & Hl & Hlz).
        exists (l ++ extra). split_and!.
        -- by rewrite El.
        -- by apply sublist_app.
        -- intros x [Hx|Hx]%elem_of_app; [by apply Hlz|].
           by destruct (Hextra x Hx) as [-> ?].
      * intros x [Hx|Hx]%elem_of_app.
        -- apply Hexp. by apply (ci_queue _ _ _ _ Hinv).
        -- destruct (Hextra x Hx) as [-> ?]. right. split; [|done].
           apply elem_of_app. right. by apply list_elem_of_singleton.
      * intros x [->|[Hx Hz]].
        -- destruct (ci_todo _ _ _ _ Hinv start) as [?|[?|Hd]]; [by left| | |].
           ++ left. apply elem_of_app. by left.
           ++ by right; left.
           ++ right; right. intros y Hy Hoy. apply Hmono. by apply Hd.
        -- apply elem_of_app in Hx as [Hx | ->%list_elem_of_singleton].
           ++ destruct (ci_todo _ _ _ _ Hinv x) as [?|[?|Hd]]; [by right| | |].
              ** left. apply elem_of_app. by left.
              ** by right; left.
              ** right; right. intros y Hy Hoy. apply Hmono. by apply Hd.
           ++ left. apply elem_of_app. right. by apply Hzero.
    + by apply Hexp.
    + unfold cascade_measure. simpl. rewrite length_app.
      rewrite (hidden_reveal (c_board s) q b'); try done; [lia | apply Hinv].
    + done.
    + done.
Qed.
Lemma cascade_expand_inv p s :
  cascade_inv b0 start (Some p) s -> expandable b0 start s p ->
  exists s', cascade_expand p s = Ret s' /\ cascade_inv b0 start None s' /\
             (cascade_measure s' <= cascade_measure s)%nat.
Proof.
  intros Hinv Hp.
  assert (cascade_expand p s
          = for_each (list_prod deltas deltas)
                     (fun s o => cascade_visit p s (fst o) (snd o)) s) as ->.
  { unfold cascade_expand.
    exact (for_each_prod deltas deltas
             (fun s o => cascade_visit p s (fst o) (snd o)) s). }
  destruct (for_each_inv_prefix
    (fun done s' =>
       cascade_inv b0 start (Some p) s' /\ expandable b0 start s' p /\
       (cascade_measure s' <= cascade_measure s)%nat /\
       (forall o, o ∈ done -> o <> (0, 0) -> open_cell b0 (shift p o) ->
                  revealedAt (c_board s') (shift p o) = true))
    (list_prod deltas deltas)
    (fun s o => cascade_visit p s (fst o) (snd o))) with (s := s)
    as (s' & E & Hinv' & Hp' & Hm' & Hdone).
  - intros done o s1 Ho (Hinv1 & Hp1 & Hm1 & Hdone1).
    destruct (cascade_visit_inv p s1 o Ho Hinv1 Hp1)
      as (s2 & E2 & Hinv2 & Hp2 & Hm2 & Hmono & Hnew).
    exists s2. split_and!; try done; [lia|].
    intros o' [Ho'| ->%list_elem_of_singleton]%elem_of_app Hne Hopen.
    + apply Hmono. by apply Hdone1.
    + by apply Hnew.
  - split_and!; try done. by intros o ?%elem_of_nil.
  - exists s'. split_and!; try done.
    destruct Hinv'. constructor; try done.
    intros x Hx. destruct (ci_todo0 x Hx) as [?|[[= ->]|?]]; auto.
    right; right. intros q Hq Hopen.
    apply list_elem_of_fmap in Hq as (o & -> & Ho).
    apply elem_of_offsets8 in Ho as [Ho Hne]. by apply Hdone.
Qed.

(** The [while] loop ends within [cascade_measure] iterations, with the
    queue empty and the invariant kept. *)
Lemma cascade_loop_fuel fuel s :
  cascade_inv b0 start None s -> (cascade_measure s <= fuel)%nat ->
  exists s', cascade_loop fuel s = Ret s' /\ cascade_inv b0 start None s' /\ c_queue s' = [].
Proof.
  revert s. induction fuel as [|fuel IH]; intros s Hinv Hm.
  - destruct s as [b q ps sh]. unfold cascade_measure in Hm. simpl in *.
    destruct q; simpl in *; [eauto | lia].
  - destruct s as [b q ps sh]. simpl. destruct q as [|p q]; [eauto|].
    destruct (cascade_expand_inv p (mkCascade b q ps sh)) as (s1 & E1 & Hinv1 & Hm1).
    + destruct Hinv. constructor; try done; simpl in *.
      * intros x Hx. apply ci_queue0. by right.
      * intros x Hx. destruct (ci_todo0 x Hx) as [[->|?]%elem_of_cons|[?|?]]; auto; done.
    + apply (ci_queue _ _ _ _ Hinv). by left.
    + rewrite E1. simpl. apply IH; [done|].
      unfold cascade_measure in *. simpl in *. lia.
Qed.

Hypothesis wf0 : wf b0.

Lemma cascade_inv_init :
  cascade_inv b0 start None (mkCascade b0 [start] [start] []).
Proof.
  constructor; simpl.
  - done.
  - apply same_dims_refl.
  - done.
  - done.
  - intros q. split; [auto|]. intros [?|?%elem_of_nil]; done.
  - by intros q ?%elem_of_nil.
  - constructor.
  - exists []. split_and!; [done | done |]. by intros p ?%elem_of_nil.
  - intros p ->%list_elem_of_singleton. by left.
  - intros p [->|[?%elem_of_nil ?]]; [|done]. left. by apply list_elem_of_singleton.
Qed.

(** [cascadeReveal] returns: the budget of [S (area b0)] iterations is
    never used up. *)
Lemma cascadeReveal_inv :
  exists s', cascadeReveal b0 (fst start) (snd start) = Ret s' /\
             cascade_inv b0 start None s' /\ c_queue s' = [].
Proof.
  unfold cascadeReveal. replace (start.1, start.2) with start by by destruct start.
  apply cascade_loop_fuel; [apply cascade_inv_init|].
  unfold cascade_measure. simpl. pose proof (hidden_le_area b0). lia.
Qed.

(** When the queue is empty, every cell the cascade can get to is
    revealed. *)
Lemma cascade_complete s q :
  cascade_inv b0 start None s -> c_queue s = [] -> reached b0 start q ->
  revealedAt (c_board s) q = true.
Proof.
  intros Hinv Hq Hr.
  assert (forall p, expandable b0 start s p -> expanded b0 s p) as Hall.
  { intros p Hp. destruct (ci_todo _ _ _ _ Hinv p Hp) as [Hin|[?|?]]; try done.
    rewrite Hq in Hin. by apply elem_of_nil in Hin. }
  induction Hr as [q Hnb Ho | p q Hp IH Hz Hnb Ho].
  - apply (Hall start); [by left | done..].
  - apply (Hall p); [|done..]. right. split; [|done].
    apply (ci_rev _ _ _ _ Hinv) in IH as [IH|IH]; [|done].
    destruct (reached_open _ _ _ Hp) as (_ & ? & _). congruence.
Qed.
End CascadeInvariant.

(** * The end of the game *)

Lemma for_return_scan b (l : list Point) :
  wf b -> (forall q, q ∈ l -> inGrid b q) ->
  let body := fun q : Point =>
    do cell <- cell_ref b (fst q) (snd q) ;
    if negb (m_hasMine cell) && negb (m_revealed cell)
    then Ret (Some false) else Ret None in
  (for_return l body = Ret (Some false) /\
   exists q, q ∈ l /\ mineAt b q = false /\ revealedAt b q = false) \/
  (for_return l body = Ret None /\
   forall q, q ∈ l -> mineAt b q = true \/ revealedAt b q = true).
Proof.
  intros Hwf Hl body.
  assert (forall q, inGrid b q ->
            body q = Ret (if negb (mineAt b q) && negb (revealedAt b q)
                          then Some false else None)) as Hbody.
  { intros q Hq. destruct (cell_ref_inBounds b q.1 q.2 Hwf Hq) as [cell Ec].
    unfold body, mineAt, revealedAt, cell_at. rewrite Ec. simpl.
    by destruct (negb (m_hasMine cell) && negb (m_revealed cell)). }
  clearbody body. induction l as [|q l IH]; simpl.
  - right. split; [done|]. by intros q ?%elem_of_nil.
  - rewrite Hbody by (apply Hl; by left). simpl.
    destruct (mineAt b q) eqn:Hm, (revealedAt b q) eqn:Hr; simpl.
    4:{ left. split; [done|]. exists q. split_and!; [by left|done..]. }
    all: destruct IH as [[E (q' & Hq' & ?)]|[E Hall]]; [intros; apply Hl; by right| |].
    all: try (left; split; [done|]; exists q'; split; [by right|done]).
    all: right; split; [done|]; intros x [->|Hx]%elem_of_cons; auto.
Qed.

Lemma allNonMinesRevealed_spec b :
  wf b -> exists v, allNonMinesRevealed b = Ret v /\ (v = true <-> all_safe_revealed b).
Proof.
  intros Hwf. unfold allNonMinesRevealed.
  pose proof (for_return_prod (R := bool) (rows b) (cols b)
    (fun q : Point =>
       do cell <- cell_ref b (fst q) (snd q) ;
       if negb (m_hasMine cell) && negb (m_revealed cell)
       then Ret (Some false) else Ret None)) as Hflat.
  cbn [fst snd] in Hflat. rewrite Hflat. clear Hflat.
  destruct (for_return_scan b (coords b) Hwf) as [[E (q & Hq & Hm & Hr)]|[E Hall]].
  - intros q. apply elem_of_coords.
  - unfold coords in E. rewrite E. simpl. exists false. split; [done|].
    split; [done|]. intros Hs. rewrite Hs in Hr; [done| |done]. by apply elem_of_coords.
  - unfold coords in E. rewrite E. simpl. exists true. split; [done|].
    split; [|done]. intros _ q Hq Hm.
    destruct (Hall q) as [?|?]; [by apply elem_of_coords|congruence|done].
Qed.

(** [gameOver(false)] sets every mined cell revealed and nothing else. *)
Lemma gameOver_lost b :
  wf b ->
  exists b', gameOver b false = Ret b' /\ wf b' /\ same_dims b b' /\
    (forall q, mineAt b' q = mineAt b q) /\ (forall q, markAt b' q = markAt b q) /\
    (forall q, revealedAt b' q = true <-> revealedAt b q = true \/ mineAt b q = true).
Proof.
  intros Hwf. unfold gameOver. cbn [negb].
  pose proof (for_each_prod (rows b) (cols b)
    (fun s (q : Point) =>
       do m <- isMine s (fst q) (snd q) ;
       if m then setRevealed s (fst q) (snd q) true else Ret s) b) as Hflat.
  cbn [fst snd] in Hflat. rewrite Hflat. clear Hflat. fold (coords b).
  destruct (for_each_inv_prefix
    (fun done s =>
       wf s /\ same_dims b s /\
       (forall q, mineAt s q = mineAt b q) /\ (forall q, markAt s q = markAt b q) /\
       (forall q, revealedAt s q = true <->
                  revealedAt b q = true \/ (mineAt b q = true /\ q ∈ done)))
    (coords b)
    (fun s (q : Point) =>
       do m <- isMine s (fst q) (snd q) ;
       if m then setRevealed s (fst q) (snd q) true else Ret s)) with (s := b)
    as (b' & E & Hwf' & Hd' & Hm' & Hk' & Hr').
  - intros done x s Hx (Hwfs & Hds & Hms & Hks & Hrs).
    apply elem_of_coords in Hx.
    assert (inBounds s x.1 x.2 = true) as Hin by (by rewrite (inBounds_same b s)).
    rewrite isMine_inGrid by done. simpl.
    replace (x.1, x.2) with x by by destruct x.
    rewrite Hms. destruct (mineAt b x) eqn:Hmx.
    + destruct (cell_update_inGrid s x.1 x.2 (fun c => Cell_setRevealed c true))
        as (s' & Es' & Hup); [done..|].
      replace (x.1, x.2) with x in Hup by by destruct x.
      destruct (updated_revealed _ _ _ _ Hup) as (Hmine & Hmark & Hother & Hself).
      exists s'. split; [done|]. split_and!.
      * apply Hup.
      * eapply same_dims_trans; [done | apply Hup].
      * intros q. by rewrite Hmine.
      * intros q. by rewrite Hmark.
      * intros q. rewrite elem_of_app, list_elem_of_singleton.
        destruct (decide (q = x)) as [->|Hne].
        -- rewrite Hself by (by apply cell_at_Some). split; auto.
        -- rewrite Hother by done. rewrite Hrs. tauto.
    + exists s. split; [done|]. split_and!; try done.
      intros q. rewrite Hrs, elem_of_app, list_elem_of_singleton.
      split; [tauto|]. intros [?|[? [?| ->]]]; auto. congruence.
  - split_and!; try done.
    intros q. split; [auto|]. by intros [?|[? ?%elem_of_nil]].
  - exists b'. split_and!; try done.
    intros q. rewrite Hr', elem_of_coords. split; [tauto|].
    intros [?|Hm]; auto. right. split; [done|]. by apply mineAt_inGrid.
Qed.

Lemma checkWinCondition_spec b :
  wf b ->
  exists o, checkWinCondition b = Ret (b, o) /\
            (o = Win <-> all_safe_revealed b) /\ (o = Continue <-> ~ all_safe_revealed b).
Proof.
  intros Hwf. unfold checkWinCondition.
  destruct (allNonMinesRevealed_spec b Hwf) as (v & -> & Hv). simpl.
  destruct v; simpl.
  - exists Win. split_and!; [done| |].
    + split; [|done]. intros _. by apply Hv.
    + split; [done|]. intros Hn. exfalso. by apply Hn, Hv.
  - exists Continue. split_and!; [done| |].
    + split; [done|]. intros Hs. by apply Hv in Hs.
    + split; [|done]. intros _ Hs. by apply Hv in Hs.
Qed.

(** * [revealCell] *)

Lemma zero_count_spec b p :
  wf b -> (zero_count b p <-> neighborMineCount b (fst p) (snd p) = Ret 0).
Proof.
  intros Hwf. rewrite neighborMineCount_neighbours by done.
  replace (p.1, p.2) with p by by destruct p.
  unfold zero_count. split; [by intros -> | by intros [=]].
Qed.

Lemma zero_count_ext b b' p :
  (forall q, mineAt b' q = mineAt b q) -> (zero_count b' p <-> zero_count b p).
Proof. intros H. unfold zero_count. by rewrite (mines_among_ext b b'). Qed.

(** A cell next to a cell of count zero holds no mine, so a cascade from
    a cell of count zero gets to no mine. *)
Lemma reached_safe b start q :
  zero_count b start -> reached b start q -> mineAt b q = false.
Proof.
  intros Hz [q' Hnb _ | p q' _ Hzp Hnb _].
  - by apply (mines_among_zero b (neighbours start)).
  - by apply (mines_among_zero b (neighbours p)).
Qed.

(** Revealing the start first, as [revealCell] does, takes nothing away
    from what the cascade gets to but the start itself. *)
Lemma reached_after_reveal b start b1 q :
  wf b -> inGrid b start ->
  updated b start (fun c => Cell_setRevealed c true) b1 ->
  (reached b1 start q <-> reached b start q /\ q <> start).
Proof.
  intros Hwf Hin Hup.
  destruct (updated_revealed _ _ _ _ Hup) as (Hmine & Hmark & Hother & Hself).
  assert (revealedAt b1 start = true) as Hs by (by apply Hself, cell_at_Some).
  assert (forall x, open_cell b1 x <-> open_cell b x /\ x <> start) as Hopen.
  { intros x. unfold open_cell. rewrite (updated_inGrid _ _ _ _ x Hup), Hmark.
    destruct (decide (x = start)) as [->|Hne].
    - rewrite Hs. split; [by intros (_ & ? & _) | by intros [_ ?]].
    - rewrite Hother by done. tauto. }
  split.
  - intros Hr. split.
    2:{ apply reached_open, Hopen in Hr. apply Hr. }
    induction Hr as [x Hnb Ho | p x Hp IH Hz Hnb Ho].
    + apply reached_first; [done|]. by apply Hopen.
    + apply (reached_next _ _ p); [done| |done|by apply Hopen].
      by apply (zero_count_ext b b1).
  - intros [Hr Hne]. revert Hne.
    induction Hr as [x Hnb Ho | p x Hp IH Hz Hnb Ho]; intros Hne.
    + apply reached_first; [done|]. by apply Hopen.
    + destruct (decide (p = start)) as [->|Hp'].
      * apply reached_first; [done|]. by apply Hopen.
      * apply (reached_next _ _ p); [by apply IH| |done|by apply Hopen].
        by apply (zero_count_ext b b1).
Qed.

(** [revealCell] on a cell without a mine: the cell is set revealed, the
    cascade runs from it when its count is zero, and the outcome is that of
    [checkWinCondition]. *)
Lemma revealCell_safe b row col :
  wf b -> inBounds b row col = true -> mineAt b (row, col) = false ->
  exists b1 b2 o,
    setRevealed b row col true = Ret b1 /\
    updated b (row, col) (fun c => Cell_setRevealed c true) b1 /\
    (zero_count b (row, col) ->
     exists s, cascadeReveal b1 row col = Ret s /\
               cascade_inv b1 (row, col) None s /\ c_queue s = [] /\ b2 = c_board s) /\
    (~ zero_count b (row, col) -> b2 = b1) /\
    wf b2 /\ same_dims b b2 /\
    revealCell b row col = Ret (b2, o) /\
    (o = Win <-> all_safe_revealed b2) /\ (o = Continue <-> ~ all_safe_revealed b2).
Proof.
  intros Hwf Hin Hsafe. unfold revealCell.
  rewrite isMine_inGrid, Hsafe by done. cbn [run_bind].
  destruct (cell_update_inGrid b row col (fun c => Cell_setRevealed c true))
    as (b1 & E1 & Hup); [done..|].
  unfold setRevealed at 2. rewrite E1. cbn [run_bind].
  assert (wf b1) as Hwf1 by apply Hup.
  pose proof (updated_revealed _ _ _ _ Hup) as (Hmine & _).
  rewrite neighborMineCount_neighbours by done. cbn [run_bind].
  rewrite (mines_among_ext b b1) by done.
  destruct (Z.eqb_spec (mines_among b (neighbours (row, col))) 0) as [Hz|Hnz].
  - destruct (cascadeReveal_inv b1 (row, col) Hwf1) as (s & Es & Hinv & Hq).
    cbn [fst snd] in Es. rewrite Es. cbn [run_bind].
    destruct (checkWinCondition_spec (c_board s)) as (o & Eo & Ho); [apply Hinv|].
    exists b1, (c_board s), o. split_and!; try done.
    + intros _. by exists s.
    + apply Hinv.
    + eapply same_dims_trans; [apply Hup | apply Hinv].
    + apply Ho.
    + apply Ho.
  - cbn [run_bind].
    destruct (checkWinCondition_spec b1) as (o & Eo & Ho); [done|].
    exists b1, b1, o. split_and!; try done.
    + apply Hup.
    + apply Ho.
    + apply Ho.
Qed.

(** [revealCell] on a mined cell: the cell is set revealed, [gameOver]
    sets every mined cell revealed, and the outcome is [Loss]. *)
Lemma revealCell_lost b row col :
  wf b -> inBounds b row col = true -> mineAt b (row, col) = true ->
  exists b', revealCell b row col = Ret (b', Loss) /\
    wf b' /\ same_dims b b' /\
    (forall q, revealedAt b' q = true <-> revealedAt b q = true \/ mineAt b q = true) /\
    (forall q, mineAt b' q = mineAt b q /\ markAt b' q = markAt b q).
Proof.
  intros Hwf Hin Hmine. unfold revealCell.
  rewrite isMine_inGrid, Hmine by done. cbn [run_bind].
  destruct (cell_update_inGrid b row col (fun c => Cell_setRevealed c true))
    as (b1 & E1 & Hup); [done..|].
  unfold setRevealed. rewrite E1. cbn [run_bind].
  destruct (updated_revealed _ _ _ _ Hup) as (Hm1 & Hk1 & Hother & Hself).
  destruct (gameOver_lost b1) as (b2 & E2 & Hwf2 & Hd2 & Hm2 & Hk2 & Hr2); [apply Hup|].
  rewrite E2. cbn [run_bind]. exists b2. split_and!; try done.
  - eapply same_dims_trans; [apply Hup | done].
  - intros q. rewrite Hr2, Hm1. destruct (decide (q = (row, col))) as [->|Hne].
    + split; auto.
    + by rewrite Hother.
  - intros q. by rewrite Hm2, Hk2, Hm1, Hk1.
Qed.

Lemma zero_region_zero b start p :
  zero_count b start -> zero_region b start p -> zero_count b p.
Proof. by intros Hz [|? ? ? ? ? ?]. Qed.

Lemma zero_region_reached b start q :
  zero_count b start ->
  (forall x, region_or_border b start x -> x <> start -> open_cell b x) ->
  region_or_border b start q -> q = start \/ reached b start q.
Proof.
  intros Hz Hopen.
  assert (forall p, zero_region b start p -> p = start \/ reached b start p) as Hreg.
  { intros p Hp. induction Hp as [|p x Hp IH Hnb Hin Hzx]; [by left|].
    destruct (decide (x = start)) as [->|Hne]; [by left|right].
    assert (open_cell b x) as Ho.
    { apply Hopen; [|done]. left. by apply (zero_region_step _ _ p). }
    destruct IH as [->|IH]; [by apply reached_first|].
    apply (reached_next _ _ p); try done. by apply (zero_region_zero b start). }
  intros [Hq|(p & Hp & Hnb & Hin & Hnz)]; [by apply Hreg|].
  destruct (decide (q = start)) as [->|Hne]; [by left|right].
  assert (open_cell b q) as Ho.
  { apply Hopen; [|done]. right. by exists p. }
  destruct (Hreg p Hp) as [->|Hr]; [by apply reached_first|].
  apply (reached_next _ _ p); try done. by apply (zero_region_zero b start).
Qed.

(** * Marks *)

(** A right click on a button of the grid advances the mark of its cell,
    whether the cell is revealed or not, and touches nothing else. *)
Lemma eventFilter_spec b row col :
  wf b -> inBounds b row col = true ->
  exists b', eventFilter b row col = Ret b' /\
    updated b (row, col)
            (fun c => Cell_setMarkState c (cycle_next (markAt b (row, col)))) b'.
Proof.
  intros Hwf Hin. unfold eventFilter. rewrite Hin.
  rewrite markState_inGrid by done. cbn [run_bind].
  destruct (cell_update_inGrid b row col
              (fun c => Cell_setMarkState c (cycle_next (markAt b (row, col)))))
    as (b' & E & Hup); [done..|].
  exists b'. split; [|done]. unfold setMarkState.
  by destruct (markAt b (row, col)).
Qed.

(** * [initialize] *)

Lemma reset_all_spec b :
  wf b ->
  exists b0, reset_all b = Ret b0 /\ wf b0 /\ same_dims b b0 /\
             forall q, inGrid b q -> cell_at b0 q = Some Cell_new.
Proof.
  intros Hwf. unfold reset_all.
  pose proof (for_each_prod (rows b) (cols b)
    (fun s (q : Point) => cell_update s (fst q) (snd q) Cell_reset) b) as Hflat.
  cbn [fst snd] in Hflat. rewrite Hflat. clear Hflat. fold (coords b).
  destruct (for_each_inv_prefix
    (fun done s => wf s /\ same_dims b s /\
                   forall q, q ∈ done -> cell_at s q = Some Cell_new)
    (coords b)
    (fun s (q : Point) => cell_update s (fst q) (snd q) Cell_reset)) with (s := b)
    as (b0 & E & Hwf0 & Hd0 & Hall).
  - intros done x s Hx (Hwfs & Hds & Hdone). apply elem_of_coords in Hx.
    assert (inBounds s x.1 x.2 = true) as Hin by (by rewrite (inBounds_same b s)).
    destruct (cell_update_inGrid s x.1 x.2 Cell_reset) as (s' & Es' & Hup); [done..|].
    replace (x.1, x.2) with x in Hup by by destruct x.
    exists s'. split; [done|]. split_and!.
    + apply Hup.
    + eapply same_dims_trans; [done | apply Hup].
    + intros q Hq. destruct Hup as (_ & _ & Hp & Hother).
      destruct (decide (q = x)) as [->|Hne].
      * rewrite Hp. destruct (proj2 (cell_at_Some s x Hwfs)) as [c ->]; done.
      * rewrite Hother by done. apply Hdone.
        apply elem_of_app in Hq as [?| ->%list_elem_of_singleton]; done.
  - split_and!; [done | apply same_dims_refl | by intros q ?%elem_of_nil].
  - exists b0. split_and!; try done. intros q Hq. by apply Hall, elem_of_coords.
Qed.

(** Placing one more mine on a cell that has none. *)
Lemma mined_coords_add b q b' :
  wf b -> inGrid b q -> mineAt b q = false ->
  updated b q (fun c => Cell_setMine c true) b' ->
  length (mined_coords b') = S (length (mined_coords b)).
Proof.
  intros Hwf Hq Hm Hup.
  destruct (updated_mine _ _ _ _ Hup) as (_ & _ & Hother & Hself).
  unfold mined_coords. rewrite (coords_same b b') by apply Hup.
  apply (filter_flip_one _ _ _ q).
  - apply NoDup_coords.
  - by apply elem_of_coords.
  - by apply Hself, cell_at_Some.
  - congruence.
  - intros y Hy. by rewrite Hother.
Qed.

Lemma rem_in_range x n : 0 <= x -> 0 < n -> 0 <= Z.rem x n < n.
Proof. intros. rewrite Z.rem_mod_nonneg by lia. by apply Z.mod_pos_bound. Qed.

(** The [while] loop of [initialize]: with draws from [0] upwards it never
    leaves the grid, and when it returns the number of mined cells is
    [m_mineCount]. *)
Lemma place_mines_spec draws :
  Forall (fun x => 0 <= x) draws ->
  forall placed b,
    wf b -> 0 < m_width b -> 0 < m_height b ->
    0 <= placed <= m_mineCount b ->
    Z.of_nat (length (mined_coords b)) = placed ->
    all_hidden_unmarked b ->
    match place_mines draws placed b with
    | Ret b' => wf b' /\ same_dims b b' /\ all_hidden_unmarked b' /\
                Z.of_nat (length (mined_coords b')) = m_mineCount b
    | Undef => False
    | Fuel => True
    end.
Proof.
  remember (length draws) as n eqn:Hn. revert draws Hn.
  induction n as [n IH] using lt_wf_ind.
  intros draws Hn Hpos placed b Hwf Hw Hh Hpl Hcount Hhid.
  destruct draws as [|x [|y rest]]; simpl.
  1,2: destruct (Z.ltb_spec placed (m_mineCount b)); [done|];
       split_and!; [done | apply same_dims_refl | done | lia].
  destruct (Z.ltb_spec placed (m_mineCount b)) as [Hlt|Hge].
  2:{ split_and!; [done | apply same_dims_refl | done | lia]. }
  destruct (Z.eqb_spec (m_height b) 0); [lia|].
  destruct (Z.eqb_spec (m_width b) 0); [lia|]. cbn [orb].
  apply Forall_cons in Hpos as [Hx Hpos]. apply Forall_cons in Hpos as [Hy Hpos].
  pose proof (rem_in_range x (m_height b) Hx Hh) as Hrr.
  pose proof (rem_in_range y (m_width b) Hy Hw) as Hcc.
  set (rr := Z.rem x (m_height b)) in *. set (cc := Z.rem y (m_width b)) in *.
  assert (inBounds b rr cc = true) as Hin by (apply inBounds_spec; lia).
  destruct (cell_ref_inBounds b rr cc Hwf Hin) as [cell Ec]. rewrite Ec. cbn [run_bind].
  assert (mineAt b (rr, cc) = m_hasMine cell) as Em.
  { unfold mineAt, cell_at. simpl. by rewrite Ec. }
  destruct (m_hasMine cell) eqn:Hm; cbn [negb].
  - apply (IH (length rest)); try done. subst n. simpl. lia.
  - destruct (cell_update_inGrid b rr cc (fun c => Cell_setMine c true))
      as (b1 & E1 & Hup); [done..|].
    rewrite E1. cbn [run_bind].
    destruct (updated_mine _ _ _ _ Hup) as (Hrev1 & Hmark1 & _ & _).
    assert (same_dims b b1) as Hd1 by apply Hup.
    pose proof Hd1 as (Hw1 & Hh1 & Hc1).
    specialize (IH (length rest) ltac:(subst n; simpl; lia) rest eq_refl Hpos
                   (placed + 1) b1).
    destruct (place_mines rest (placed + 1) b1) as [b'| |]; [| |done].
    + destruct IH as (Hwf' & Hd' & Hhid' & Hcount').
      * apply Hup.
      * lia.
      * lia.
      * lia.
      * rewrite (mined_coords_add b (rr, cc) b1); try done. lia.
      * intros q Hq. rewrite Hrev1, Hmark1. apply Hhid.
        by apply (updated_inGrid _ _ _ _ q Hup).
      * split_and!; try done; [|lia]. by eapply same_dims_trans.
    + apply IH.
      * apply Hup.
      * lia.
      * lia.
      * lia.
      * rewrite (mined_coords_add b (rr, cc) b1); try done. lia.
      * intros q Hq. rewrite Hrev1, Hmark1. apply Hhid.
        by apply (updated_inGrid _ _ _ _ q Hup).
Qed.

Lemma fresh_draws_nonneg w k n :
  0 < w -> 0 <= k -> Forall (fun x => 0 <= x) (fresh_draws w k n).
Proof.
  intros Hw. revert k. induction n as [|n IH]; intros k Hk; simpl; [constructor|].
  constructor; [by apply Z.div_pos|]. constructor; [by apply Z.mod_pos_bound|].
  apply IH. lia.
Qed.

(** With those draws the loop returns. *)
Lemma place_mines_fresh n :
  forall k b,
    wf b -> 0 < m_width b -> 0 < m_height b -> 0 <= k ->
    k + Z.of_nat n = m_mineCount b -> m_mineCount b <= m_width b * m_height b ->
    (forall q, mineAt b q = true ->
               exists i, 0 <= i < k /\ q = (i / m_width b, i mod m_width b)) ->
    exists b', place_mines (fresh_draws (m_width b) k n) k b = Ret b'.
Proof.
  induction n as [|n IH]; intros k b Hwf Hw Hh Hk Hsum Hcap Hmines.
  - simpl. destruct (Z.ltb_spec k (m_mineCount b)); [lia|]. eauto.
  - cbn [fresh_draws place_mines].
    destruct (Z.ltb_spec k (m_mineCount b)); [|lia].
    destruct (Z.eqb_spec (m_height b) 0); [lia|].
    destruct (Z.eqb_spec (m_width b) 0); [lia|]. cbn [orb].
    assert (0 <= k / m_width b < m_height b) as Hr.
    { split; [by apply Z.div_pos|]. apply Z.div_lt_upper_bound; lia. }
    pose proof (Z.mod_pos_bound k (m_width b) Hw) as Hc.
    rewrite !Z.rem_small by lia.
    assert (inBounds b (k / m_width b) (k mod m_width b) = true) as Hin
      by (apply inBounds_spec; lia).
    destruct (cell_ref_inBounds b _ _ Hwf Hin) as [cell Ec]. rewrite Ec. cbn [run_bind].
    assert (mineAt b (k / m_width b, k mod m_width b) = m_hasMine cell) as Em.
    { unfold mineAt, cell_at. simpl. by rewrite Ec. }
    destruct (m_hasMine cell) eqn:Hm; cbn [negb].
    { exfalso. destruct (Hmines _ Em) as (i & Hi & [= Hq Hr']).
      pose proof (Z.div_mod k (m_width b)). pose proof (Z.div_mod i (m_width b)). nia. }
    destruct (cell_update_inGrid b (k / m_width b) (k mod m_width b)
                (fun c => Cell_setMine c true)) as (b1 & E1 & Hup); [done..|].
    rewrite E1. cbn [run_bind].
    destruct (updated_mine _ _ _ _ Hup) as (_ & _ & Hother & _).
    pose proof (proj1 (proj2 Hup)) as (Hw1 & Hh1 & Hc1).
    rewrite <- Hw1. apply IH; try lia; [apply Hup|].
    intros q Hq. rewrite Hw1.
    destruct (decide (q = (k / m_width b, k mod m_width b))) as [->|Hne].
    + exists k. split; [lia|done].
    + rewrite Hother in Hq by done. destruct (Hmines q Hq) as (i & Hi & ->).
      exists i. split; [lia|done].
Qed.

(** * Boards used as examples *)

Lemma wf_board_1x3 : wf board_1x3.
Proof. split; [done | by repeat constructor]. Qed.

Lemma wf_board_barrier : wf board_barrier.
Proof. split; [done | by repeat constructor]. Qed.

Lemma wf_board_2x2 : wf board_2x2.
Proof. split; [done | by repeat constructor]. Qed.

Lemma wf_board_1x3_open : wf board_1x3_open.
Proof. split; [done | by repeat constructor]. Qed.

Lemma wf_Board_new width height mineCount : wf (Board_new width height mineCount).
Proof.
  split; simpl.
  - by rewrite length_replicate.
  - apply Forall_replicate. by rewrite length_replicate.
Qed.

(** [board_barrier] comes up in play: on a new 1 x 6 board with the mine
    drawn in column 5, flag columns 0 and 2, click column 1, then take the two
    flags off again (two right clicks each). *)
Example play_to_barrier :
  (do b <- initialize (Board_new 6 1 1) [0; 5] ;
   do b <- eventFilter b 0 0 ;
   do b <- eventFilter b 0 2 ;
   do r <- onCellLeftClicked b 0 1 ;
   do b <- eventFilter (fst r) 0 0 ;
   do b <- eventFilter b 0 0 ;
   do b <- eventFilter b 0 2 ;
   eventFilter b 0 2) = Ret board_barrier.
Proof. reflexivity. Qed.

(** * The properties *)

(** ** C1: what a cascade reveals *)

(** C1, as the code has it: revealing a safe cell of count zero returns,
    and afterwards a cell is revealed exactly when it was revealed before, is
    the target, or is one the cascade gets to ([reached]: through cells that
    were hidden and unflagged before the reveal, each but the last of count
    zero).  Mines and marks do not change.  A flagged cell is never revealed
    by it; a cell marked [Question] next to the target or to a cell of count
    zero the cascade got to is revealed.  When every other cell of the
    zero-count region of the target and of its border was hidden and unflagged
    before, the whole region and border are revealed. *)
Theorem revealCell_cascade (b : Board) (row col : Z) :
  wf b -> inBounds b row col = true ->
  isMine b row col = Ret false ->
  neighborMineCount b row col = Ret 0 ->
  exists b' o,
    revealCell b row col = Ret (b', o) /\
    (forall q, revealedAt b' q = true <->
               revealedAt b q = true \/ q = (row, col) \/ reached b (row, col) q) /\
    (forall q, mineAt b' q = mineAt b q /\ markAt b' q = markAt b q) /\
    (forall q, markAt b q = Flag -> q <> (row, col) ->
               revealedAt b' q = revealedAt b q) /\
    (forall p q, p = (row, col) \/ (reached b (row, col) p /\ zero_count b p) ->
                 q ∈ neighbours p -> inGrid b q -> markAt b q = Question ->
                 revealedAt b' q = true) /\
    ((forall x, region_or_border b (row, col) x -> x <> (row, col) -> open_cell b x) ->
     forall q, region_or_border b (row, col) q -> revealedAt b' q = true).
Proof.
  intros Hwf Hin Hsafe Hzero.
  rewrite isMine_inGrid in Hsafe by done. injection Hsafe as Hsafe.
  apply (zero_count_spec b (row, col)) in Hzero; [|done].
  destruct (revealCell_safe b row col) as (b1 & b' & o & _ & Hup & Hcas & _ & _ & _ & E & _);
    [done..|].
  destruct (Hcas Hzero) as (s & _ & Hinv & Hq & ->). clear Hcas.
  destruct (updated_revealed _ _ _ _ Hup) as (Hmine & Hmark & Hother & Hself).
  assert (revealedAt b1 (row, col) = true) as Hs by (by apply Hself, cell_at_Some).
  assert (forall q, revealedAt (c_board s) q = true <->
            revealedAt b q = true \/ q = (row, col) \/ reached b (row, col) q) as Hrev.
  { intros q. split.
    - intros [H1|Hsh]%(ci_rev _ _ _ _ Hinv).
      + destruct (decide (q = (row, col))) as [->|Hne]; [auto|].
        left. by rewrite <- Hother.
      + apply (ci_shown _ _ _ _ Hinv) in Hsh as [Hr _].
        apply (reached_after_reveal b (row, col) b1) in Hr as [Hr _]; auto.
    - intros Hq'. destruct (decide (q = (row, col))) as [->|Hne].
      { apply (ci_rev _ _ _ _ Hinv). by left. }
      destruct Hq' as [H1|[?|Hr]]; [|done|].
      + apply (ci_rev _ _ _ _ Hinv). left. by rewrite Hother.
      + apply (cascade_complete b1 (row, col)); try done.
        by apply (reached_after_reveal b (row, col) b1). }
  exists (c_board s), o. split_and!; try done.
  - intros q. by rewrite (ci_mine _ _ _ _ Hinv), (ci_mark _ _ _ _ Hinv), Hmine, Hmark.
  - intros q Hf Hne. destruct (revealedAt b q) eqn:Hb.
    + apply Hrev. by left.
    + destruct (revealedAt (c_board s) q) eqn:Hb'; [|done].
      apply Hrev in Hb' as [?|[?|Hr]]; [congruence|done|].
      by apply reached_open in Hr as (_ & _ & ?).
  - intros p q Hp Hnb Hg Hmk. destruct (revealedAt b q) eqn:Hb.
    { apply Hrev. by left. }
    assert (open_cell b q) as Ho by (split_and!; [done|done|congruence]).
    apply Hrev. right; right. destruct Hp as [->|[Hp Hz]].
    + by apply reached_first.
    + by apply (reached_next _ _ p).
  - intros Hopen q Hq'. apply Hrev.
    destruct (zero_region_reached b (row, col) q) as [->|Hr]; auto.
Qed.

Lemma revealCell_cascade_witness :
  exists b' o,
    revealCell board_1x3 0 0 = Ret (b', o) /\
    (forall q, revealedAt b' q = true <->
               revealedAt board_1x3 q = true \/ q = (0, 0) \/ reached board_1x3 (0, 0) q) /\
    (forall q, mineAt b' q = mineAt board_1x3 q /\ markAt b' q = markAt board_1x3 q) /\
    (forall q, markAt board_1x3 q = Flag -> q <> (0, 0) ->
               revealedAt b' q = revealedAt board_1x3 q) /\
    (forall p q, p = (0, 0) \/ (reached board_1x3 (0, 0) p /\ zero_count board_1x3 p) ->
                 q ∈ neighbours p -> inGrid board_1x3 q -> markAt board_1x3 q = Question ->
                 revealedAt b' q = true) /\
    ((forall x, region_or_border board_1x3 (0, 0) x -> x <> (0, 0) ->
                open_cell board_1x3 x) ->
     forall q, region_or_border board_1x3 (0, 0) q -> revealedAt b' q = true).
Proof.
  apply (revealCell_cascade board_1x3 0 0);
    [apply wf_board_1x3 | reflexivity | reflexivity | reflexivity].
Defined.

(** C1 as stated fails: on [board_barrier] no cell is flagged, columns 0
    to 3 are the zero-count region of column 0, and revealing column 0 leaves
    columns 2 and 3 hidden, because the cascade does not go on from column 1,
    which was revealed before. *)
Lemma region_not_all_revealed :
  ~ (forall b row col,
       wf b -> inBounds b row col = true ->
       isMine b row col = Ret false -> neighborMineCount b row col = Ret 0 ->
       forall b' o, revealCell b row col = Ret (b', o) ->
       forall q, region_or_border b (row, col) q -> markAt b q <> Flag ->
                 revealedAt b' q = true).
Proof.
  intros H.
  specialize (H board_barrier 0 0 wf_board_barrier eq_refl eq_refl eq_refl
                _ _ eq_refl (0, 2)).
  assert (zero_region board_barrier (0, 0) (0, 1)) as H1.
  { apply (zero_region_step _ _ (0, 0)); [constructor | | done..].
    apply elem_of_neighbours. done. }
  assert (zero_region board_barrier (0, 0) (0, 2)) as H2.
  { apply (zero_region_step _ _ (0, 1)); [done | | done..].
    apply elem_of_neighbours. done. }
  discriminate H; [by left | done].
Qed.

(** ** C2: the outcome of revealing a safe cell *)

(** C2: revealing a cell without a mine returns; [allNonMinesRevealed]
    on the board it leaves returns a boolean, the outcome is [Win] when that
    is [true] and [Continue] when it is [false]; and on every board
    [allNonMinesRevealed] returns [true] exactly when every cell of the grid
    without a mine is revealed. *)
Theorem revealCell_outcome (b : Board) (row col : Z) :
  wf b -> inBounds b row col = true -> isMine b row col = Ret false ->
  (exists b' o w,
     revealCell b row col = Ret (b', o) /\
     allNonMinesRevealed b' = Ret w /\
     o = (if w then Win else Continue)) /\
  (forall bb, wf bb ->
     exists w, allNonMinesRevealed bb = Ret w /\
       (w = true <->
        forall q, inGrid bb q -> mineAt bb q = false -> revealedAt bb q = true)).
Proof.
  intros Hwf Hin Hsafe. split; [|apply allNonMinesRevealed_spec].
  rewrite isMine_inGrid in Hsafe by done. injection Hsafe as Hsafe.
  destruct (revealCell_safe b row col) as (b1 & b' & o & _ & _ & _ & _ & Hwf' & _ & E & Hw & Hc);
    [done..|].
  destruct (allNonMinesRevealed_spec b' Hwf') as (w & Ew & Hspec).
  exists b', o, w. split_and!; try done.
  destruct w.
  - apply Hw, Hspec. done.
  - apply Hc. intros Hall. by apply Hspec in Hall.
Qed.

Lemma revealCell_outcome_witness :
  (exists b' o w,
     revealCell board_1x3 0 0 = Ret (b', o) /\
     allNonMinesRevealed b' = Ret w /\
     o = (if w then Win else Continue)) /\
  (forall bb, wf bb ->
     exists w, allNonMinesRevealed bb = Ret w /\
       (w = true <->
        forall q, inGrid bb q -> mineAt bb q = false -> revealedAt bb q = true)).
Proof.
  apply (revealCell_outcome board_1x3 0 0);
    [apply wf_board_1x3 | reflexivity | reflexivity].
Defined.

(** The scenario of the specification: on the 1 x 3 board with the mine in
    column 2, revealing column 0 reveals column 1 too and wins. *)
Example reveal_1x3 :
  revealCell board_1x3 0 0
  = Ret (mkBoard 3 1 1 [[shown_cell; shown_cell; mine_cell]], Win).
Proof. reflexivity. Qed.

(** ** C3: [initialize] *)

(** C3: on a board of positive dimensions with
    [0 <= m_mineCount < m_width * m_height], in whatever state, [initialize]
    stays on the grid whatever [std::rand()] draws; when it returns, exactly
    [m_mineCount] cells of the grid are mined ([mined_coords] lists them,
    each once), every other cell has no mine, and no cell is revealed or
    marked.  It may draw mined cells for ever, but there are draws on which
    it returns. *)
Theorem initialize_places_mines (b : Board) (draws : list Z) :
  wf b -> 0 < m_width b -> 0 < m_height b ->
  0 <= m_mineCount b < m_width b * m_height b ->
  Forall (fun x => 0 <= x) draws ->
  initialize b draws <> Undef /\
  (forall b', initialize b draws = Ret b' ->
     wf b' /\ same_dims b b' /\
     length (mined_coords b') = Z.to_nat (m_mineCount b) /\
     NoDup (mined_coords b') /\
     (forall q, inGrid b' q -> (mineAt b' q = true <-> q ∈ mined_coords b')) /\
     (forall q, inGrid b' q -> revealedAt b' q = false /\ markAt b' q = NoMark)) /\
  (exists draws' b',
     Forall (fun x => 0 <= x) draws' /\ initialize b draws' = Ret b').
Proof.
  intros Hwf Hw Hh Hcount Hdraws.
  destruct (reset_all_spec b Hwf) as (b0 & E0 & Hwf0 & Hd0 & Hnew).
  pose proof Hd0 as (Hw0 & Hh0 & Hc0).
  assert (forall q, mineAt b0 q = false) as Hnomine.
  { intros q. destruct (mineAt b0 q) eqn:Hm; [|done].
    apply mineAt_inGrid in Hm as Hg; [|done].
    unfold mineAt in Hm. rewrite Hnew in Hm; [done|].
    unfold inGrid in *. by rewrite <- (inBounds_same b b0). }
  assert (mined_coords b0 = []) as Hnone.
  { destruct (mined_coords b0) as [|q l] eqn:Eq; [done|].
    assert (q ∈ mined_coords b0) as Hq by (rewrite Eq; by left).
    apply list_elem_of_filter in Hq as [Hq _]. by rewrite Hnomine in Hq. }
  assert (all_hidden_unmarked b0) as Hhid0.
  { intros q Hq. unfold revealedAt, markAt. rewrite Hnew; [done|].
    unfold inGrid in *. by rewrite <- (inBounds_same b b0). }
  unfold initialize. rewrite E0. cbn [run_bind]. split_and!.
  - pose proof (place_mines_spec draws Hdraws 0 b0) as Hspec.
    destruct (place_mines draws 0 b0); [done| |done].
    intros _. apply Hspec; try done; try lia. by rewrite Hnone.
  - intros b' E'.
    pose proof (place_mines_spec draws Hdraws 0 b0) as Hspec. rewrite E' in Hspec.
    destruct Hspec as (Hwf' & Hd' & Hhid' & Hlen); try done; try lia.
    { by rewrite Hnone. }
    split_and!; try done.
    + by eapply same_dims_trans.
    + lia.
    + apply NoDup_filter, NoDup_coords.
    + intros q Hq. unfold mined_coords. rewrite list_elem_of_filter, elem_of_coords. tauto.
  - destruct (place_mines_fresh (Z.to_nat (m_mineCount b0)) 0 b0) as [b' E'];
      try done; try lia.
    { intros q Hq. by rewrite Hnomine in Hq. }
    exists (fresh_draws (m_width b0) 0 (Z.to_nat (m_mineCount b0))), b'.
    split; [|done]. apply fresh_draws_nonneg; lia.
Qed.

(** The draws [0; 2] put the mine of the 1 x 3 board in column 2. *)
Example initialize_1x3 : initialize (Board_new 3 1 1) [0; 2] = Ret board_1x3.
Proof. reflexivity. Qed.

(** A used board, with [initialize] run again on it: the draws
    [1; 1] hit the cell [(1, 1)] twice, the second time in vain. *)
Example initialize_again :
  initialize (mkBoard 2 2 2 [[mine_cell; shown_cell]; [shown_cell; mkCell true true Flag]])
             [1; 1; 3; 3; 0; 0]
  = Ret board_2x2.
Proof. reflexivity. Qed.

Lemma initialize_places_mines_witness :
  initialize board_2x2 [1; 1; 3; 3; 0; 0] <> Undef /\
  (forall b', initialize board_2x2 [1; 1; 3; 3; 0; 0] = Ret b' ->
     wf b' /\ same_dims board_2x2 b' /\
     length (mined_coords b') = Z.to_nat (m_mineCount board_2x2) /\
     NoDup (mined_coords b') /\
     (forall q, inGrid b' q -> (mineAt b' q = true <-> q ∈ mined_coords b')) /\
     (forall q, inGrid b' q -> revealedAt b' q = false /\ markAt b' q = NoMark)) /\
  (exists draws' b',
     Forall (fun x => 0 <= x) draws' /\ initialize board_2x2 draws' = Ret b').
Proof.
  apply (initialize_places_mines board_2x2 [1; 1; 3; 3; 0; 0]).
  - apply wf_board_2x2.
  - reflexivity.
  - reflexivity.
  - split; [discriminate | reflexivity].
  - repeat constructor; discriminate.
Defined.

(** ** C4: revealing a mine *)

(** C4: revealing a hidden, unflagged mined cell.  [revealCell] sets the
    cell revealed and calls [gameOver(false)], which is the report of the
    loss; a left click on the cell does the same.  On the board [b1] that
    [gameOver] is called on, the cell is revealed and every other cell is
    as it was; the cell keeps its mine and its mark, and no cascade has been
    run.  What [gameOver] then does for the display before its dialog is the
    caller's step: it returns, having set the other mined cells revealed and
    nothing else. *)
Theorem revealCell_mine (b : Board) (row col : Z) :
  wf b -> inBounds b row col = true ->
  isMine b row col = Ret true ->
  isRevealed b row col = Ret false -> markState b row col <> Ret Flag ->
  exists b1 b2,
    setRevealed b row col true = Ret b1 /\
    revealCell b row col = (do b' <- gameOver b1 false ; Ret (b', Loss)) /\
    onCellLeftClicked b row col = revealCell b row col /\
    revealedAt b1 (row, col) = true /\
    mineAt b1 (row, col) = true /\ markAt b1 (row, col) = markAt b (row, col) /\
    (forall q, q <> (row, col) -> cell_at b1 q = cell_at b q) /\
    wf b1 /\ same_dims b b1 /\
    gameOver b1 false = Ret b2 /\
    revealCell b row col = Ret (b2, Loss) /\
    (forall q, revealedAt b2 q = true <-> revealedAt b1 q = true \/ mineAt b1 q = true) /\
    (forall q, mineAt b2 q = mineAt b1 q /\ markAt b2 q = markAt b1 q).
Proof.
  intros Hwf Hin Hmine Hhid Hnf.
  pose proof Hmine as Hmine'.
  rewrite isMine_inGrid in Hmine' by done. injection Hmine' as Hmine'.
  destruct (cell_update_inGrid b row col (fun c => Cell_setRevealed c true) Hwf Hin)
    as (b1 & Hset & Hup).
  pose proof Hup as (Hwf1 & Hd1 & _ & Hframe).
  destruct (updated_revealed _ _ _ _ Hup) as (Hm1 & Hk1 & _ & Hself).
  destruct (gameOver_lost b1 Hwf1) as (b2 & Hover & _ & _ & Hm2 & Hk2 & Hrev2).
  assert (revealCell b row col = (do b' <- gameOver b1 false ; Ret (b', Loss))) as Hreveal.
  { unfold revealCell, setRevealed. rewrite Hmine. cbn [run_bind]. by rewrite Hset. }
  exists b1, b2. split_and!; try done.
  - unfold onCellLeftClicked. rewrite Hhid. cbn [run_bind].
    rewrite markState_inGrid in * by done. cbn [run_bind].
    destruct (decide (markAt b (row, col) = Flag)) as [Hf|_]; [|done].
    by rewrite Hf in Hnf.
  - by apply Hself, cell_at_Some.
  - by rewrite Hm1.
  - by rewrite Hreveal, Hover.
Qed.

Lemma revealCell_mine_witness :
  exists b1 b2,
    setRevealed board_2x2 0 0 true = Ret b1 /\
    revealCell board_2x2 0 0 = (do b' <- gameOver b1 false ; Ret (b', Loss)) /\
    onCellLeftClicked board_2x2 0 0 = revealCell board_2x2 0 0 /\
    revealedAt b1 (0, 0) = true /\
    mineAt b1 (0, 0) = true /\ markAt b1 (0, 0) = markAt board_2x2 (0, 0) /\
    (forall q, q <> (0, 0) -> cell_at b1 q = cell_at board_2x2 q) /\
    wf b1 /\ same_dims board_2x2 b1 /\
    gameOver b1 false = Ret b2 /\
    revealCell board_2x2 0 0 = Ret (b2, Loss) /\
    (forall q, revealedAt b2 q = true <-> revealedAt b1 q = true \/ mineAt b1 q = true) /\
    (forall q, mineAt b2 q = mineAt b1 q /\ markAt b2 q = markAt b1 q).
Proof.
  apply (revealCell_mine board_2x2 0 0);
    [apply wf_board_2x2 | reflexivity | reflexivity | reflexivity | discriminate].
Defined.

(** On [board_2x2], a reveal of the mine at [(0, 0)]: the board [gameOver]
    is called on, and the board on display when its dialog opens. *)
Example reveal_mine_2x2 :
  setRevealed board_2x2 0 0 true
  = Ret (mkBoard 2 2 2 [[mkCell true true NoMark; hid]; [hid; mine_cell]]) /\
  revealCell board_2x2 0 0
  = Ret (mkBoard 2 2 2 [[mkCell true true NoMark; hid]; [hid; mkCell true true NoMark]],
         Loss).
Proof. by split. Qed.

(** ** C5: coordinates outside the grid *)

(** C5, as the code has it: the operations that take a coordinate do not
    test it.  On a coordinate of the grid they return the field of the cell
    there, or replace that one cell, and [revealCell] returns; on any other
    coordinate they index [m_cells] outside its bounds, which is undefined in
    the source and reports nothing.  [inBounds] is the test: [isClearedCell]
    makes it first and answers [false] off the grid, and [neighborMineCount]
    makes it for every neighbour before it reads the cell, so around a cell
    of the grid it always returns. *)
Theorem accessors_range (b : Board) (row col : Z) :
  wf b ->
  (inBounds b row col = true ->
   exists cell,
     cell_at b (row, col) = Some cell /\
     isMine b row col = Ret (m_hasMine cell) /\
     isRevealed b row col = Ret (m_revealed cell) /\
     markState b row col = Ret (m_mark cell) /\
     (forall v, exists b', setMine b row col v = Ret b' /\
                  updated b (row, col) (fun c => Cell_setMine c v) b') /\
     (forall v, exists b', setRevealed b row col v = Ret b' /\
                  updated b (row, col) (fun c => Cell_setRevealed c v) b') /\
     (forall st, exists b', setMarkState b row col st = Ret b' /\
                   updated b (row, col) (fun c => Cell_setMarkState c st) b') /\
     (exists b' o, revealCell b row col = Ret (b', o)) /\
     (exists n, neighborMineCount b row col = Ret n) /\
     (exists v, isClearedCell b row col = Ret v)) /\
  (inBounds b row col = false ->
   isMine b row col = Undef /\ isRevealed b row col = Undef /\
   markState b row col = Undef /\
   (forall v, setMine b row col v = Undef) /\
   (forall v, setRevealed b row col v = Undef) /\
   (forall st, setMarkState b row col st = Undef) /\
   revealCell b row col = Undef /\
   isClearedCell b row col = Ret false).
Proof.
  intros Hwf. split_and!.
  - intros Hin. destruct (cell_ref_inBounds b row col Hwf Hin) as [cell Ec].
    exists cell. unfold isMine, isRevealed, markState, cell_at. simpl. rewrite Ec. simpl.
    split_and!; try done.
    + intros v. by apply cell_update_inGrid.
    + intros v. by apply cell_update_inGrid.
    + intros st. by apply cell_update_inGrid.
    + destruct (mineAt b (row, col)) eqn:Hm.
      * destruct (revealCell_lost b row col) as (b' & E & _); eauto.
      * destruct (revealCell_safe b row col) as (b1 & b' & o & H); [done..|].
        exists b', o. apply H.
    + rewrite neighborMineCount_neighbours by done. eauto.
    + unfold isClearedCell, isRevealed. rewrite Hin, Ec. simpl.
      rewrite neighborMineCount_neighbours by done. simpl.
      destruct (m_revealed cell); simpl; eauto.
  - intros Hout. pose proof (cell_ref_outside b row col Hwf Hout) as Ec.
    unfold isMine, isRevealed, markState, setMine, setRevealed, setMarkState,
      revealCell, isClearedCell, isMine, isRevealed, cell_update.
    rewrite Ec, Hout. done.
Qed.

Lemma accessors_range_witness :
  (inBounds board_2x2 0 1 = true ->
   exists cell,
     cell_at board_2x2 (0, 1) = Some cell /\
     isMine board_2x2 0 1 = Ret (m_hasMine cell) /\
     isRevealed board_2x2 0 1 = Ret (m_revealed cell) /\
     markState board_2x2 0 1 = Ret (m_mark cell) /\
     (forall v, exists b', setMine board_2x2 0 1 v = Ret b' /\
                  updated board_2x2 (0, 1) (fun c => Cell_setMine c v) b') /\
     (forall v, exists b', setRevealed board_2x2 0 1 v = Ret b' /\
                  updated board_2x2 (0, 1) (fun c => Cell_setRevealed c v) b') /\
     (forall st, exists b', setMarkState board_2x2 0 1 st = Ret b' /\
                   updated board_2x2 (0, 1) (fun c => Cell_setMarkState c st) b') /\
     (exists b' o, revealCell board_2x2 0 1 = Ret (b', o)) /\
     (exists n, neighborMineCount board_2x2 0 1 = Ret n) /\
     (exists v, isClearedCell board_2x2 0 1 = Ret v)) /\
  (inBounds board_2x2 0 1 = false ->
   isMine board_2x2 0 1 = Undef /\ isRevealed board_2x2 0 1 = Undef /\
   markState board_2x2 0 1 = Undef /\
   (forall v, setMine board_2x2 0 1 v = Undef) /\
   (forall v, setRevealed board_2x2 0 1 v = Undef) /\
   (forall st, setMarkState board_2x2 0 1 st = Undef) /\
   revealCell board_2x2 0 1 = Undef /\
   isClearedCell board_2x2 0 1 = Ret false).
Proof. apply (accessors_range board_2x2 0 1). apply wf_board_2x2. Defined.

(** C5 as stated fails: on the 2 x 2 board, column 2 is out of range, and
    none of the operations reports it; each of them indexes the row at 2. *)
Lemma out_of_range_unchecked :
  ~ (forall b row col,
       wf b -> inBounds b row col = false ->
       isMine b row col <> Undef /\ isRevealed b row col <> Undef /\
       markState b row col <> Undef /\ setMine b row col true <> Undef /\
       setRevealed b row col true <> Undef /\ setMarkState b row col Flag <> Undef /\
       revealCell b row col <> Undef).
Proof.
  intros H. destruct (H board_2x2 0 2 wf_board_2x2 eq_refl) as (Hm & _). by apply Hm.
Qed.

Example out_of_range_2x2 :
  inBounds board_2x2 0 2 = false /\
  isMine board_2x2 0 2 = Undef /\ isRevealed board_2x2 0 2 = Undef /\
  markState board_2x2 0 2 = Undef /\ setMine board_2x2 0 2 true = Undef /\
  setRevealed board_2x2 0 2 true = Undef /\ setMarkState board_2x2 0 2 Flag = Undef /\
  revealCell board_2x2 0 2 = Undef /\
  isMine board_2x2 (-1) 0 = Undef /\ isMine board_2x2 2 0 = Undef.
Proof. by repeat split. Qed.

(** ** C6: the cascade ends, and handles each cell once *)

(** C6: the cascade [revealCell] starts (the start cell has just been set
    revealed) returns with the queue empty; its [while] loop ends within one
    iteration per cell of the grid and one for the start, whatever larger
    budget it is given.  No cell is pushed on the queue twice and no cell is
    set revealed twice.  The cells it sets revealed were hidden before and are
    exactly the ones that changed. *)
Theorem cascade_once (b : Board) (row col : Z) :
  wf b -> inBounds b row col = true ->
  exists b1 s,
    setRevealed b row col true = Ret b1 /\
    cascadeReveal b1 row col = Ret s /\
    (forall fuel, (area b < fuel)%nat ->
       cascade_loop fuel (mkCascade b1 [(row, col)] [(row, col)] []) = Ret s) /\
    c_queue s = [] /\
    NoDup (c_pushed s) /\ NoDup (c_shown s) /\
    (forall q, q ∈ c_shown s -> revealedAt b1 q = false) /\
    (forall q, revealedAt (c_board s) q = true <->
               revealedAt b1 q = true \/ q ∈ c_shown s).
Proof.
  intros Hwf Hin.
  destruct (cell_update_inGrid b row col (fun c => Cell_setRevealed c true))
    as (b1 & E1 & Hup); [done..|].
  destruct (updated_revealed _ _ _ _ Hup) as (_ & _ & _ & Hself).
  assert (revealedAt b1 (row, col) = true) as Hs by (by apply Hself, cell_at_Some).
  destruct (cascadeReveal_inv b1 (row, col)) as (s & Es & Hinv & Hq); [apply Hup|].
  exists b1, s. split_and!; try done.
  - intros fuel Hfuel. apply (cascade_loop_more (S (area b1))); [done|].
    assert (area b1 = area b) as ->; [|lia].
    destruct Hup as (_ & (Hw & Hh & _) & _). unfold area. by rewrite Hw, Hh.
  - destruct (ci_pushed _ _ _ _ Hinv) as (l & -> & Hsub & _).
    apply NoDup_cons. split.
    + intros Hl. pose proof (elem_of_sublist _ _ _ Hl Hsub) as Hl'.
      apply (ci_shown _ _ _ _ Hinv) in Hl' as [_ Hl']. congruence.
    + apply (sublist_NoDup l (c_shown s)); [apply Hinv | done].
  - apply Hinv.
  - intros q Hsh. by apply (ci_shown _ _ _ _ Hinv).
  - apply Hinv.
Qed.

Lemma cascade_once_witness :
  exists b1 s,
    setRevealed board_barrier 0 3 true = Ret b1 /\
    cascadeReveal b1 0 3 = Ret s /\
    (forall fuel, (area board_barrier < fuel)%nat ->
       cascade_loop fuel (mkCascade b1 [(0, 3)] [(0, 3)] []) = Ret s) /\
    c_queue s = [] /\
    NoDup (c_pushed s) /\ NoDup (c_shown s) /\
    (forall q, q ∈ c_shown s -> revealedAt b1 q = false) /\
    (forall q, revealedAt (c_board s) q = true <->
               revealedAt b1 q = true \/ q ∈ c_shown s).
Proof.
  apply (cascade_once board_barrier 0 3); [apply wf_board_barrier | reflexivity].
Defined.

(** On [board_barrier], from column 3 the cascade reveals columns
    4 and 2 and goes on from column 2 only. *)
Example cascade_from_column_3 :
  (do b1 <- setRevealed board_barrier 0 3 true ;
   do s <- cascadeReveal b1 0 3 ;
   Ret (c_pushed s, c_shown s))
  = Ret ([(0, 3); (0, 2)], [(0, 2); (0, 4)]).
Proof. reflexivity. Qed.

(** The start has to be revealed when [cascadeReveal] is called, as it is
    in [revealCell]: a hidden start would be reached again from a neighbour. *)
Remark cascade_hidden_start :
  (do s <- cascadeReveal (Board_new 2 1 0) 0 0 ; Ret (c_pushed s))
  = Ret [(0, 0); (0, 1); (0, 0)].
Proof. reflexivity. Qed.

(** ** C7: [neighborMineCount] *)

(** C7: on a coordinate of the grid, [neighborMineCount] returns the
    number of mined cells of the grid at Chebyshev distance exactly 1 (the
    cell itself is at distance 0 and is not counted), a value from 0 to 8. *)
Theorem neighborMineCount_moore (b : Board) (row col : Z) :
  wf b -> inBounds b row col = true ->
  neighborMineCount b row col = Ret (Z.of_nat (length (moore_mines b (row, col)))) /\
  0 <= Z.of_nat (length (moore_mines b (row, col))) <= 8 /\
  (forall q, q ∈ moore_mines b (row, col) <->
             inGrid b q /\ chebyshev (row, col) q = 1 /\ mineAt b q = true) /\
  NoDup (moore_mines b (row, col)).
Proof.
  intros Hwf _. rewrite neighborMineCount_neighbours by done.
  rewrite <- mines_among_moore by done. split_and!.
  - done.
  - apply mines_among_bounds.
  - apply mines_among_bounds.
  - intros q. unfold moore_mines. rewrite list_elem_of_filter, elem_of_coords. tauto.
  - apply NoDup_filter, NoDup_coords.
Qed.

Lemma neighborMineCount_moore_witness :
  neighborMineCount board_2x2 0 1 = Ret (Z.of_nat (length (moore_mines board_2x2 (0, 1)))) /\
  0 <= Z.of_nat (length (moore_mines board_2x2 (0, 1))) <= 8 /\
  (forall q, q ∈ moore_mines board_2x2 (0, 1) <->
             inGrid board_2x2 q /\ chebyshev (0, 1) q = 1 /\ mineAt board_2x2 q = true) /\
  NoDup (moore_mines board_2x2 (0, 1)).
Proof.
  apply (neighborMineCount_moore board_2x2 0 1); [apply wf_board_2x2 | reflexivity].
Defined.

(** The check the specification suggests: on a 3 x 3 board with one mine
    in the middle, every other cell counts 1, and the middle counts 0. *)
Example count_3x3 :
  let b := mkBoard 3 3 1 [[hid; hid; hid]; [hid; mine_cell; hid]; [hid; hid; hid]] in
  map (fun p : Point => neighborMineCount b (fst p) (snd p)) (coords b)
  = [Ret 1; Ret 1; Ret 1; Ret 1; Ret 0; Ret 1; Ret 1; Ret 1; Ret 1].
Proof. reflexivity. Qed.

(** ** C8: commands on a cell that is already revealed *)

(** C8, as the code has it: a left click on a revealed cell changes
    nothing and tells the player nothing ([Continue]).  A right click on a
    revealed cell still advances that cell's mark; it changes no other cell,
    and no cell's mine or revealed field. *)
Theorem revealed_cell_commands (b : Board) (row col : Z) :
  wf b -> inBounds b row col = true -> isRevealed b row col = Ret true ->
  onCellLeftClicked b row col = Ret (b, Continue) /\
  exists b',
    eventFilter b row col = Ret b' /\
    (forall q, revealedAt b' q = revealedAt b q /\ mineAt b' q = mineAt b q) /\
    (forall q, q <> (row, col) -> cell_at b' q = cell_at b q) /\
    markAt b' (row, col) = cycle_next (markAt b (row, col)).
Proof.
  intros Hwf Hin Hrev. split.
  - unfold onCellLeftClicked. by rewrite Hrev.
  - destruct (eventFilter_spec b row col) as (b' & E & Hup); [done..|].
    destruct (updated_mark _ _ _ _ Hup) as (Hm & Hr & Ho & Hs).
    exists b'. split_and!; try done.
    + apply Hup.
    + by apply Hs, cell_at_Some.
Qed.

Lemma revealed_cell_commands_witness :
  onCellLeftClicked board_1x3_open 0 0 = Ret (board_1x3_open, Continue) /\
  exists b',
    eventFilter board_1x3_open 0 0 = Ret b' /\
    (forall q, revealedAt b' q = revealedAt board_1x3_open q /\
               mineAt b' q = mineAt board_1x3_open q) /\
    (forall q, q <> (0, 0) -> cell_at b' q = cell_at board_1x3_open q) /\
    markAt b' (0, 0) = cycle_next (markAt board_1x3_open (0, 0)).
Proof.
  apply (revealed_cell_commands board_1x3_open 0 0);
    [apply wf_board_1x3_open | reflexivity | reflexivity].
Defined.

(** C8 as stated fails for the right click: on [board_1x3_open] it turns
    the mark of the revealed cell [(0, 0)] into [Flag]. *)
Lemma right_click_marks_revealed_cell :
  ~ (forall b row col,
       wf b -> inBounds b row col = true -> isRevealed b row col = Ret true ->
       forall b', eventFilter b row col = Ret b' ->
       forall q, cell_at b' q = cell_at b q).
Proof.
  intros H.
  specialize (H board_1x3_open 0 0 wf_board_1x3_open eq_refl eq_refl _ eq_refl (0, 0)).
  discriminate H.
Qed.

(** ** C9: the three-state cycle of marks *)

(** C9: on a hidden cell of the grid a right click returns and takes the
    mark from [None] to [Flag], from [Flag] to [Question] and from [Question]
    to [None]; three right clicks on the cell bring its mark, and the whole
    board, back to where they were. *)
Theorem cycle_mark_three (b : Board) (row col : Z) :
  wf b -> inBounds b row col = true -> isRevealed b row col = Ret false ->
  exists st b1 b2 b3,
    markState b row col = Ret st /\
    eventFilter b row col = Ret b1 /\ markState b1 row col = Ret (cycle_next st) /\
    eventFilter b1 row col = Ret b2 /\
    markState b2 row col = Ret (cycle_next (cycle_next st)) /\
    eventFilter b2 row col = Ret b3 /\ markState b3 row col = Ret st /\
    cycle_next (cycle_next (cycle_next st)) = st /\
    (forall q, cell_at b3 q = cell_at b q).
Proof.
  intros Hwf Hin _.
  destruct (eventFilter_spec b row col) as (b1 & E1 & Hup1); [done..|].
  assert (wf b1 /\ inBounds b1 row col = true) as [Hwf1 Hin1].
  { split; [apply Hup1|]. by rewrite (inBounds_same b b1) by apply Hup1. }
  destruct (eventFilter_spec b1 row col) as (b2 & E2 & Hup2); [done..|].
  assert (wf b2 /\ inBounds b2 row col = true) as [Hwf2 Hin2].
  { split; [apply Hup2|]. by rewrite (inBounds_same b1 b2) by apply Hup2. }
  destruct (eventFilter_spec b2 row col) as (b3 & E3 & Hup3); [done..|].
  assert (wf b3 /\ inBounds b3 row col = true) as [Hwf3 Hin3].
  { split; [apply Hup3|]. by rewrite (inBounds_same b2 b3) by apply Hup3. }
  destruct (updated_mark _ _ _ _ Hup1) as (Hm1 & Hr1 & Ho1 & Hs1).
  destruct (updated_mark _ _ _ _ Hup2) as (Hm2 & Hr2 & Ho2 & Hs2).
  destruct (updated_mark _ _ _ _ Hup3) as (Hm3 & Hr3 & Ho3 & Hs3).
  rewrite Hs1 in * by (by apply cell_at_Some).
  rewrite Hs2 in * by (by apply cell_at_Some).
  assert (cycle_next (cycle_next (cycle_next (markAt b (row, col)))) = markAt b (row, col))
    as Hcyc by (by destruct (markAt b (row, col))).
  exists (markAt b (row, col)), b1, b2, b3.
  rewrite !markState_inGrid by done. rewrite Hs1, Hs2, Hs3 by (by apply cell_at_Some).
  rewrite Hcyc. split_and!; try done.
  intros q. apply cell_at_ext; try done.
  - eapply same_dims_trans; [|apply Hup3].
    eapply same_dims_trans; [apply Hup1 | apply Hup2].
  - by rewrite Hm3, Hm2, Hm1.
  - by rewrite Hr3, Hr2, Hr1.
  - destruct (decide (q = (row, col))) as [->|Hne].
    + rewrite Hs3 by (by apply cell_at_Some). done.
    + by rewrite Ho3, Ho2, Ho1.
Qed.

Lemma cycle_mark_three_witness :
  exists st b1 b2 b3,
    markState board_1x3 0 1 = Ret st /\
    eventFilter board_1x3 0 1 = Ret b1 /\ markState b1 0 1 = Ret (cycle_next st) /\
    eventFilter b1 0 1 = Ret b2 /\
    markState b2 0 1 = Ret (cycle_next (cycle_next st)) /\
    eventFilter b2 0 1 = Ret b3 /\ markState b3 0 1 = Ret st /\
    cycle_next (cycle_next (cycle_next st)) = st /\
    (forall q, cell_at b3 q = cell_at board_1x3 q).
Proof.
  apply (cycle_mark_three board_1x3 0 1);
    [apply wf_board_1x3 | reflexivity | reflexivity].
Defined.

(** ** C10: the cascade reveals no mine *)

(** C10: a cascade from a cell of count zero returns, every cell it sets
    revealed is without a mine, so every revealed mine was revealed before
    it, and every cell it pushes on the queue has count zero. *)
Theorem cascade_reveals_no_mine (b : Board) (row col : Z) :
  wf b -> inBounds b row col = true -> neighborMineCount b row col = Ret 0 ->
  exists s,
    cascadeReveal b row col = Ret s /\
    (forall q, q ∈ c_shown s -> isMine b (fst q) (snd q) = Ret false) /\
    (forall q, revealedAt (c_board s) q = true -> mineAt (c_board s) q = true ->
               revealedAt b q = true) /\
    (forall p, p ∈ c_pushed s -> neighborMineCount b (fst p) (snd p) = Ret 0).
Proof.
  intros Hwf Hin Hz.
  destruct (cascadeReveal_inv b (row, col) Hwf) as (s & Es & Hinv & Hq).
  pose proof Hz as Hz'. apply (zero_count_spec b (row, col)) in Hz'; [|done].
  assert (forall q, q ∈ c_shown s -> mineAt b q = false) as Hsafe.
  { intros q Hsh. apply (reached_safe b (row, col)); [done|].
    by apply (ci_shown _ _ _ _ Hinv). }
  exists s. split_and!; try done.
  - intros q Hsh.
    assert (inGrid b q) as Hg.
    { apply (ci_shown _ _ _ _ Hinv) in Hsh as [Hr _]. by apply reached_open in Hr as [? _]. }
    rewrite isMine_inGrid by done.
    replace (q.1, q.2) with q by by destruct q. by rewrite Hsafe.
  - intros q Hr Hm. rewrite (ci_mine _ _ _ _ Hinv) in Hm.
    apply (ci_rev _ _ _ _ Hinv) in Hr as [?|Hsh]; [done|].
    apply Hsafe in Hsh. congruence.
  - intros p Hp. destruct (ci_pushed _ _ _ _ Hinv) as (l & El & _ & Hl).
    rewrite El in Hp. apply elem_of_cons in Hp as [->|Hp]; [done|].
    by apply zero_count_spec, Hl.
Qed.

Lemma cascade_reveals_no_mine_witness :
  exists s,
    cascadeReveal board_1x3 0 0 = Ret s /\
    (forall q, q ∈ c_shown s -> isMine board_1x3 (fst q) (snd q) = Ret false) /\
    (forall q, revealedAt (c_board s) q = true -> mineAt (c_board s) q = true ->
               revealedAt board_1x3 q = true) /\
    (forall p, p ∈ c_pushed s -> neighborMineCount board_1x3 (fst p) (snd p) = Ret 0).
Proof.
  apply (cascade_reveals_no_mine board_1x3 0 0);
    [apply wf_board_1x3 | reflexivity | reflexivity].
Defined.

(** * Further properties of the board *)

(** ** Boards as grids of cells *)

Lemma cell_ref_cell_at b row col :
  cell_ref b row col = match cell_at b (row, col) with Some c => Ret c | None => Undef end.
Proof.
  unfold cell_at. simpl. destruct (cell_ref b row col) eqn:E; try done.
  unfold cell_ref in E. destruct (at_ (m_cells b) row) eqn:E1; simpl in E.
  - by apply at_not_Fuel in E.
  - done.
  - by apply at_not_Fuel in E1.
Qed.

Lemma cell_at_nat b (i j : nat) :
  cell_at b (Z.of_nat i, Z.of_nat j) = (m_cells b !! i) ≫= (fun line => line !! j).
Proof.
  unfold cell_at, cell_ref, at_. simpl.
  destruct (Z.leb_spec 0 (Z.of_nat i)); [|lia].
  destruct (Z.leb_spec 0 (Z.of_nat j)); [|lia].
  rewrite !Nat2Z.id. destruct (m_cells b !! i) as [line|]; simpl; [|done].
  by destruct (line !! j).
Qed.

(** Two boards of the same shape with the same cells are the same board. *)
Lemma board_ext b b' :
  wf b -> wf b' -> same_dims b b' -> (forall q, cell_at b' q = cell_at b q) -> b' = b.
Proof.
  intros [Hl Hall] [Hl' Hall'] (Hw & Hh & Hc) Hcells.
  destruct b as [w h mc cells], b' as [w' h' mc' cells']. simpl in *. subst w' h' mc'.
  f_equal. apply list_eq. intros i.
  destruct (cells !! i) as [line|] eqn:Ei, (cells' !! i) as [line'|] eqn:Ei'.
  - f_equal. apply list_eq. intros j.
    pose proof (Hcells (Z.of_nat i, Z.of_nat j)) as Hq.
    rewrite !cell_at_nat in Hq. simpl in Hq. by rewrite Ei, Ei' in Hq.
  - apply lookup_lt_Some in Ei. apply lookup_ge_None in Ei'. lia.
  - apply lookup_ge_None in Ei. apply lookup_lt_Some in Ei'. lia.
  - done.
Qed.

Lemma readers_cell_at b b' row col :
  cell_at b' (row, col) = cell_at b (row, col) ->
  isMine b' row col = isMine b row col /\
  isRevealed b' row col = isRevealed b row col /\
  markState b' row col = markState b row col.
Proof.
  intros H. unfold isMine, isRevealed, markState. by rewrite !cell_ref_cell_at, H.
Qed.

Lemma cell_at_Board_new width height mineCount p :
  cell_at (Board_new width height mineCount) p
  = if inBounds (Board_new width height mineCount) p.1 p.2 then Some Cell_new else None.
Proof.
  set (b := Board_new width height mineCount).
  assert (wf b) as Hwf by apply wf_Board_new.
  destruct (inBounds b p.1 p.2) eqn:Hin.
  - destruct (cell_ref_inBounds b _ _ Hwf Hin) as [cell Ec].
    unfold cell_at. rewrite Ec. f_equal.
    apply cell_ref_Ret in Ec as (_ & _ & line & Hline & Hcell). simpl in Hline.
    apply lookup_replicate in Hline as [-> _]. by apply lookup_replicate in Hcell as [-> _].
  - unfold cell_at. by rewrite cell_ref_outside.
Qed.

(** X1: the constructor, for sizes that are not negative, makes a board
    of [height] rows of [width] cells that remembers its three parameters;
    every cell of the grid has no mine, is hidden and unmarked, and no
    coordinate off the grid has a cell. *)
Theorem Board_new_cells (width height mineCount : Z) :
  0 <= width -> 0 <= height ->
  let b := Board_new width height mineCount in
  wf b /\ m_width b = width /\ m_height b = height /\ m_mineCount b = mineCount /\
  length (coords b) = Z.to_nat (width * height) /\
  (forall row col, inBounds b row col = true ->
     isMine b row col = Ret false /\ isRevealed b row col = Ret false /\
     markState b row col = Ret NoMark) /\
  (forall row col, inBounds b row col = false -> cell_at b (row, col) = None).
Proof.
  intros Hw Hh b. split_and!; try done.
  - apply wf_Board_new.
  - rewrite length_coords. unfold area. simpl. lia.
  - intros row col Hin. unfold isMine, isRevealed, markState.
    rewrite cell_ref_cell_at. unfold b. rewrite cell_at_Board_new. simpl.
    fold b. by rewrite Hin.
  - intros row col Hout. unfold b. rewrite cell_at_Board_new. simpl. fold b. by rewrite Hout.
Qed.

Lemma Board_new_cells_witness :
  let b := Board_new 30 16 99 in
  wf b /\ m_width b = 30 /\ m_height b = 16 /\ m_mineCount b = 99 /\
  length (coords b) = Z.to_nat (30 * 16) /\
  (forall row col, inBounds b row col = true ->
     isMine b row col = Ret false /\ isRevealed b row col = Ret false /\
     markState b row col = Ret NoMark) /\
  (forall row col, inBounds b row col = false -> cell_at b (row, col) = None).
Proof. apply (Board_new_cells 30 16 99); lia. Defined.

(** ** The setters *)

Lemma updated_unique b p f b1 b2 : wf b -> updated b p f b1 -> updated b p f b2 -> b1 = b2.
Proof.
  intros Hwf (Hwf1 & Hd1 & Hp1 & Ho1) (Hwf2 & Hd2 & Hp2 & Ho2).
  apply board_ext; try done.
  - destruct Hd1 as (? & ? & ?), Hd2 as (? & ? & ?). split_and!; congruence.
  - intros q. destruct (decide (q = p)) as [->|Hne]; [congruence|].
    by rewrite Ho1, Ho2.
Qed.

(** Writing a cell twice is writing it once with both changes. *)
Lemma cell_update_again b row col f g b' :
  wf b -> inBounds b row col = true -> cell_update b row col f = Ret b' ->
  cell_update b' row col g = cell_update b row col (fun c => g (f c)).
Proof.
  intros Hwf Hin E.
  destruct (cell_update_inGrid b row col f) as (b1 & E1 & Hup1); [done..|].
  assert (b1 = b') as -> by congruence.
  assert (inBounds b' row col = true) as Hin' by (by rewrite (inBounds_same b b') by apply Hup1).
  destruct (cell_update_inGrid b' row col g) as (b2 & E2 & Hup2); [apply Hup1|done|].
  destruct (cell_update_inGrid b row col (fun c => g (f c))) as (b3 & E3 & Hup3); [done..|].
  rewrite E2, E3. f_equal. apply (updated_unique b (row, col) (fun c => g (f c))); [done| |done].
  destruct Hup1 as (_ & Hd1 & Hp1 & Ho1), Hup2 as (Hwf2 & Hd2 & Hp2 & Ho2).
  split_and!; try done.
  - by eapply same_dims_trans.
  - rewrite Hp2, Hp1. by destruct (cell_at b (row, col)).
  - intros q Hq. by rewrite Ho2, Ho1.
Qed.

(** Writing to a cell what it holds changes nothing. *)
Lemma cell_update_same b row col f :
  wf b -> inBounds b row col = true ->
  (forall c, cell_at b (row, col) = Some c -> f c = c) ->
  cell_update b row col f = Ret b.
Proof.
  intros Hwf Hin Hf.
  destruct (cell_update_inGrid b row col f) as (b1 & E1 & Hup1); [done..|].
  rewrite E1. f_equal. destruct Hup1 as (Hwf1 & Hd1 & Hp1 & Ho1).
  apply board_ext; try done. intros q.
  destruct (decide (q = (row, col))) as [->|Hne]; [|by apply Ho1].
  rewrite Hp1. destruct (cell_at b (row, col)) as [c|] eqn:Ec; [|done].
  simpl. f_equal. by apply Hf.
Qed.

(** X2: [setRevealed] on a cell of the grid returns; [isRevealed] then
    reads back the value written, and nothing else is touched: [isRevealed]
    at every other coordinate, and [isMine] and [markState] at every
    coordinate, answer as before.  A second write overrides the first, and
    writing the value the cell already has leaves the board as it is. *)
Theorem setRevealed_round_trip (b : Board) (row col : Z) (v : bool) :
  wf b -> inBounds b row col = true ->
  exists b',
    setRevealed b row col v = Ret b' /\ wf b' /\ same_dims b b' /\
    isRevealed b' row col = Ret v /\
    (forall r c, (r, c) <> (row, col) -> isRevealed b' r c = isRevealed b r c) /\
    (forall r c, isMine b' r c = isMine b r c /\ markState b' r c = markState b r c) /\
    (forall v', setRevealed b' row col v' = setRevealed b row col v') /\
    (isRevealed b row col = Ret v -> b' = b).
Proof.
  intros Hwf Hin. unfold setRevealed.
  destruct (cell_update_inGrid b row col (fun c => Cell_setRevealed c v))
    as (b' & E & Hup); [done..|].
  pose proof Hup as (Hwf' & Hd' & Hp & Ho).
  exists b'. split_and!; try done.
  - unfold isRevealed. rewrite cell_ref_cell_at, Hp.
    destruct (proj2 (cell_at_Some b (row, col) Hwf) Hin) as [c ->]. done.
  - intros r c Hne. by apply readers_cell_at, Ho.
  - intros r c. unfold isMine, markState. rewrite !cell_ref_cell_at.
    destruct (decide ((r, c) = (row, col))) as [[= -> ->]|Hne]; [|by rewrite Ho].
    rewrite Hp. by destruct (cell_at b (row, col)).
  - intros v'.
    by rewrite (cell_update_again b row col (fun c => Cell_setRevealed c v)
                 (fun c => Cell_setRevealed c v') b').
  - intros Hv. assert (cell_update b row col (fun c => Cell_setRevealed c v) = Ret b)
      as E'; [|congruence].
    apply cell_update_same; try done. intros [m r k] Hc.
    unfold isRevealed in Hv. rewrite cell_ref_cell_at, Hc in Hv. simpl in Hv.
    injection Hv as ->. done.
Qed.

Lemma setRevealed_round_trip_witness :
  exists b',
    setRevealed board_2x2 0 1 true = Ret b' /\ wf b' /\ same_dims board_2x2 b' /\
    isRevealed b' 0 1 = Ret true /\
    (forall r c, (r, c) <> (0, 1) -> isRevealed b' r c = isRevealed board_2x2 r c) /\
    (forall r c, isMine b' r c = isMine board_2x2 r c /\
                 markState b' r c = markState board_2x2 r c) /\
    (forall v', setRevealed b' 0 1 v' = setRevealed board_2x2 0 1 v') /\
    (isRevealed board_2x2 0 1 = Ret true -> b' = board_2x2).
Proof.
  apply (setRevealed_round_trip board_2x2 0 1 true); [apply wf_board_2x2 | reflexivity].
Defined.

(** X3: the same for [setMine] and [isMine]. *)
Theorem setMine_round_trip (b : Board) (row col : Z) (v : bool) :
  wf b -> inBounds b row col = true ->
  exists b',
    setMine b row col v = Ret b' /\ wf b' /\ same_dims b b' /\
    isMine b' row col = Ret v /\
    (forall r c, (r, c) <> (row, col) -> isMine b' r c = isMine b r c) /\
    (forall r c, isRevealed b' r c = isRevealed b r c /\
                 markState b' r c = markState b r c) /\
    (forall v', setMine b' row col v' = setMine b row col v') /\
    (isMine b row col = Ret v -> b' = b).
Proof.
  intros Hwf Hin. unfold setMine.
  destruct (cell_update_inGrid b row col (fun c => Cell_setMine c v))
    as (b' & E & Hup); [done..|].
  pose proof Hup as (Hwf' & Hd' & Hp & Ho).
  exists b'. split_and!; try done.
  - unfold isMine. rewrite cell_ref_cell_at, Hp.
    destruct (proj2 (cell_at_Some b (row, col) Hwf) Hin) as [c ->]. done.
  - intros r c Hne. by apply readers_cell_at, Ho.
  - intros r c. unfold isRevealed, markState. rewrite !cell_ref_cell_at.
    destruct (decide ((r, c) = (row, col))) as [[= -> ->]|Hne]; [|by rewrite Ho].
    rewrite Hp. by destruct (cell_at b (row, col)).
  - intros v'.
    by rewrite (cell_update_again b row col (fun c => Cell_setMine c v)
                 (fun c => Cell_setMine c v') b').
  - intros Hv. assert (cell_update b row col (fun c => Cell_setMine c v) = Ret b)
      as E'; [|congruence].
    apply cell_update_same; try done. intros [m r k] Hc.
    unfold isMine in Hv. rewrite cell_ref_cell_at, Hc in Hv. simpl in Hv.
    injection Hv as ->. done.
Qed.

Lemma setMine_round_trip_witness :
  exists b',
    setMine board_2x2 0 1 true = Ret b' /\ wf b' /\ same_dims board_2x2 b' /\
    isMine b' 0 1 = Ret true /\
    (forall r c, (r, c) <> (0, 1) -> isMine b' r c = isMine board_2x2 r c) /\
    (forall r c, isRevealed b' r c = isRevealed board_2x2 r c /\
                 markState b' r c = markState board_2x2 r c) /\
    (forall v', setMine b' 0 1 v' = setMine board_2x2 0 1 v') /\
    (isMine board_2x2 0 1 = Ret true -> b' = board_2x2).
Proof.
  apply (setMine_round_trip board_2x2 0 1 true); [apply wf_board_2x2 | reflexivity].
Defined.

(** X4: the same for [setMarkState] and [markState]. *)
Theorem setMarkState_round_trip (b : Board) (row col : Z) (st : MarkState) :
  wf b -> inBounds b row col = true ->
  exists b',
    setMarkState b row col st = Ret b' /\ wf b' /\ same_dims b b' /\
    markState b' row col = Ret st /\
    (forall r c, (r, c) <> (row, col) -> markState b' r c = markState b r c) /\
    (forall r c, isMine b' r c = isMine b r c /\ isRevealed b' r c = isRevealed b r c) /\
    (forall st', setMarkState b' row col st' = setMarkState b row col st') /\
    (markState b row col = Ret st -> b' = b).
Proof.
  intros Hwf Hin. unfold setMarkState.
  destruct (cell_update_inGrid b row col (fun c => Cell_setMarkState c st))
    as (b' & E & Hup); [done..|].
  pose proof Hup as (Hwf' & Hd' & Hp & Ho).
  exists b'. split_and!; try done.
  - unfold markState. rewrite cell_ref_cell_at, Hp.
    destruct (proj2 (cell_at_Some b (row, col) Hwf) Hin) as [c ->]. done.
  - intros r c Hne. by apply readers_cell_at, Ho.
  - intros r c. unfold isMine, isRevealed. rewrite !cell_ref_cell_at.
    destruct (decide ((r, c) = (row, col))) as [[= -> ->]|Hne]; [|by rewrite Ho].
    rewrite Hp. by destruct (cell_at b (row, col)).
  - intros st'.
    by rewrite (cell_update_again b row col (fun c => Cell_setMarkState c st)
                 (fun c => Cell_setMarkState c st') b').
  - intros Hv. assert (cell_update b row col (fun c => Cell_setMarkState c st) = Ret b)
      as E'; [|congruence].
    apply cell_update_same; try done. intros [m r k] Hc.
    unfold markState in Hv. rewrite cell_ref_cell_at, Hc in Hv. simpl in Hv.
    injection Hv as ->. done.
Qed.

Lemma setMarkState_round_trip_witness :
  exists b',
    setMarkState board_2x2 0 1 Question = Ret b' /\ wf b' /\ same_dims board_2x2 b' /\
    markState b' 0 1 = Ret Question /\
    (forall r c, (r, c) <> (0, 1) -> markState b' r c = markState board_2x2 r c) /\
    (forall r c, isMine b' r c = isMine board_2x2 r c /\
                 isRevealed b' r c = isRevealed board_2x2 r c) /\
    (forall st', setMarkState b' 0 1 st' = setMarkState board_2x2 0 1 st') /\
    (markState board_2x2 0 1 = Ret Question -> b' = board_2x2).
Proof.
  apply (setMarkState_round_trip board_2x2 0 1 Question);
    [apply wf_board_2x2 | reflexivity].
Defined.

(** ** Counting neighbours *)

(** X5: [isClearedCell] returns on every coordinate; it answers [true]
    exactly for a coordinate of the grid whose cell is revealed and whose
    count is zero, and then no cell of the grid next to it holds a mine. *)
Theorem isClearedCell_spec (b : Board) (row col : Z) :
  wf b ->
  exists v,
    isClearedCell b row col = Ret v /\
    (v = true <-> inBounds b row col = true /\ isRevealed b row col = Ret true /\
                  neighborMineCount b row col = Ret 0) /\
    (v = true -> forall r c, chebyshev (row, col) (r, c) = 1 -> inBounds b r c = true ->
                             isMine b r c = Ret false).
Proof.
  intros Hwf. unfold isClearedCell.
  destruct (inBounds b row col) eqn:Hin; cbn [negb].
  2:{ exists false. split_and!; [done | | done]. split; [done | by intros (? & _)]. }
  rewrite isRevealed_inGrid by done. cbn [run_bind].
  destruct (revealedAt b (row, col)) eqn:Hr; cbn [negb].
  2:{ exists false. split_and!; [done | | done]. split; [done | by intros (_ & ? & _)]. }
  rewrite neighborMineCount_neighbours by done. cbn [run_bind].
  exists (mines_among b (neighbours (row, col)) =? 0). split_and!; [done| |].
  - rewrite Z.eqb_eq. split; [by intros -> | by intros (_ & _ & [=])].
  - intros Hz%Z.eqb_eq r c Hd Hg. rewrite isMine_inGrid by done. f_equal.
    apply (mines_among_zero b (neighbours (row, col))); [done|].
    by apply elem_of_neighbours.
Qed.

Lemma isClearedCell_spec_witness :
  exists v,
    isClearedCell board_barrier 0 1 = Ret v /\
    (v = true <-> inBounds board_barrier 0 1 = true /\
                  isRevealed board_barrier 0 1 = Ret true /\
                  neighborMineCount board_barrier 0 1 = Ret 0) /\
    (v = true -> forall r c, chebyshev (0, 1) (r, c) = 1 ->
                             inBounds board_barrier r c = true ->
                             isMine board_barrier r c = Ret false).
Proof. apply (isClearedCell_spec board_barrier 0 1). apply wf_board_barrier. Defined.

(** X6: the counts depend on the mines only.  [setRevealed] and
    [setMarkState] change no cell's count; [setMine] putting a mine on a cell
    that had none raises by one the count of the cells of the grid at
    distance 1 from it, and of no other cell (not its own either). *)
Theorem neighborMineCount_updates (b : Board) (row col : Z) :
  wf b -> inBounds b row col = true ->
  (forall v, exists b', setRevealed b row col v = Ret b' /\
     forall r c, inBounds b r c = true ->
                 neighborMineCount b' r c = neighborMineCount b r c) /\
  (forall st, exists b', setMarkState b row col st = Ret b' /\
     forall r c, inBounds b r c = true ->
                 neighborMineCount b' r c = neighborMineCount b r c) /\
  (isMine b row col = Ret false ->
   exists b', setMine b row col true = Ret b' /\
     forall r c, inBounds b r c = true ->
       exists n, neighborMineCount b r c = Ret n /\
                 neighborMineCount b' r c
                 = Ret (if decide (chebyshev (row, col) (r, c) = 1) then n + 1 else n)).
Proof.
  intros Hwf Hin. split_and!.
  - intros v. destruct (cell_update_inGrid b row col (fun c => Cell_setRevealed c v))
      as (b' & E & Hup); [done..|].
    exists b'. split; [done|]. intros r c _.
    rewrite !neighborMineCount_neighbours by (done || apply Hup).
    f_equal. apply mines_among_ext, (updated_revealed _ _ _ _ Hup).
  - intros st. destruct (cell_update_inGrid b row col (fun c => Cell_setMarkState c st))
      as (b' & E & Hup); [done..|].
    exists b'. split; [done|]. intros r c _.
    rewrite !neighborMineCount_neighbours by (done || apply Hup).
    f_equal. apply mines_among_ext, (updated_mark _ _ _ _ Hup).
  - intros Hm. rewrite isMine_inGrid in Hm by done. injection Hm as Hm.
    destruct (cell_update_inGrid b row col (fun c => Cell_setMine c true))
      as (b' & E & Hup); [done..|].
    destruct (updated_mine _ _ _ _ Hup) as (_ & _ & Hother & Hself).
    exists b'. split; [done|]. intros r c _.
    rewrite !neighborMineCount_neighbours by (done || apply Hup).
    eexists. split; [done|]. f_equal. unfold mines_among.
    case_decide as Hd.
    + rewrite (filter_flip_one (fun q => mineAt b' q = true) (fun q => mineAt b q = true)
                 (neighbours (r, c)) (row, col)).
      * lia.
      * apply NoDup_neighbours.
      * apply neighbours_sym. by apply elem_of_neighbours.
      * by apply Hself, cell_at_Some.
      * congruence.
      * intros y Hy. by rewrite Hother.
    + f_equal. f_equal. apply filter_agree. intros y Hy. rewrite Hother; [done|].
      intros ->. apply Hd. apply elem_of_neighbours. by apply neighbours_sym.
Qed.

Lemma neighborMineCount_updates_witness :
  (forall v, exists b', setRevealed board_1x3 0 1 v = Ret b' /\
     forall r c, inBounds board_1x3 r c = true ->
                 neighborMineCount b' r c = neighborMineCount board_1x3 r c) /\
  (forall st, exists b', setMarkState board_1x3 0 1 st = Ret b' /\
     forall r c, inBounds board_1x3 r c = true ->
                 neighborMineCount b' r c = neighborMineCount board_1x3 r c) /\
  (isMine board_1x3 0 1 = Ret false ->
   exists b', setMine board_1x3 0 1 true = Ret b' /\
     forall r c, inBounds board_1x3 r c = true ->
       exists n, neighborMineCount board_1x3 r c = Ret n /\
                 neighborMineCount b' r c
                 = Ret (if decide (chebyshev (0, 1) (r, c) = 1) then n + 1 else n)).
Proof.
  apply (neighborMineCount_updates board_1x3 0 1); [apply wf_board_1x3 | reflexivity].
Defined.

(** ** More on [initialize] *)

Lemma filter_length_all {A : Type} (P : A -> Prop) `{!forall x, Decision (P x)} (l : list A) :
  length (filter P l) = length l -> forall x, x ∈ l -> P x.
Proof.
  induction l as [|y l IH]; intros Hlen x Hx; [by apply elem_of_nil in Hx|].
  rewrite filter_cons in Hlen. pose proof (length_filter P l) as Hle.
  destruct (decide (P y)) as [Hy|Hy]; simpl in Hlen; [|lia].
  apply elem_of_cons in Hx as [->|Hx]; [done|]. apply IH; [lia|done].
Qed.

Lemma filter_length_some {A : Type} (P : A -> Prop) `{!forall x, Decision (P x)} (l : list A) :
  (length (filter P l) < length l)%nat -> exists x, x ∈ l /\ ~ P x.
Proof.
  induction l as [|y l IH]; simpl; [lia|]. rewrite filter_cons.
  destruct (decide (P y)) as [Hy|Hy]; simpl; intros Hlt.
  - destruct IH as (x & Hx & HP); [lia|]. exists x. split; [by right|done].
  - exists y. split; [by left|done].
Qed.

(** [reset_all] leaves the board the constructor would make. *)
Lemma reset_all_new b :
  wf b -> reset_all b = Ret (Board_new (m_width b) (m_height b) (m_mineCount b)).
Proof.
  intros Hwf. destruct (reset_all_spec b Hwf) as (b0 & E & Hwf0 & Hd0 & Hnew).
  assert (same_dims b0 (Board_new (m_width b) (m_height b) (m_mineCount b))) as Hd1.
  { destruct Hd0 as (Hw & Hh & Hc). unfold same_dims. simpl. by rewrite Hw, Hh, Hc. }
  rewrite E. f_equal. symmetry. apply board_ext; [done | apply wf_Board_new | done |].
  intros q. rewrite cell_at_Board_new.
  rewrite (inBounds_same b0 (Board_new _ _ _)) by done.
  destruct (inBounds b0 q.1 q.2) eqn:Hin.
  - symmetry. apply Hnew. unfold inGrid. by rewrite <- (inBounds_same b b0).
  - unfold cell_at. by rewrite cell_ref_outside.
Qed.

(** X7: a new game forgets the old one.  [initialize] gives the same
    result on the board as it stands as on a board just constructed with the
    same width, height and mine count, so whatever was mined, revealed or
    marked before has no effect on it. *)
Theorem initialize_forgets (b : Board) (draws : list Z) :
  wf b ->
  initialize b draws
  = initialize (Board_new (m_width b) (m_height b) (m_mineCount b)) draws.
Proof.
  intros Hwf. unfold initialize.
  rewrite (reset_all_new b Hwf).
  by rewrite (reset_all_new (Board_new _ _ _) (wf_Board_new _ _ _)).
Qed.

Lemma initialize_forgets_witness :
  initialize board_barrier [0; 5]
  = initialize (Board_new (m_width board_barrier) (m_height board_barrier)
                          (m_mineCount board_barrier)) [0; 5].
Proof. apply (initialize_forgets board_barrier [0; 5]). apply wf_board_barrier. Defined.

(** What [initialize] leaves when it returns, whatever the mine count. *)
Lemma initialize_returns b draws b' :
  wf b -> 0 < m_width b -> 0 < m_height b -> 0 <= m_mineCount b ->
  Forall (fun x => 0 <= x) draws ->
  initialize b draws = Ret b' ->
  wf b' /\ same_dims b b' /\ all_hidden_unmarked b' /\
  Z.of_nat (length (mined_coords b')) = m_mineCount b.
Proof.
  intros Hwf Hw Hh Hmc Hdraws E. unfold initialize in E.
  rewrite (reset_all_new b Hwf) in E. cbn [run_bind] in E.
  set (b0 := Board_new (m_width b) (m_height b) (m_mineCount b)) in *.
  assert (forall q, cell_at b0 q = Some Cell_new \/ cell_at b0 q = None) as Hcells.
  { intros q. unfold b0. rewrite cell_at_Board_new. destruct (inBounds _ _ _); auto. }
  assert (forall q, mineAt b0 q = false /\ revealedAt b0 q = false /\ markAt b0 q = NoMark)
    as Hnew.
  { intros q. unfold mineAt, revealedAt, markAt. by destruct (Hcells q) as [-> | ->]. }
  pose proof (place_mines_spec draws Hdraws 0 b0) as Hspec. rewrite E in Hspec.
  destruct Hspec as (Hwf' & Hd' & Hhid' & Hlen); try done.
  - apply wf_Board_new.
  - assert (mined_coords b0 = []) as ->; [|done].
    destruct (mined_coords b0) as [|q l] eqn:Eq; [done|].
    assert (q ∈ mined_coords b0) as Hq by (rewrite Eq; by left).
    apply list_elem_of_filter in Hq as [Hq _]. by rewrite (proj1 (Hnew q)) in Hq.
  - intros q _. split; apply Hnew.
Qed.

(** X8: when there are fewer mines than cells, a board [initialize] has
    returned is not a won game: [allNonMinesRevealed] answers [false], the
    cells without a mine number width x height - mine count, and all of the
    grid is hidden. *)
Theorem initialize_not_won (b : Board) (draws : list Z) (b' : Board) :
  wf b -> 0 < m_width b -> 0 < m_height b ->
  0 <= m_mineCount b < m_width b * m_height b ->
  Forall (fun x => 0 <= x) draws ->
  initialize b draws = Ret b' ->
  allNonMinesRevealed b' = Ret false /\
  Z.of_nat (length (filter (fun q => mineAt b' q = false) (coords b')))
  = m_width b * m_height b - m_mineCount b /\
  (forall row col, inBounds b' row col = true -> isRevealed b' row col = Ret false).
Proof.
  intros Hwf Hw Hh Hmc Hdraws E.
  destruct (initialize_returns b draws b') as (Hwf' & Hd' & Hhid & Hlen); try done; [lia|].
  pose proof Hd' as (Hw' & Hh' & _).
  assert (Z.of_nat (length (coords b')) = m_width b * m_height b) as Harea.
  { rewrite length_coords. unfold area. rewrite Hw', Hh'. lia. }
  split_and!.
  - destruct (allNonMinesRevealed_spec b' Hwf') as ([|] & Ev & Hv); [|done].
    exfalso. pose proof (proj1 Hv eq_refl) as Hall.
    destruct (filter_length_some (fun q => mineAt b' q = true) (coords b'))
      as (q & Hq & Hnm); [fold (mined_coords b'); lia|].
    apply elem_of_coords in Hq. apply not_true_is_false in Hnm.
    specialize (Hall q Hq Hnm). by rewrite (proj1 (Hhid q Hq)) in Hall.
  - pose proof (filter_app_complement (fun q => mineAt b' q = true) (coords b')) as Hperm.
    apply Permutation_length in Hperm. rewrite length_app in Hperm.
    fold (mined_coords b') in Hperm.
    assert (filter (fun q => mineAt b' q = false) (coords b')
            = filter (fun q => ~ mineAt b' q = true) (coords b')) as ->.
    { apply list_filter_iff. intros q. by destruct (mineAt b' q). }
    lia.
  - intros row col Hin. rewrite isRevealed_inGrid by done. f_equal. by apply Hhid.
Qed.

Lemma initialize_not_won_witness :
  allNonMinesRevealed board_1x3 = Ret false /\
  Z.of_nat (length (filter (fun q => mineAt board_1x3 q = false) (coords board_1x3)))
  = m_width (Board_new 3 1 1) * m_height (Board_new 3 1 1) - m_mineCount (Board_new 3 1 1) /\
  (forall row col, inBounds board_1x3 row col = true ->
                   isRevealed board_1x3 row col = Ret false).
Proof.
  apply (initialize_not_won (Board_new 3 1 1) [0; 2] board_1x3).
  - apply wf_Board_new.
  - reflexivity.
  - reflexivity.
  - split; [discriminate | reflexivity].
  - repeat constructor; discriminate.
  - reflexivity.
Defined.

(** X9: [initialize] at the ends of the range of the mine count.  With a
    count of zero or less the loop is not entered: the result is the empty
    board the constructor makes, and no random number is used.  With as
    many mines as cells there are draws on which [initialize] returns, and
    then every cell is mined and [allNonMinesRevealed] holds before any
    click.  With more mines than cells the loop never ends, whatever is
    drawn. *)
Theorem initialize_mine_count_edges (b : Board) :
  wf b -> 0 < m_width b -> 0 < m_height b ->
  (m_mineCount b <= 0 ->
   forall draws,
     initialize b draws = Ret (Board_new (m_width b) (m_height b) (m_mineCount b))) /\
  (m_mineCount b = m_width b * m_height b ->
   exists draws b',
     Forall (fun x => 0 <= x) draws /\ initialize b draws = Ret b' /\
     (forall row col, inBounds b' row col = true -> isMine b' row col = Ret true) /\
     allNonMinesRevealed b' = Ret true) /\
  (m_width b * m_height b < m_mineCount b ->
   forall draws, Forall (fun x => 0 <= x) draws -> initialize b draws = Fuel).
Proof.
  intros Hwf Hw Hh.
  set (b0 := Board_new (m_width b) (m_height b) (m_mineCount b)).
  assert (wf b0) as Hwf0 by apply wf_Board_new.
  assert (forall q, mineAt b0 q = false /\ revealedAt b0 q = false /\ markAt b0 q = NoMark)
    as Hnew.
  { intros q. unfold mineAt, revealedAt, markAt, b0. rewrite cell_at_Board_new.
    by destruct (inBounds _ _ _). }
  assert (mined_coords b0 = []) as Hnone.
  { destruct (mined_coords b0) as [|q l] eqn:Eq; [done|].
    assert (q ∈ mined_coords b0) as Hq by (rewrite Eq; by left).
    apply list_elem_of_filter in Hq as [Hq _]. by rewrite (proj1 (Hnew q)) in Hq. }
  split_and!.
  - intros Hmc draws. unfold initialize. rewrite (reset_all_new b Hwf). cbn [run_bind].
    fold b0. destruct draws; simpl; destruct (Z.ltb_spec 0 (m_mineCount b)); done || lia.
  - intros Hmc.
    destruct (place_mines_fresh (Z.to_nat (m_mineCount b0)) 0 b0) as [b' E'];
      try done; simpl; try lia.
    { intros q Hq. by rewrite (proj1 (Hnew q)) in Hq. }
    set (draws := fresh_draws (m_width b0) 0 (Z.to_nat (m_mineCount b0))) in *.
    assert (Forall (fun x => 0 <= x) draws) as Hdraws
      by (apply fresh_draws_nonneg; simpl; lia).
    assert (initialize b draws = Ret b') as E.
    { unfold initialize. by rewrite (reset_all_new b Hwf). }
    destruct (initialize_returns b draws b') as (Hwf' & Hd' & Hhid & Hlen); try done; [nia|].
    pose proof Hd' as (Hw' & Hh' & _).
    assert (forall q, inGrid b' q -> mineAt b' q = true) as Hall.
    { intros q Hq.
      apply (filter_length_all (fun q => mineAt b' q = true) (coords b'));
        [|by apply elem_of_coords].
      fold (mined_coords b'). rewrite length_coords. unfold area. rewrite Hw', Hh'. nia. }
    exists draws, b'. split_and!; try done.
    + intros row col Hin. rewrite isMine_inGrid by done. f_equal. by apply Hall.
    + destruct (allNonMinesRevealed_spec b' Hwf') as ([|] & Ev & Hv); [done|].
      assert (all_safe_revealed b') as Hs; [|by apply Hv in Hs].
      intros q Hq Hm. by rewrite Hall in Hm.
  - intros Hmc draws Hdraws. unfold initialize. rewrite (reset_all_new b Hwf).
    cbn [run_bind]. fold b0.
    pose proof (place_mines_spec draws Hdraws 0 b0) as Hspec.
    destruct (place_mines draws 0 b0) as [b'| |]; [| |done].
    + exfalso.
      assert (Z.of_nat (length (mined_coords b')) = m_mineCount b0 /\ same_dims b0 b')
        as [Hlen Hd'].
      { destruct Hspec as (_ & ? & _ & ?); [done | done | done | simpl; nia | | | done].
        - by rewrite Hnone.
        - intros q _. split; apply Hnew. }
      pose proof Hd' as (Hw' & Hh' & _). simpl in *.
      pose proof (length_filter (fun q => mineAt b' q = true) (coords b')) as Hle.
      fold (mined_coords b') in Hle. rewrite length_coords in Hle. unfold area in Hle.
      rewrite Hw', Hh' in Hle. nia.
    + exfalso. apply Hspec; [done | done | done | simpl; nia | | ].
      * by rewrite Hnone.
      * intros q _. split; apply Hnew.
Qed.

Lemma initialize_mine_count_edges_witness :
  (forall draws, initialize (Board_new 2 1 0) draws = Ret (Board_new 2 1 0)) /\
  (exists draws b',
     Forall (fun x => 0 <= x) draws /\ initialize (Board_new 2 1 2) draws = Ret b' /\
     (forall row col, inBounds b' row col = true -> isMine b' row col = Ret true) /\
     allNonMinesRevealed b' = Ret true) /\
  (forall draws, Forall (fun x => 0 <= x) draws -> initialize (Board_new 2 1 3) draws = Fuel).
Proof.
  split; [|split].
  - apply (initialize_mine_count_edges (Board_new 2 1 0));
      [apply wf_Board_new | reflexivity | reflexivity | discriminate].
  - apply (initialize_mine_count_edges (Board_new 2 1 2));
      [apply wf_Board_new | reflexivity | reflexivity | reflexivity].
  - apply (initialize_mine_count_edges (Board_new 2 1 3));
      [apply wf_Board_new | reflexivity | reflexivity | reflexivity].
Defined.

(** A 1 x 2 board asked for 2 mines and for 3: the first fills up, the
    second goes on drawing. *)
Example initialize_full_and_over :
  initialize (Board_new 2 1 2) [0; 0; 0; 1]
  = Ret (mkBoard 2 1 2 [[mine_cell; mine_cell]]) /\
  initialize (Board_new 2 1 3) [0; 0; 0; 1; 0; 0; 0; 1; 0; 1] = Fuel.
Proof. by split. Qed.

(** ** More on the clicks *)

(** What [revealCell] reveals on a cell without a mine. *)
Lemma revealCell_safe_revealed b row col :
  wf b -> inBounds b row col = true -> mineAt b (row, col) = false ->
  exists b' o,
    revealCell b row col = Ret (b', o) /\ wf b' /\ same_dims b b' /\
    (o = Win <-> all_safe_revealed b') /\ (o = Continue <-> ~ all_safe_revealed b') /\
    (forall q, mineAt b' q = mineAt b q /\ markAt b' q = markAt b q) /\
    (forall q, revealedAt b' q = true <->
               revealedAt b q = true \/ q = (row, col) \/
               (zero_count b (row, col) /\ reached b (row, col) q)).
Proof.
  intros Hwf Hin Hsafe.
  destruct (revealCell_safe b row col)
    as (b1 & b' & o & _ & Hup & Hcas & Hnum & Hwf' & Hd' & E & Hw & Hc); [done..|].
  destruct (updated_revealed _ _ _ _ Hup) as (Hmine & Hmark & Hother & Hself).
  assert (revealedAt b1 (row, col) = true) as Hs by (by apply Hself, cell_at_Some).
  exists b', o. split_and!; try done.
  - destruct (decide (mines_among b (neighbours (row, col)) = 0)) as [Hz|Hz].
    + destruct (Hcas Hz) as (s & _ & Hinv & _ & ->). intros q.
      by rewrite (ci_mine _ _ _ _ Hinv), (ci_mark _ _ _ _ Hinv), Hmine, Hmark.
    + rewrite (Hnum Hz). intros q. by rewrite Hmine, Hmark.
  - destruct (decide (mines_among b (neighbours (row, col)) = 0)) as [Hz|Hz].
    + destruct (Hcas Hz) as (s & _ & Hinv & Hq & ->). intros q. split.
      * intros [H1|Hsh]%(ci_rev _ _ _ _ Hinv).
        -- destruct (decide (q = (row, col))) as [->|Hne]; [auto|].
           left. by rewrite <- Hother.
        -- apply (ci_shown _ _ _ _ Hinv) in Hsh as [Hr _].
           apply (reached_after_reveal b (row, col) b1) in Hr as [Hr _]; auto.
      * intros Hq'. destruct (decide (q = (row, col))) as [->|Hne].
        { apply (ci_rev _ _ _ _ Hinv). by left. }
        destruct Hq' as [H1|[?|[_ Hr]]]; [|done|].
        -- apply (ci_rev _ _ _ _ Hinv). left. by rewrite Hother.
        -- apply (cascade_complete b1 (row, col)); try done.
           by apply (reached_after_reveal b (row, col) b1).
    + rewrite (Hnum Hz). intros q.
      destruct (decide (q = (row, col))) as [->|Hne].
      * split; auto.
      * rewrite Hother by done. split; [auto|]. by intros [?|[?|[? _]]].
Qed.

(** X10: revealing a cell without a mine whose count is not zero sets
    that one cell revealed and does nothing else: the board it leaves is the
    one [setRevealed] gives, and the outcome is [Win] or [Continue]. *)
Theorem revealCell_number (b : Board) (row col n : Z) :
  wf b -> inBounds b row col = true ->
  isMine b row col = Ret false -> neighborMineCount b row col = Ret n -> n <> 0 ->
  exists b' o,
    revealCell b row col = Ret (b', o) /\
    setRevealed b row col true = Ret b' /\
    (o = Win \/ o = Continue) /\
    (forall q, q <> (row, col) -> cell_at b' q = cell_at b q).
Proof.
  intros Hwf Hin Hsafe Hn Hn0.
  rewrite isMine_inGrid in Hsafe by done. injection Hsafe as Hsafe.
  destruct (revealCell_safe b row col)
    as (b1 & b' & o & E1 & Hup & _ & Hnum & _ & _ & E & Hw & Hc); [done..|].
  assert (~ zero_count b (row, col)) as Hz.
  { intros Hz. apply (zero_count_spec b (row, col)) in Hz; [|done]. simpl in Hz. congruence. }
  rewrite (Hnum Hz) in *. exists b1, o. split_and!; try done.
  - destruct (allNonMinesRevealed_spec b1) as ([|] & _ & Hv); [apply Hup| |].
    + left. apply Hw, Hv. done.
    + right. apply Hc. intros Hs. by apply Hv in Hs.
  - apply Hup.
Qed.

Lemma revealCell_number_witness :
  exists b' o,
    revealCell board_1x3 0 1 = Ret (b', o) /\
    setRevealed board_1x3 0 1 true = Ret b' /\
    (o = Win \/ o = Continue) /\
    (forall q, q <> (0, 1) -> cell_at b' q = cell_at board_1x3 q).
Proof.
  apply (revealCell_number board_1x3 0 1 1);
    [apply wf_board_1x3 | reflexivity | reflexivity | reflexivity | discriminate].
Defined.

(** [onCellLeftClicked] on any button of the grid. *)
Lemma onCellLeftClicked_cases b row col :
  wf b -> inBounds b row col = true ->
  (onCellLeftClicked b row col = Ret (b, Continue) /\
   (revealedAt b (row, col) = true \/ markAt b (row, col) = Flag)) \/
  (onCellLeftClicked b row col = revealCell b row col /\
   revealedAt b (row, col) = false /\ markAt b (row, col) <> Flag).
Proof.
  intros Hwf Hin. unfold onCellLeftClicked.
  rewrite isRevealed_inGrid by done. cbn [run_bind].
  destruct (revealedAt b (row, col)); [left; auto|].
  rewrite markState_inGrid by done. cbn [run_bind].
  case_decide; [left; auto | right; auto].
Qed.

(** What a left click on a button of the grid does. *)
Lemma left_click_facts b row col :
  wf b -> inBounds b row col = true ->
  exists b' o,
    onCellLeftClicked b row col = Ret (b', o) /\ wf b' /\ same_dims b b' /\
    (o = Loss <-> isRevealed b row col = Ret false /\ markState b row col <> Ret Flag /\
                  isMine b row col = Ret true) /\
    (o = Win -> all_safe_revealed b') /\
    (forall q, mineAt b' q = mineAt b q /\ markAt b' q = markAt b q) /\
    (forall q, revealedAt b q = true -> revealedAt b' q = true) /\
    (o <> Loss -> forall q, mineAt b q = true -> revealedAt b' q = revealedAt b q) /\
    (forall q, markAt b q = Flag -> mineAt b q = false ->
               revealedAt b' q = revealedAt b q) /\
    (isRevealed b row col = Ret true \/ markState b row col = Ret Flag ->
     b' = b /\ o = Continue).
Proof.
  intros Hwf Hin.
  rewrite isRevealed_inGrid, markState_inGrid, isMine_inGrid by done.
  destruct (onCellLeftClicked_cases b row col Hwf Hin) as [[E Hwhy]|(E & Hhid & Hnf)].
  - exists b, Continue. split_and!; try done.
    split; [done|]. intros ([= Hr] & Hf & _). destruct Hwhy as [?|Hk]; [congruence|].
    by rewrite Hk in Hf.
  - rewrite E. destruct (mineAt b (row, col)) eqn:Hm.
    + destruct (revealCell_lost b row col) as (b' & E' & Hwf' & Hd' & Hrev & Hrest);
        [done..|].
      exists b', Loss. split_and!; try done.
      * split; [|done]. intros _. split_and!; [by rewrite Hhid | | done].
        intros [= ?]. done.
      * intros q Hq. apply Hrev. by left.
      * intros q Hk Hq. destruct (revealedAt b q) eqn:Hb.
        -- apply Hrev. by left.
        -- destruct (revealedAt b' q) eqn:Hb'; [|done].
           apply Hrev in Hb' as [?|?]; congruence.
      * intros [[= ?]|[= ?]]; congruence.
    + destruct (revealCell_safe_revealed b row col)
        as (b' & o & E' & Hwf' & Hd' & Hw & Hc & Hrest & Hrev); [done..|].
      assert (o <> Loss) as Hnl.
      { destruct (allNonMinesRevealed_spec b' Hwf') as ([|] & _ & Hv).
        - assert (o = Win) as -> by (by apply Hw, Hv). done.
        - assert (o = Continue) as ->; [|done]. apply Hc. intros Hs. by apply Hv in Hs. }
      assert (forall q, reached b (row, col) q -> zero_count b (row, col) ->
                        mineAt b q = false /\ markAt b q <> Flag) as Hreach.
      { intros q Hr Hz. split; [by apply (reached_safe b (row, col))|].
        by apply reached_open in Hr as (_ & _ & ?). }
      exists b', o. split_and!; try done.
      * split; [done|]. by intros (_ & _ & [= ?]).
      * intros Ho. by apply Hw.
      * intros q Hq. apply Hrev. by left.
      * intros _ q Hq. destruct (revealedAt b q) eqn:Hb.
        -- apply Hrev. by left.
        -- destruct (revealedAt b' q) eqn:Hb'; [|done].
           apply Hrev in Hb' as [?|[->|[Hz Hr]]]; [congruence..|].
           destruct (Hreach q Hr Hz). congruence.
      * intros q Hk Hq. destruct (revealedAt b q) eqn:Hb.
        -- apply Hrev. by left.
        -- destruct (revealedAt b' q) eqn:Hb'; [|done].
           apply Hrev in Hb' as [?|[->|[Hz Hr]]]; [congruence..|].
           destruct (Hreach q Hr Hz). congruence.
      * intros [[= ?]|[= ?]]; congruence.
Qed.

(** X11: a left click on a button of the grid returns.  It loses exactly
    when the cell is hidden, not flagged and mined; it reports [Win] only
    with every cell without a mine revealed.  It never moves a mine, never
    changes a mark and never hides a cell.  Unless it loses it reveals no
    mine, and in no case does it reveal a flagged cell that has no mine.  On
    a revealed or flagged cell it changes nothing. *)
Theorem left_click_effect (b : Board) (row col : Z) :
  wf b -> inBounds b row col = true ->
  exists b' o,
    onCellLeftClicked b row col = Ret (b', o) /\ wf b' /\ same_dims b b' /\
    (o = Loss <-> isRevealed b row col = Ret false /\ markState b row col <> Ret Flag /\
                  isMine b row col = Ret true) /\
    (o = Win -> all_safe_revealed b') /\
    (forall q, mineAt b' q = mineAt b q /\ markAt b' q = markAt b q) /\
    (forall q, revealedAt b q = true -> revealedAt b' q = true) /\
    (o <> Loss -> forall q, mineAt b q = true -> revealedAt b' q = revealedAt b q) /\
    (forall q, markAt b q = Flag -> mineAt b q = false ->
               revealedAt b' q = revealedAt b q) /\
    (isRevealed b row col = Ret true \/ markState b row col = Ret Flag ->
     b' = b /\ o = Continue).
Proof. apply left_click_facts. Qed.

Lemma left_click_effect_witness :
  exists b' o,
    onCellLeftClicked board_barrier 0 3 = Ret (b', o) /\ wf b' /\
    same_dims board_barrier b' /\
    (o = Loss <-> isRevealed board_barrier 0 3 = Ret false /\
                  markState board_barrier 0 3 <> Ret Flag /\
                  isMine board_barrier 0 3 = Ret true) /\
    (o = Win -> all_safe_revealed b') /\
    (forall q, mineAt b' q = mineAt board_barrier q /\
               markAt b' q = markAt board_barrier q) /\
    (forall q, revealedAt board_barrier q = true -> revealedAt b' q = true) /\
    (o <> Loss -> forall q, mineAt board_barrier q = true ->
                            revealedAt b' q = revealedAt board_barrier q) /\
    (forall q, markAt board_barrier q = Flag -> mineAt board_barrier q = false ->
               revealedAt b' q = revealedAt board_barrier q) /\
    (isRevealed board_barrier 0 3 = Ret true \/ markState board_barrier 0 3 = Ret Flag ->
     b' = board_barrier /\ o = Continue).
Proof.
  apply (left_click_effect board_barrier 0 3); [apply wf_board_barrier | reflexivity].
Defined.

(** X12: through any run of right clicks and of left clicks that end with
    no dialog, the board keeps its shape and its mines, revealed cells stay
    revealed, and the mined cells are exactly as revealed as they were at
    the start: while the game goes on, nothing of a mine is shown. *)
Theorem play_keeps_mines_hidden (b0 b : Board) :
  wf b0 -> plays b0 b ->
  wf b /\ same_dims b0 b /\
  (forall q, mineAt b q = mineAt b0 q) /\
  mined_coords b = mined_coords b0 /\
  (forall q, revealedAt b0 q = true -> revealedAt b q = true) /\
  (forall q, mineAt b0 q = true -> revealedAt b q = revealedAt b0 q).
Proof.
  intros Hwf0 Hplay.
  assert (wf b /\ same_dims b0 b /\ (forall q, mineAt b q = mineAt b0 q) /\
          (forall q, revealedAt b0 q = true -> revealedAt b q = true) /\
          (forall q, mineAt b0 q = true -> revealedAt b q = revealedAt b0 q))
    as (Hwf & Hd & Hm & Hmono & Hhid).
  { induction Hplay as [|b row col b' Hplay IH Hin E|b row col b' Hplay IH Hin E].
    - split_and!; done.
    - destruct IH as (Hwf & Hd & Hm & Hmono & Hhid).
      destruct (left_click_facts b row col Hwf Hin)
        as (b1 & o & E1 & Hwf1 & Hd1 & _ & _ & Hrest & Hmono1 & Hnl & _).
      rewrite E in E1. injection E1 as <- <-. split_and!; try done.
      + by eapply same_dims_trans.
      + intros q. by rewrite (proj1 (Hrest q)).
      + intros q Hq. by apply Hmono1, Hmono.
      + intros q Hq. rewrite Hnl; [by apply Hhid|done|]. by rewrite Hm.
    - destruct IH as (Hwf & Hd & Hm & Hmono & Hhid).
      destruct (eventFilter_spec b row col Hwf Hin) as (b1 & E1 & Hup).
      rewrite E in E1. injection E1 as <-.
      destruct (updated_mark _ _ _ _ Hup) as (Hm1 & Hr1 & _).
      split_and!.
      + apply Hup.
      + eapply same_dims_trans; [done | apply Hup].
      + intros q. by rewrite Hm1.
      + intros q Hq. rewrite Hr1. by apply Hmono.
      + intros q Hq. rewrite Hr1. by apply Hhid. }
  split_and!; try done.
  unfold mined_coords. rewrite (coords_same b0 b) by done.
  apply list_filter_iff. intros q. by rewrite Hm.
Qed.

Lemma play_keeps_mines_hidden_witness :
  wf board_late /\ same_dims board_barrier board_late /\
  (forall q, mineAt board_late q = mineAt board_barrier q) /\
  mined_coords board_late = mined_coords board_barrier /\
  (forall q, revealedAt board_barrier q = true -> revealedAt board_late q = true) /\
  (forall q, mineAt board_barrier q = true ->
             revealedAt board_late q = revealedAt board_barrier q).
Proof.
  apply (play_keeps_mines_hidden board_barrier board_late); [apply wf_board_barrier|].
  apply (plays_right _ (mkBoard 6 1 1 [[hid; shown_cell; shown_cell; shown_cell;
                                         shown_cell; mine_cell]]) 0 5);
    [|reflexivity|reflexivity].
  apply (plays_left _ board_barrier 0 3); [|reflexivity|reflexivity].
  apply plays_start.
Defined.

(** * The buttons *)

(** ** The grid of buttons *)

Lemma button_ref_Ret g row col btn :
  button_ref g row col = Ret btn <->
  0 <= row /\ 0 <= col /\
  exists line, g !! Z.to_nat row = Some line /\ line !! Z.to_nat col = Some btn.
Proof.
  unfold button_ref. rewrite bind_Ret. setoid_rewrite at_Ret. split.
  - intros (line & [? ?] & [? ?]). eauto 6.
  - intros (? & ? & line & ? & ?). eauto 6.
Qed.

Lemma button_ref_inBounds b g row col :
  wf_buttons b g -> inBounds b row col = true -> exists btn, button_ref g row col = Ret btn.
Proof.
  intros [Hlen Hall] Hin. apply inBounds_spec in Hin.
  destruct (lookup_lt_is_Some_2 g (Z.to_nat row)) as [line Hline]; [lia|].
  assert (length line = Z.to_nat (m_width b)) as Hl.
  { rewrite Forall_lookup in Hall. eapply Hall, Hline. }
  destruct (lookup_lt_is_Some_2 line (Z.to_nat col)) as [btn Hbtn]; [lia|].
  exists btn. apply button_ref_Ret. split; [lia|]. split; [lia|]. eauto.
Qed.

(** Changing the button of a cell of the grid: the grid keeps its shape,
    that button changes and no other. *)
Lemma button_update_inGrid b g row col f :
  wf_buttons b g -> inBounds b row col = true ->
  exists g' btn,
    button_at g (row, col) = Some btn /\
    button_update g row col f = Ret g' /\ wf_buttons b g' /\
    button_at g' (row, col) = Some (f btn) /\
    (forall q, q <> (row, col) -> button_at g' q = button_at g q).
Proof.
  intros Hwf Hin. destruct (button_ref_inBounds b g row col Hwf Hin) as [btn Href].
  destruct Hwf as [Hlen Hall].
  exists (alter (alter f (Z.to_nat col)) (Z.to_nat row) g), btn.
  unfold button_update. rewrite Href. cbn [run_bind].
  apply button_ref_Ret in Href as Href'. destruct Href' as (Hr & Hc & line & Hline & Hbtn).
  split_and!.
  - unfold button_at. simpl. by rewrite Href.
  - done.
  - split.
    + by rewrite length_alter.
    + apply Forall_alter; [done|]. intros l' Hl'.
      rewrite length_alter. rewrite Forall_lookup in Hall. eauto.
  - unfold button_at. simpl.
    assert (button_ref (alter (alter f (Z.to_nat col)) (Z.to_nat row) g) row col
            = Ret (f btn)) as ->; [|done].
    apply button_ref_Ret. repeat split; try done.
    exists (alter f (Z.to_nat col) line).
    by rewrite !list_lookup_alter_eq, Hline, Hbtn.
  - intros [r' c'] Hne. unfold button_at, button_ref, at_. simpl.
    destruct (Z.leb_spec 0 r'); [|done].
    destruct (decide (Z.to_nat row = Z.to_nat r')) as [Er|Er].
    + assert (r' = row) as -> by lia.
      rewrite list_lookup_alter_eq, Hline. simpl.
      destruct (Z.leb_spec 0 c'); [|done].
      rewrite list_lookup_alter_ne; [done|].
      intros ?. apply Hne. f_equal. lia.
    + by rewrite list_lookup_alter_ne.
Qed.

Lemma wf_buttons_same b b' g : same_dims b b' -> wf_buttons b g -> wf_buttons b' g.
Proof. intros (Hw & Hh & _). unfold wf_buttons. by rewrite Hw, Hh. Qed.

(** [updateButtonAppearance] on a cell of the grid returns; it redraws
    the button of that cell and touches no other. *)
Lemma updateButtonAppearance_spec b g row col :
  wf b -> wf_buttons b g -> inBounds b row col = true ->
  exists g' btn,
    button_at g (row, col) = Some btn /\
    updateButtonAppearance b g row col = Ret g' /\ wf_buttons b g' /\
    button_at g' (row, col) = Some (redraw b (row, col) btn) /\
    (forall q, q <> (row, col) -> button_at g' q = button_at g q).
Proof.
  intros Hwf Hg Hin. unfold updateButtonAppearance, redraw, count_text.
  destruct (button_ref_inBounds b g row col Hg Hin) as [btn0 ->]. cbn [run_bind].
  rewrite isRevealed_inGrid by done. cbn [run_bind].
  destruct (revealedAt b (row, col)).
  - rewrite isMine_inGrid by done. cbn [run_bind].
    destruct (mineAt b (row, col)).
    + by apply button_update_inGrid.
    + rewrite neighborMineCount_neighbours by done. cbn [run_bind].
      by apply (button_update_inGrid b g row col).
  - rewrite markState_inGrid by done. cbn [run_bind].
    destruct (markAt b (row, col)); by apply button_update_inGrid.
Qed.

(** ** What a redraw does to one button *)

(** [redraw] reads the board at its cell and the mines around it. *)
Lemma redraw_ext b b' p btn :
  (forall q, mineAt b' q = mineAt b q) ->
  revealedAt b' p = revealedAt b p -> markAt b' p = markAt b p ->
  redraw b' p btn = redraw b p btn.
Proof.
  intros Hm Hr Hk. unfold redraw, count_text.
  by rewrite Hr, Hk, Hm, (mines_among_ext b b') by done.
Qed.

Lemma button_ok_ext b b' p btn :
  (forall q, mineAt b' q = mineAt b q) ->
  revealedAt b' p = revealedAt b p -> markAt b' p = markAt b p ->
  button_ok b p btn -> button_ok b' p btn.
Proof.
  intros Hm Hr Hk. unfold button_ok, count_text.
  by rewrite Hr, Hk, Hm, (mines_among_ext b b') by done.
Qed.

(** A button that shows its cell is left as it is. *)
Lemma redraw_ok b p btn : button_ok b p btn -> redraw b p btn = btn.
Proof.
  unfold button_ok, redraw. destruct btn as [i sz t e st]. simpl.
  destruct (revealedAt b p); [destruct (mineAt b p)|destruct (markAt b p)];
    simpl; intros (-> & Hsz & H).
  - destruct H as (-> & -> & ->). by rewrite Hsz.
  - by destruct H as (_ & -> & ->).
  - by destruct H as (-> & -> & ->).
  - destruct H as (-> & -> & ->). by rewrite Hsz.
  - destruct H as (-> & -> & ->). by rewrite Hsz.
Qed.

(** A button that showed its cell shows it again once redrawn, when the
    cell has since been marked, or revealed while it was not a flagged cell
    without a mine. *)
Lemma redraw_button_ok b b' p btn :
  button_ok b p btn ->
  (forall q, mineAt b' q = mineAt b q) ->
  (revealedAt b p = true -> revealedAt b' p = true) ->
  (revealedAt b p = false -> revealedAt b' p = true -> mineAt b p = false ->
   markAt b p <> Flag) ->
  button_ok b' p (redraw b' p btn).
Proof.
  intros Hok Hm Hmono Hflag. unfold button_ok, redraw, count_text in *.
  rewrite Hm. destruct btn as [i sz t e st]. simpl in *.
  destruct (revealedAt b' p) eqn:Hr'.
  - destruct (mineAt b p) eqn:Hmine; simpl.
    + destruct (revealedAt b p); naive_solver.
    + destruct (revealedAt b p) eqn:Hr.
      * naive_solver.
      * destruct Hok as (_ & Hsz & -> & _ & _).
        specialize (Hflag eq_refl eq_refl eq_refl).
        destruct (markAt b p); naive_solver.
  - destruct (revealedAt b p) eqn:Hr; [naive_solver|].
    destruct Hok as (_ & _ & _ & _ & ->).
    destruct (markAt b' p); simpl; naive_solver.
Qed.

(** ** One step: a change of one cell, then a redraw of its button *)

Lemma draw_step b g row col b' :
  ui_ok (mkWindow b g) -> inBounds b row col = true ->
  wf b' -> same_dims b b' ->
  (forall q, mineAt b' q = mineAt b q) ->
  (forall q, q <> (row, col) ->
             revealedAt b' q = revealedAt b q /\ markAt b' q = markAt b q) ->
  (revealedAt b (row, col) = true -> revealedAt b' (row, col) = true) ->
  (revealedAt b (row, col) = false -> revealedAt b' (row, col) = true ->
   mineAt b (row, col) = false -> markAt b (row, col) <> Flag) ->
  exists g',
    updateButtonAppearance b' g row col = Ret g' /\ ui_ok (mkWindow b' g') /\
    button_at g' (row, col) = redraw b' (row, col) <$> button_at g (row, col) /\
    (forall q, q <> (row, col) -> button_at g' q = button_at g q).
Proof.
  intros (Hwf & Hg & Hok) Hin Hwf' Hd Hm Hframe Hmono Hflag. simpl in *.
  assert (inBounds b' row col = true) as Hin' by by rewrite (inBounds_same b b').
  destruct (updateButtonAppearance_spec b' g row col Hwf' (wf_buttons_same _ _ _ Hd Hg) Hin')
    as (g' & btn & Hbtn & Hup & Hg' & Hnew & Hothers).
  exists g'. split_and!; try done.
  - split_and!; simpl; try done.
    intros q Hq. assert (inGrid b q) as Hqb.
    { unfold inGrid in *. by rewrite <- (inBounds_same b b'). }
    destruct (decide (q = (row, col))) as [->|Hne].
    + exists (redraw b' (row, col) btn). split; [done|].
      destruct (Hok _ Hqb) as (btn0 & Hbtn0 & Hok0).
      assert (btn0 = btn) as -> by congruence.
      by apply (redraw_button_ok b).
    + rewrite (Hothers q Hne). destruct (Hok _ Hqb) as (btn0 & Hbtn0 & Hok0).
      exists btn0. split; [done|].
      destruct (Hframe q Hne) as [Hr Hk]. by apply (button_ok_ext b).
  - by rewrite Hnew, Hbtn.
Qed.

Lemma redrawn_refl w : ui_ok w -> redrawn w w.
Proof.
  intros Hok. split_and!; try done.
  intros q Hq. destruct Hok as (_ & _ & Hok).
  destruct (Hok q Hq) as (btn & -> & Hb). simpl. by rewrite redraw_ok.
Qed.

(** Revealing a cell and redrawing its button keeps [redrawn]. *)
Lemma redrawn_step w0 b g row col b' :
  ui_ok w0 -> redrawn w0 (mkWindow b g) -> inBounds b row col = true ->
  updated b (row, col) (fun c => Cell_setRevealed c true) b' ->
  (revealedAt b (row, col) = false -> mineAt b (row, col) = false ->
   markAt b (row, col) <> Flag) ->
  exists g', updateButtonAppearance b' g row col = Ret g' /\
             redrawn w0 (mkWindow b' g').
Proof.
  intros Hok0 (Hok & Hd & Hmk & Hmono & Hbtn) Hin Hup Hflag. simpl in *.
  pose proof Hup as (Hwf' & Hd' & _).
  destruct (updated_revealed _ _ _ _ Hup) as (Hm' & Hk' & Hr' & Hp').
  assert (revealedAt b' (row, col) = true) as Hshown.
  { apply Hp', cell_at_Some; [apply Hok|done]. }
  destruct (draw_step b g row col b' Hok Hin Hwf' Hd' Hm') as (g' & Hg' & Hok' & Hnew & Hothers).
  { intros q Hne. by rewrite Hr', Hk'. }
  { done. }
  { intros ? _. by apply Hflag. }
  exists g'. split; [done|]. split_and!; simpl; try done.
  - by eapply same_dims_trans.
  - intros q. rewrite Hm', Hk'. apply Hmk.
  - intros q Hq. destruct (decide (q = (row, col))) as [->|Hne].
    + done.
    + rewrite Hr' by done. by apply Hmono.
  - intros q Hq. destruct (decide (q = (row, col))) as [->|Hne].
    + rewrite Hnew, (Hbtn _ Hq).
      destruct Hok0 as (_ & _ & Hok0). destruct (Hok0 _ Hq) as (btn & Ebtn & Hb).
      rewrite Ebtn. simpl. f_equal.
      assert (inGrid b (row, col)) as Hqb by done.
      destruct Hok as (_ & _ & Hok). simpl in Hok.
      destruct (Hok _ Hqb) as (btn1 & Hbtn1 & Hb1).
      rewrite (Hbtn _ Hq), Ebtn in Hbtn1. simpl in Hbtn1. injection Hbtn1 as Hbtn1.
      destruct (revealedAt b (row, col)) eqn:Hr.
      * (* the cell was revealed before this step *)
        rewrite Hbtn1.
        assert (redraw b' (row, col) btn1 = btn1) as ->.
        { apply redraw_ok. apply (button_ok_ext b); try done. by rewrite Hshown. }
        rewrite <- Hbtn1. apply redraw_ext; [done| by rewrite Hshown | done].
      * (* the cell was hidden since the start *)
        assert (revealedAt (m_board w0) (row, col) = false) as Hr0.
        { destruct (revealedAt (m_board w0) (row, col)) eqn:E; [|done].
          apply Hmono in E. congruence. }
        assert (redraw b (row, col) btn = btn) as ->; [|done].
        apply redraw_ok. apply (button_ok_ext (m_board w0)); try done.
        -- intros q. apply Hmk.
        -- by rewrite Hr.
        -- apply Hmk.
    + rewrite (Hothers q Hne), (Hbtn _ Hq). destruct (button_at (m_buttons w0) q); [|done].
      simpl. f_equal. symmetry. apply redraw_ext; [done|by apply Hr'|done].
Qed.

(** ** The handlers with their buttons, next to the handlers on the board *)

(** Two loops over the same list that keep a relation between their
    states. *)
Lemma for_each_sim {S T A : Type} (R : S -> T -> Prop) (l : list A)
    (f : S -> A -> run S) (g : T -> A -> run T) :
  (forall s t x, x ∈ l -> R s t ->
                 exists s' t', f s x = Ret s' /\ g t x = Ret t' /\ R s' t') ->
  forall s t, R s t ->
              exists s' t', for_each l f s = Ret s' /\ for_each l g t = Ret t' /\ R s' t'.
Proof.
  induction l as [|x l IH]; intros Hstep s t HR; simpl.
  - eauto.
  - destruct (Hstep s t x) as (s1 & t1 & -> & -> & HR1); [set_solver|done|].
    simpl. apply IH; [|done]. intros ? ? y Hy. apply Hstep. set_solver.
Qed.

Section UiCascade.

Variable w0 : Window.
Hypothesis w0_ok : ui_ok w0.

Lemma ui_cascade_visit_sim p s g dr dc :
  redrawn w0 (mkWindow (c_board s) g) ->
  exists s1 g1,
    cascade_visit p s dr dc = Ret s1 /\
    ui_cascade_visit p (s, g) dr dc = Ret (s1, g1) /\
    redrawn w0 (mkWindow (c_board s1) g1).
Proof.
  intros Hred. unfold cascade_visit, ui_cascade_visit. simpl.
  destruct ((dr =? 0) && (dc =? 0)); [eauto|].
  destruct (inBounds (c_board s) (p.1 + dr) (p.2 + dc)) eqn:Hin; simpl; [|eauto].
  assert (wf (c_board s)) as Hwf by apply Hred.
  rewrite isRevealed_inGrid by done. simpl.
  destruct (revealedAt (c_board s) (p.1 + dr, p.2 + dc)) eqn:Hr; [eauto|].
  rewrite markState_inGrid by done. simpl.
  case_decide as Hk; [eauto|].
  unfold setRevealed.
  destruct (cell_update_inGrid (c_board s) (p.1 + dr) (p.2 + dc)
              (fun c => Cell_setRevealed c true) Hwf Hin) as (b' & -> & Hup).
  simpl.
  destruct (redrawn_step w0 (c_board s) g _ _ b' w0_ok Hred Hin Hup) as (g' & -> & Hred');
    [done|].
  simpl. rewrite neighborMineCount_neighbours by apply Hup. simpl.
  destruct (_ =? 0); eauto.
Qed.

Lemma ui_cascade_expand_sim p s g :
  redrawn w0 (mkWindow (c_board s) g) ->
  exists s1 g1,
    cascade_expand p s = Ret s1 /\ ui_cascade_expand p (s, g) = Ret (s1, g1) /\
    redrawn w0 (mkWindow (c_board s1) g1).
Proof.
  intros Hred. unfold cascade_expand, ui_cascade_expand.
  destruct (for_each_sim
              (fun s t => t.1 = s /\ redrawn w0 (mkWindow (c_board s) t.2)) deltas
              (fun s dr => for_each deltas (fun s dc => cascade_visit p s dr dc) s)
              (fun sg dr => for_each deltas (fun sg dc => ui_cascade_visit p sg dr dc) sg))
    with (s := s) (t := (s, g)) as (s1 & [s1' g1] & H1 & H2 & E & Hred1); [|done|].
  - intros s1 [s1' g1] dr _ [E H1]. simpl in E. subst s1'.
    apply (for_each_sim
             (fun s t => t.1 = s /\ redrawn w0 (mkWindow (c_board s) t.2))); [|done].
    intros s2 [s2' g2] dc _ [E H2]. simpl in E. subst s2'.
    destruct (ui_cascade_visit_sim p s2 g2 dr dc H2) as (s3 & g3 & ? & ? & ?).
    exists s3, (s3, g3). eauto.
  - simpl in E. subst s1'. eauto.
Qed.

Lemma ui_cascade_loop_sim fuel :
  forall s g s',
    redrawn w0 (mkWindow (c_board s) g) -> cascade_loop fuel s = Ret s' ->
    exists g', ui_cascade_loop fuel (s, g) = Ret (s', g') /\
               redrawn w0 (mkWindow (c_board s') g').
Proof.
  induction fuel as [|fuel IH]; intros s g s' Hred Hloop; simpl in *.
  - destruct (c_queue s); [|done]. injection Hloop as <-. eauto.
  - destruct (c_queue s) as [|p q]; [injection Hloop as <-; eauto|].
    destruct (ui_cascade_expand_sim p (mkCascade (c_board s) q (c_pushed s) (c_shown s)) g)
      as (s1 & g1 & H1 & H2 & Hred1); [done|].
    rewrite H1 in Hloop. rewrite H2. simpl in *. by apply IH.
Qed.

(** The loop of [gameOver] after a loss. *)
Lemma ui_gameOver_sim w :
  redrawn w0 w ->
  exists b' g', gameOver (m_board w) false = Ret b' /\
                ui_gameOver w false = Ret (mkWindow b' g') /\
                (forall q, revealedAt b' q = true ->
                           revealedAt (m_board w) q = true \/ mineAt (m_board w) q = true) /\
                redrawn w0 (mkWindow b' g').
Proof.
  intros Hred. unfold gameOver, ui_gameOver. simpl.
  set (R := fun (s : Board) (t : Window) =>
              m_board t = s /\ same_dims (m_board w) s /\
              (forall q, revealedAt s q = true ->
                         revealedAt (m_board w) q = true \/ mineAt (m_board w) q = true) /\
              (forall q, mineAt s q = mineAt (m_board w) q) /\
              redrawn w0 t).
  destruct (for_each_sim R (rows (m_board w))
    (fun s r => for_each (cols (m_board w))
                  (fun s c => do m <- isMine s r c ;
                              if m then setRevealed s r c true else Ret s) s)
    (fun s r => for_each (cols (m_board w))
                  (fun s c => do m <- isMine (m_board s) r c ;
                              if m then
                                do b' <- setRevealed (m_board s) r c true ;
                                do g' <- updateButtonAppearance b' (m_buttons s) r c ;
                                Ret (mkWindow b' g')
                              else Ret s) s))
    with (s := m_board w) (t := w) as (b' & [b'' g'] & H1 & H2 & E & _ & Hrev & _ & Hred').
  - intros s t r Hr HR. apply (for_each_sim R); [|done].
    intros s1 [b1 g1] c Hc (E & Hd & Hrev & Hmine & Hred1). simpl in E. subst b1. simpl.
    assert (wf s1) as Hwf by apply Hred1.
    assert (inBounds s1 r c = true) as Hin.
    { rewrite (inBounds_same (m_board w) s1) by done. apply inBounds_spec.
      unfold rows, cols in *. rewrite elem_of_seqZ in Hr, Hc. lia. }
    rewrite isMine_inGrid by done. simpl.
    destruct (mineAt s1 (r, c)) eqn:Hm.
    + unfold setRevealed.
      destruct (cell_update_inGrid s1 r c (fun c => Cell_setRevealed c true) Hwf Hin)
        as (b2 & -> & Hup). simpl.
      destruct (redrawn_step w0 s1 g1 r c b2 w0_ok Hred1 Hin Hup) as (g2 & -> & Hred2);
        [congruence|].
      simpl. exists b2, (mkWindow b2 g2). split_and!; try done.
      split_and!; try done.
      * eapply same_dims_trans; [done|apply Hup].
      * destruct (updated_revealed _ _ _ _ Hup) as (Hm' & Hk' & Hr' & Hp').
        intros q Hq. destruct (decide (q = (r, c))) as [->|Hne].
        -- right. by rewrite <- Hmine.
        -- apply Hrev. by rewrite <- Hr'.
      * destruct (updated_revealed _ _ _ _ Hup) as (Hm' & _).
        intros q. by rewrite Hm'.
    + exists s1, (mkWindow s1 g1). done.
  - split_and!; try done. eauto.
  - simpl in E. subst b''. exists b', g'. done.
Qed.

End UiCascade.

Lemma ui_checkWinCondition_sim w b' o :
  checkWinCondition (m_board w) = Ret (b', o) ->
  b' = m_board w /\ ui_checkWinCondition w = Ret (w, o).
Proof.
  unfold checkWinCondition, ui_checkWinCondition.
  destruct (allNonMinesRevealed (m_board w)) as [[|]| |]; simpl; [| |done..];
    intros [= <- <-]; done.
Qed.

(** [revealCell] on a hidden cell that is not flagged: the window's board
    ends as [revealCell] on the board leaves it, and the buttons are the
    buttons it began with, each redrawn for that board. *)
Lemma ui_revealCell_sim w row col :
  ui_ok w -> inBounds (m_board w) row col = true ->
  revealedAt (m_board w) (row, col) = false -> markAt (m_board w) (row, col) <> Flag ->
  exists b' o g',
    revealCell (m_board w) row col = Ret (b', o) /\
    ui_revealCell w row col = Ret (mkWindow b' g', o) /\
    redrawn w (mkWindow b' g').
Proof.
  intros Hok Hin Hr Hk. destruct w as [b g]. simpl in *.
  assert (wf b) as Hwf by apply Hok.
  pose proof (redrawn_refl _ Hok) as Hred.
  destruct (cell_update_inGrid b row col (fun c => Cell_setRevealed c true) Hwf Hin)
    as (b1 & Hset & Hup).
  destruct (redrawn_step _ b g row col b1 Hok Hred Hin Hup) as (g1 & Hdraw & Hred1); [done|].
  destruct (mineAt b (row, col)) eqn:Hm.
  - destruct (ui_gameOver_sim _ Hok _ Hred1) as (b2 & g2 & Hover & Hui & _ & Hred2).
    exists b2, Loss, g2. unfold revealCell, ui_revealCell, setRevealed. simpl.
    rewrite isMine_inGrid, Hm by done. simpl. rewrite Hset. simpl.
    simpl in Hover. rewrite Hover, Hdraw. simpl. rewrite Hui. done.
  - destruct (revealCell_safe b row col Hwf Hin Hm)
      as (b1' & b2 & o & Hset' & _ & Hzero & Hnonzero & _ & _ & Hreveal & _).
    unfold setRevealed in Hset'. assert (b1' = b1) as -> by congruence.
    assert (wf b1) as Hwf1 by apply Hup.
    assert (mines_among b1 (neighbours (row, col)) = mines_among b (neighbours (row, col)))
      as Hcount.
    { apply mines_among_ext. apply (updated_revealed _ _ _ _ Hup). }
    pose proof Hreveal as Hboard.
    unfold revealCell in Hreveal. unfold ui_revealCell, setRevealed in *. simpl.
    rewrite isMine_inGrid, Hm in * by done. simpl in *.
    rewrite Hset in *. simpl in *. rewrite Hdraw. simpl.
    rewrite neighborMineCount_neighbours in * by done. simpl in *.
    rewrite Hcount in *.
    destruct (Z.eqb_spec (mines_among b (neighbours (row, col))) 0) as [Hz|Hnz].
    + destruct (Hzero Hz) as (s & Hcasc & _ & _ & ->).
      rewrite Hcasc in Hreveal. simpl in Hreveal.
      unfold cascadeReveal in Hcasc. unfold ui_cascadeReveal. cbn [m_board m_buttons].
      destruct (ui_cascade_loop_sim _ Hok _ (mkCascade b1 [(row, col)] [(row, col)] [])
                  g1 _ Hred1 Hcasc) as (g2 & -> & Hred2).
      simpl. destruct (ui_checkWinCondition_sim (mkWindow (c_board s) g2) _ _ Hreveal)
        as [_ ->].
      exists (c_board s), o, g2. done.
    + simpl in *. destruct (ui_checkWinCondition_sim (mkWindow b1 g1) _ _ Hreveal) as [-> ->].
      exists b1, o, g1. done.
Qed.

(** A left click on a cell of the grid. *)
Lemma ui_left_click_facts w row col :
  ui_ok w -> inBounds (m_board w) row col = true ->
  exists b' o g',
    onCellLeftClicked (m_board w) row col = Ret (b', o) /\
    ui_onCellLeftClicked w row col = Ret (mkWindow b' g', o) /\
    redrawn w (mkWindow b' g') /\
    (revealedAt (m_board w) (row, col) = true \/ markAt (m_board w) (row, col) = Flag ->
     mkWindow b' g' = w).
Proof.
  intros Hok Hin. assert (wf (m_board w)) as Hwf by apply Hok.
  unfold onCellLeftClicked, ui_onCellLeftClicked.
  rewrite isRevealed_inGrid by done. simpl.
  destruct (revealedAt (m_board w) (row, col)) eqn:Hr.
  { destruct w as [b g]. exists b, Continue, g. split_and!; try done.
    by apply redrawn_refl. }
  rewrite markState_inGrid by done. simpl.
  case_decide as Hk.
  { destruct w as [b g]. exists b, Continue, g. split_and!; try done.
    by apply redrawn_refl. }
  destruct (ui_revealCell_sim w row col Hok Hin Hr Hk) as (b' & o & g' & ? & ? & ?).
  exists b', o, g'. split_and!; try done. intros [?|?]; done.
Qed.

(** ** The grid of buttons as a whole *)

Lemma button_at_nat g (i j : nat) :
  button_at g (Z.of_nat i, Z.of_nat j) = (g !! i) ≫= (fun line => line !! j).
Proof.
  unfold button_at, button_ref, at_. simpl.
  destruct (Z.leb_spec 0 (Z.of_nat i)); [|lia].
  destruct (Z.leb_spec 0 (Z.of_nat j)); [|lia].
  rewrite !Nat2Z.id. destruct (g !! i) as [line|]; simpl; [|done].
  by destruct (line !! j).
Qed.

(** Two grids of the same shape with the same buttons are the same grid. *)
Lemma buttons_ext b g g' :
  wf_buttons b g -> wf_buttons b g' ->
  (forall q, button_at g' q = button_at g q) -> g' = g.
Proof.
  intros [Hl Hall] [Hl' Hall'] Hbtn.
  apply list_eq. intros i.
  destruct (g !! i) as [line|] eqn:Ei, (g' !! i) as [line'|] eqn:Ei'.
  - f_equal. apply list_eq. intros j.
    pose proof (Hbtn (Z.of_nat i, Z.of_nat j)) as Hq.
    rewrite !button_at_nat in Hq. simpl in Hq. by rewrite Ei, Ei' in Hq.
  - apply lookup_lt_Some in Ei. apply lookup_ge_None in Ei'. lia.
  - apply lookup_ge_None in Ei. apply lookup_lt_Some in Ei'. lia.
  - done.
Qed.

(** A loop over the grid that changes every button by [f]. *)
Lemma button_loop_spec b g (f : Button -> Button) :
  (forall btn, f (f btn) = f btn) -> wf_buttons b g ->
  exists g',
    for_each (rows b) (fun g r =>
      for_each (cols b) (fun g c => button_update g r c f) g) g = Ret g' /\
    wf_buttons b g' /\
    forall q, inGrid b q -> button_at g' q = f <$> button_at g q.
Proof.
  intros Hidem Hg.
  pose proof (for_each_prod (rows b) (cols b)
    (fun s (q : Point) => button_update s (fst q) (snd q) f) g) as Hflat.
  cbn [fst snd] in Hflat. rewrite Hflat. clear Hflat. fold (coords b).
  destruct (for_each_inv_prefix
    (fun done s => wf_buttons b s /\
                   forall q, button_at s q
                             = if decide (q ∈ done) then f <$> button_at g q else button_at g q)
    (coords b)
    (fun s (q : Point) => button_update s (fst q) (snd q) f)) with (s := g)
    as (g' & E & Hg' & Hall).
  - intros done x s Hx (Hs & Hdone). apply elem_of_coords in Hx.
    destruct (button_update_inGrid b s x.1 x.2 f Hs Hx)
      as (s' & btn & Hbtn & Es' & Hs' & Hnew & Hothers).
    replace (x.1, x.2) with x in * by by destruct x.
    exists s'. split; [done|]. split; [done|].
    intros q. destruct (decide (q = x)) as [->|Hne].
    + rewrite Hnew, decide_True by set_solver.
      pose proof (Hdone x) as Hx'. rewrite Hbtn in Hx'.
      case_decide; destruct (button_at g x) as [btn0|]; simplify_eq/=; by rewrite ?Hidem.
    + rewrite (Hothers q Hne), Hdone.
      repeat case_decide; set_solver.
  - split; [done|]. intros q. rewrite decide_False; [done|set_solver].
  - exists g'. split_and!; try done. intros q Hq.
    rewrite Hall, decide_True; [done|by apply elem_of_coords].
Qed.

(** ** The right click, the new game and the constructor *)

Lemma ui_right_click_facts w row col :
  ui_ok w -> inBounds (m_board w) row col = true ->
  exists b' g',
    eventFilter (m_board w) row col = Ret b' /\
    ui_eventFilter w row col = Ret (mkWindow b' g') /\
    ui_ok (mkWindow b' g') /\
    button_at g' (row, col)
    = redraw b' (row, col) <$> button_at (m_buttons w) (row, col) /\
    (forall q, q <> (row, col) -> button_at g' q = button_at (m_buttons w) q) /\
    (revealedAt (m_board w) (row, col) = true -> g' = m_buttons w).
Proof.
  intros Hok Hin. destruct w as [b g]. simpl in *.
  assert (wf b) as Hwf by apply Hok.
  destruct (eventFilter_spec b row col Hwf Hin) as (b' & Hev & Hup).
  pose proof Hup as (Hwf' & Hd' & _).
  destruct (updated_mark _ _ _ _ Hup) as (Hm' & Hr' & Hk' & _).
  destruct (draw_step b g row col b' Hok Hin Hwf' Hd' Hm') as (g' & Hdraw & Hok' & Hnew & Hothers).
  { intros q Hne. by rewrite Hr', Hk'. }
  { by rewrite Hr'. }
  { rewrite Hr'. congruence. }
  exists b', g'. split_and!; try done.
  - unfold ui_eventFilter. unfold eventFilter in Hev. simpl. rewrite Hin in *.
    destruct (markState b row col) as [[]| |]; simpl in *; try done;
      rewrite Hev; simpl; by rewrite Hdraw.
  - intros Hr. apply (buttons_ext b'); [|apply Hok'|].
    + apply (wf_buttons_same b); [done|apply Hok].
    + intros q. destruct (decide (q = (row, col))) as [->|Hne]; [|by apply Hothers].
      rewrite Hnew. destruct Hok as (_ & _ & Hok).
      destruct (Hok (row, col) Hin) as (btn & Ebtn & Hb). simpl in *.
      rewrite Ebtn. simpl. f_equal.
      apply redraw_ok. revert Hb. unfold button_ok, count_text.
      by rewrite Hr', Hm', (mines_among_ext b b'), Hr by done.
Qed.

(** [initialize] never indexes outside the grid, and there are draws on
    which it returns. *)
Lemma initialize_defined b draws :
  wf b -> 0 < m_width b -> 0 < m_height b -> 0 <= m_mineCount b ->
  Forall (fun x => 0 <= x) draws ->
  initialize b draws <> Undef.
Proof.
  intros Hwf Hw Hh Hmc Hdraws. unfold initialize.
  rewrite (reset_all_new b Hwf). cbn [run_bind].
  set (b0 := Board_new (m_width b) (m_height b) (m_mineCount b)) in *.
  assert (forall q, mineAt b0 q = false /\ revealedAt b0 q = false /\ markAt b0 q = NoMark)
    as Hnew.
  { intros q. unfold mineAt, revealedAt, markAt, b0. rewrite cell_at_Board_new.
    by destruct (inBounds _ _ _). }
  pose proof (place_mines_spec draws Hdraws 0 b0) as Hspec.
  destruct (place_mines draws 0 b0); [done| |done].
  intros _. apply Hspec; try done.
  - apply wf_Board_new.
  - assert (mined_coords b0 = []) as ->; [|done].
    destruct (mined_coords b0) as [|q l] eqn:Eq; [done|].
    assert (q ∈ mined_coords b0) as Hq by (rewrite Eq; by left).
    apply list_elem_of_filter in Hq as [Hq _]. by rewrite (proj1 (Hnew q)) in Hq.
  - intros q _. split; apply Hnew.
Qed.

Lemma initialize_fresh b :
  wf b -> 0 < m_width b -> 0 < m_height b ->
  0 <= m_mineCount b <= m_width b * m_height b ->
  exists b', initialize b (fresh_draws (m_width b) 0 (Z.to_nat (m_mineCount b))) = Ret b'.
Proof.
  intros Hwf Hw Hh Hmc. unfold initialize.
  rewrite (reset_all_new b Hwf). cbn [run_bind].
  set (b0 := Board_new (m_width b) (m_height b) (m_mineCount b)) in *.
  destruct (place_mines_fresh (Z.to_nat (m_mineCount b0)) 0 b0) as [b' E'];
    try done; simpl; try lia.
  - apply wf_Board_new.
  - intros q Hq. unfold mineAt, b0 in Hq. rewrite cell_at_Board_new in Hq.
    by destruct (inBounds _ _ _).
  - by exists b'.
Qed.

Lemma wf_buttons_setupUI m_rows m_cols mineCount :
  wf_buttons (Board_new m_cols m_rows mineCount) (setupUI m_rows m_cols).
Proof.
  unfold wf_buttons, setupUI. simpl. rewrite length_replicate. split; [done|].
  apply Forall_replicate. by rewrite length_replicate.
Qed.

Lemma button_at_setupUI m_rows m_cols q :
  0 <= q.1 < m_rows -> 0 <= q.2 < m_cols ->
  button_at (setupUI m_rows m_cols) q = Some Button_new.
Proof.
  intros Hr Hc. unfold button_at.
  assert (button_ref (setupUI m_rows m_cols) q.1 q.2 = Ret Button_new) as ->; [|done].
  apply button_ref_Ret. split; [lia|]. split; [lia|].
  exists (replicate (Z.to_nat m_cols) Button_new). unfold setupUI.
  split; apply lookup_replicate_2; lia.
Qed.

(** A window whose cells are all hidden and unmarked and whose buttons have
    no icon, no text and no style sheet and are enabled, is drawn. *)
Lemma ui_ok_fresh b g :
  wf b -> wf_buttons b g -> all_hidden_unmarked b ->
  (forall q, inGrid b q ->
             exists btn, button_at g q = Some btn /\ b_icon btn = NoIcon /\
                         b_text btn = "" /\ b_enabled btn = true /\ b_styleSheet btn = "") ->
  ui_ok (mkWindow b g).
Proof.
  intros Hwf Hg Hhid Hbtn. split_and!; try done. simpl.
  intros q Hq. destruct (Hbtn q Hq) as (btn & E & Hi & Ht & He & Hs).
  exists btn. split; [done|]. destruct (Hhid q Hq) as [Hr Hk].
  unfold button_ok. rewrite Hr, Hk, Hi, Ht, He, Hs. done.
Qed.

Lemma MinesweeperWindow_with_facts m_rows m_cols mineCount draws w :
  0 < m_rows -> 0 < m_cols -> 0 <= mineCount ->
  Forall (fun x => 0 <= x) draws ->
  MinesweeperWindow_with m_rows m_cols mineCount draws = Ret w ->
  initialize (Board_new m_cols m_rows mineCount) draws = Ret (m_board w) /\
  m_buttons w = setupUI m_rows m_cols /\
  ui_ok w /\ same_dims (Board_new m_cols m_rows mineCount) (m_board w) /\
  all_hidden_unmarked (m_board w) /\
  Z.of_nat (length (mined_coords (m_board w))) = mineCount.
Proof.
  intros Hr Hc Hmc Hdraws E. unfold MinesweeperWindow_with in E.
  apply bind_Ret in E as (b & Hinit & [= <-]). simpl.
  destruct (initialize_returns _ draws b (wf_Board_new m_cols m_rows mineCount))
    as (Hwf & Hd & Hhid & Hlen); try done.
  split_and!; try done.
  apply ui_ok_fresh; try done.
  - apply (wf_buttons_same (Board_new m_cols m_rows mineCount)); [done|].
    apply wf_buttons_setupUI.
  - intros q Hq. exists Button_new. split; [|done].
    destruct Hd as (Hw' & Hh' & _). simpl in *.
    apply inBounds_spec in Hq. apply button_at_setupUI; lia.
Qed.

(** [resetGame]. *)
Lemma ui_resetGame_facts w draws b' :
  wf (m_board w) -> wf_buttons (m_board w) (m_buttons w) ->
  0 < m_width (m_board w) -> 0 < m_height (m_board w) -> 0 <= m_mineCount (m_board w) ->
  Forall (fun x => 0 <= x) draws ->
  initialize (m_board w) draws = Ret b' ->
  exists g',
    ui_resetGame w draws = Ret (mkWindow b' g') /\ ui_ok (mkWindow b' g') /\
    same_dims (m_board w) b' /\
    forall q, inGrid (m_board w) q ->
              button_at g' q
              = (fun btn => mkButton NoIcon (b_iconSize btn) "" true "")
                  <$> button_at (m_buttons w) q.
Proof.
  intros Hwf Hg Hw Hh Hmc Hdraws Hinit.
  destruct (initialize_returns _ draws b' Hwf) as (Hwf' & Hd & Hhid & Hlen); try done.
  destruct (button_loop_spec (m_board w) (m_buttons w)
              (fun btn => mkButton NoIcon (b_iconSize btn) "" true ""))
    as (g' & Hloop & Hg' & Hall); [done..|].
  exists g'. unfold ui_resetGame. rewrite Hinit. cbn [run_bind]. rewrite Hloop.
  split_and!; try done.
  apply ui_ok_fresh; try done.
  - by apply (wf_buttons_same (m_board w)).
  - intros q Hq. assert (inGrid (m_board w) q) as Hq0.
    { unfold inGrid in *. by rewrite <- (inBounds_same (m_board w) b'). }
    rewrite (Hall q Hq0).
    destruct (button_ref_inBounds (m_board w) (m_buttons w) q.1 q.2 Hg Hq0) as [btn Hbtn].
    unfold button_at at 1. rewrite Hbtn. simpl. eexists. split; [done|]. done.
Qed.

(** Every window of a session is drawn. *)
Lemma ui_plays_ok w0 w :
  ui_ok w0 ->
  0 < m_width (m_board w0) -> 0 < m_height (m_board w0) -> 0 <= m_mineCount (m_board w0) ->
  ui_plays w0 w -> ui_ok w /\ same_dims (m_board w0) (m_board w).
Proof.
  intros Hok0 Hw Hh Hmc. induction 1 as [|w row col w' _ [Hok Hd] Hin Hclick
                                      |w row col w' _ [Hok Hd] Hin Hclick
                                      |w row col w1 o draws w' _ [Hok Hd] Hin Hclick _ Hdraws Hreset].
  - split; [done|apply same_dims_refl].
  - destruct (ui_left_click_facts w row col Hok Hin) as (b' & o & g' & _ & E & Hred & _).
    rewrite E in Hclick. injection Hclick as <- _.
    split; [apply Hred|]. eapply same_dims_trans; [done|apply Hred].
  - destruct (ui_right_click_facts w row col Hok Hin) as (b' & g' & Hev & E & Hok' & _).
    rewrite E in Hclick. injection Hclick as <-.
    split; [done|]. simpl. eapply same_dims_trans; [done|].
    destruct (eventFilter_spec (m_board w) row col) as (b'' & Hev' & Hup); [apply Hok|done|].
    assert (b'' = b') as -> by congruence. apply Hup.
  - destruct (ui_left_click_facts w row col Hok Hin) as (b' & o' & g' & _ & E & Hred & _).
    rewrite E in Hclick. injection Hclick as <- _.
    assert (same_dims (m_board w0) b') as Hd1.
    { eapply same_dims_trans; [done|apply Hred]. }
    pose proof Hd1 as (Hw1 & Hh1 & Hc1).
    pose proof Hreset as Hreset'. unfold ui_resetGame in Hreset'.
    apply bind_Ret in Hreset' as (b2 & Hinit & _). simpl in Hinit.
    destruct (ui_resetGame_facts (mkWindow b' g') draws b2)
      as (g2 & E2 & Hok2 & Hd2 & _); simpl; try done; try lia; try apply Hred.
    rewrite E2 in Hreset. injection Hreset as <-.
    split; [done|]. simpl. by eapply same_dims_trans.
Qed.

(** ** Windows to run the handlers on *)

Example MinesweeperWindow_1x3 : MinesweeperWindow_with 1 3 1 [0; 2] = Ret window_1x3.
Proof. reflexivity. Qed.

Lemma ui_ok_window_1x3 : ui_ok window_1x3.
Proof.
  apply (MinesweeperWindow_with_facts 1 3 1 [0; 2] window_1x3); try done.
  repeat constructor; discriminate.
Qed.

Lemma ui_plays_question : ui_plays window_1x3 window_1x3_question.
Proof.
  eapply (ui_plays_right _ _ 0 1); [eapply (ui_plays_right _ _ 0 1)|..];
    [apply ui_plays_start|reflexivity..].
Qed.

Lemma ui_ok_window_1x3_question : ui_ok window_1x3_question.
Proof.
  apply (ui_plays_ok window_1x3); [apply ui_ok_window_1x3|done..|apply ui_plays_question].
Qed.

(** A left click on the question mark of [window_1x3_question]: the button
    shows the count next to the question mark. *)
Example left_click_on_question :
  ui_onCellLeftClicked window_1x3_question 0 1
  = Ret (mkWindow (mkBoard 3 1 1 [[hid; mkCell false true Question; mine_cell]])
                  [[Button_new;
                    mkButton QuestionIcon (Some (24, 24)) "1" false
                             "background-color: #d0d0d0;";
                    Button_new]],
         Continue).
Proof. reflexivity. Qed.

(** A left click on column 0 of [window_1x3]: the cascade reveals column 1,
    and the game is won. *)
Example left_click_cascade :
  ui_onCellLeftClicked window_1x3 0 0
  = Ret (mkWindow (mkBoard 3 1 1 [[shown_cell; shown_cell; mine_cell]])
                  [[mkButton NoIcon None "" false "background-color: #d0d0d0;";
                    mkButton NoIcon None "1" false "background-color: #d0d0d0;";
                    Button_new]],
         Win).
Proof. reflexivity. Qed.

(** A left click on the mine of [window_1x3]. *)
Example left_click_mine :
  ui_onCellLeftClicked window_1x3 0 2
  = Ret (mkWindow (mkBoard 3 1 1 [[hid; hid; mkCell true true NoMark]])
                  [[Button_new; Button_new; mkButton MineIcon (Some (24, 24)) "" false ""]],
         Loss).
Proof. reflexivity. Qed.

(** * Further properties of the window *)

(** X13: [updateButtonAppearance] on a button that shows its cell changes
    nothing: called on any cell of a window whose buttons all show their
    cells, it returns the grid of buttons it was given. *)
Theorem redraw_changes_nothing (w : Window) (row col : Z) :
  ui_ok w -> inBounds (m_board w) row col = true ->
  updateButtonAppearance (m_board w) (m_buttons w) row col = Ret (m_buttons w).
Proof.
  intros (Hwf & Hg & Hok) Hin.
  destruct (updateButtonAppearance_spec _ _ row col Hwf Hg Hin)
    as (g' & btn & Hbtn & -> & Hg' & Hnew & Hothers).
  f_equal. apply (buttons_ext (m_board w)); try done.
  intros q. destruct (decide (q = (row, col))) as [->|Hne]; [|by apply Hothers].
  rewrite Hnew, Hbtn. f_equal. apply redraw_ok.
  destruct (Hok (row, col) Hin) as (btn' & Hbtn' & Hb). congruence.
Qed.

Lemma redraw_changes_nothing_witness :
  updateButtonAppearance (m_board window_1x3_question) (m_buttons window_1x3_question) 0 1
  = Ret (m_buttons window_1x3_question).
Proof.
  apply (redraw_changes_nothing window_1x3_question 0 1);
    [apply ui_ok_window_1x3_question | reflexivity].
Defined.

(** X14: a left click on a cell of the grid, in a window whose buttons all
    show their cells.  The handler returns; the board ends as
    [onCellLeftClicked] on the board alone leaves it, with the same
    outcome; every button shows its cell again, and is the button it was,
    redrawn once for the new board, so that the buttons of the cells that
    are as revealed as before are untouched; and on a revealed or flagged
    cell the click changes nothing at all. *)
Theorem left_click_redraws (w : Window) (row col : Z) :
  ui_ok w -> inBounds (m_board w) row col = true ->
  exists w' o,
    ui_onCellLeftClicked w row col = Ret (w', o) /\
    onCellLeftClicked (m_board w) row col = Ret (m_board w', o) /\
    ui_ok w' /\
    (forall q, inGrid (m_board w) q ->
               button_at (m_buttons w') q
               = redraw (m_board w') q <$> button_at (m_buttons w) q) /\
    (forall q, inGrid (m_board w) q ->
               revealedAt (m_board w') q = revealedAt (m_board w) q ->
               button_at (m_buttons w') q = button_at (m_buttons w) q) /\
    (revealedAt (m_board w) (row, col) = true \/ markAt (m_board w) (row, col) = Flag ->
     w' = w).
Proof.
  intros Hok Hin.
  destruct (ui_left_click_facts w row col Hok Hin)
    as (b' & o & g' & Hboard & Hui & (Hok' & Hd & Hmk & Hmono & Hbtn) & Hsame).
  exists (mkWindow b' g'), o. simpl in *. split_and!; try done.
  intros q Hq Hr. rewrite (Hbtn q Hq).
  destruct Hok as (_ & _ & Hok). destruct (Hok q Hq) as (btn & -> & Hb). simpl. f_equal.
  apply redraw_ok. apply (button_ok_ext (m_board w)); try done; apply Hmk.
Qed.

Lemma left_click_redraws_witness :
  exists w' o,
    ui_onCellLeftClicked window_1x3 0 0 = Ret (w', o) /\
    onCellLeftClicked (m_board window_1x3) 0 0 = Ret (m_board w', o) /\
    ui_ok w' /\
    (forall q, inGrid (m_board window_1x3) q ->
               button_at (m_buttons w') q
               = redraw (m_board w') q <$> button_at (m_buttons window_1x3) q) /\
    (forall q, inGrid (m_board window_1x3) q ->
               revealedAt (m_board w') q = revealedAt (m_board window_1x3) q ->
               button_at (m_buttons w') q = button_at (m_buttons window_1x3) q) /\
    (revealedAt (m_board window_1x3) (0, 0) = true \/
     markAt (m_board window_1x3) (0, 0) = Flag -> w' = window_1x3).
Proof.
  apply (left_click_redraws window_1x3 0 0); [apply ui_ok_window_1x3 | reflexivity].
Defined.

(** X15: a right click on a cell of the grid, in a window whose buttons all
    show their cells.  The handler returns; the board ends as [eventFilter]
    on the board alone leaves it; every button shows its cell again; the
    button of the cell is redrawn for the new mark and no other button is
    touched; and on a revealed cell the mark changes on the board while no
    button changes. *)
Theorem right_click_redraws (w : Window) (row col : Z) :
  ui_ok w -> inBounds (m_board w) row col = true ->
  exists w',
    ui_eventFilter w row col = Ret w' /\
    eventFilter (m_board w) row col = Ret (m_board w') /\
    ui_ok w' /\
    markAt (m_board w') (row, col) = cycle_next (markAt (m_board w) (row, col)) /\
    button_at (m_buttons w') (row, col)
    = redraw (m_board w') (row, col) <$> button_at (m_buttons w) (row, col) /\
    (forall q, q <> (row, col) -> button_at (m_buttons w') q = button_at (m_buttons w) q) /\
    (revealedAt (m_board w) (row, col) = true -> m_buttons w' = m_buttons w).
Proof.
  intros Hok Hin.
  destruct (ui_right_click_facts w row col Hok Hin)
    as (b' & g' & Hboard & Hui & Hok' & Hnew & Hothers & Hsame).
  exists (mkWindow b' g'). simpl. split_and!; try done.
  destruct (eventFilter_spec (m_board w) row col) as (b'' & Hev & Hup); [apply Hok|done|].
  assert (b'' = b') as -> by congruence.
  apply (updated_mark _ _ _ _ Hup). apply cell_at_Some; [apply Hok|done].
Qed.

Lemma right_click_redraws_witness :
  exists w',
    ui_eventFilter window_1x3_question 0 1 = Ret w' /\
    eventFilter (m_board window_1x3_question) 0 1 = Ret (m_board w') /\
    ui_ok w' /\
    markAt (m_board w') (0, 1) = cycle_next (markAt (m_board window_1x3_question) (0, 1)) /\
    button_at (m_buttons w') (0, 1)
    = redraw (m_board w') (0, 1) <$> button_at (m_buttons window_1x3_question) (0, 1) /\
    (forall q, q <> (0, 1) ->
               button_at (m_buttons w') q = button_at (m_buttons window_1x3_question) q) /\
    (revealedAt (m_board window_1x3_question) (0, 1) = true ->
     m_buttons w' = m_buttons window_1x3_question).
Proof.
  apply (right_click_redraws window_1x3_question 0 1);
    [apply ui_ok_window_1x3_question | reflexivity].
Defined.

(** X16: the branch of [updateButtonAppearance] for a revealed cell without
    a mine sets no icon.  So after a left click, every cell without a mine
    that carried a question mark and is now revealed (the clicked cell, if it
    was hidden, or a cell of the cascade) has a disabled button that still
    shows the question mark, next to the cell's count. *)
Theorem revealed_question_keeps_icon (w : Window) (row col : Z) :
  ui_ok w -> inBounds (m_board w) row col = true ->
  exists w' o,
    ui_onCellLeftClicked w row col = Ret (w', o) /\
    (revealedAt (m_board w) (row, col) = false -> markAt (m_board w) (row, col) <> Flag ->
     revealedAt (m_board w') (row, col) = true) /\
    forall q, inGrid (m_board w) q ->
              markAt (m_board w) q = Question -> mineAt (m_board w) q = false ->
              revealedAt (m_board w) q = false -> revealedAt (m_board w') q = true ->
              exists btn, button_at (m_buttons w') q = Some btn /\
                          b_icon btn = QuestionIcon /\
                          b_text btn = count_text (m_board w) q /\
                          b_enabled btn = false.
Proof.
  intros Hok Hin. assert (wf (m_board w)) as Hwf by apply Hok.
  destruct (ui_left_click_facts w row col Hok Hin)
    as (b' & o & g' & Hboard & Hui & (Hok' & Hd & Hmk & Hmono & Hbtn) & Hsame).
  exists (mkWindow b' g'), o. simpl in *. split_and!; try done.
  - intros Hr Hk.
    destruct (onCellLeftClicked_cases (m_board w) row col Hwf Hin) as [[_ [?|?]]|[E _]];
      [congruence..|].
    rewrite E in Hboard.
    destruct (mineAt (m_board w) (row, col)) eqn:Hm.
    + destruct (revealCell_lost _ row col Hwf Hin Hm) as (b'' & E' & _ & _ & Hrev & _).
      assert (b'' = b') as -> by congruence. apply Hrev. by right.
    + destruct (revealCell_safe_revealed _ row col Hwf Hin Hm)
        as (b'' & o'' & E' & _ & _ & _ & _ & _ & Hrev).
      assert (b'' = b') as -> by congruence. apply Hrev. right. by left.
  - intros q Hq Hk Hm Hr Hr'. rewrite (Hbtn q Hq).
    destruct Hok as (_ & _ & Hok). destruct (Hok q Hq) as (btn & -> & Hb). simpl.
    eexists. split; [done|].
    unfold button_ok in Hb. rewrite Hr, Hk in Hb. destruct Hb as (_ & _ & Hi & _).
    unfold redraw, count_text. rewrite Hr', (proj1 (Hmk q)), Hm. simpl.
    split_and!; try done.
    by rewrite (mines_among_ext (m_board w) b') by apply Hmk.
Qed.

Lemma revealed_question_keeps_icon_witness :
  exists w' o,
    ui_onCellLeftClicked window_1x3_question 0 1 = Ret (w', o) /\
    (revealedAt (m_board window_1x3_question) (0, 1) = false ->
     markAt (m_board window_1x3_question) (0, 1) <> Flag ->
     revealedAt (m_board w') (0, 1) = true) /\
    forall q, inGrid (m_board window_1x3_question) q ->
              markAt (m_board window_1x3_question) q = Question ->
              mineAt (m_board window_1x3_question) q = false ->
              revealedAt (m_board window_1x3_question) q = false ->
              revealedAt (m_board w') q = true ->
              exists btn, button_at (m_buttons w') q = Some btn /\
                          b_icon btn = QuestionIcon /\
                          b_text btn = count_text (m_board window_1x3_question) q /\
                          b_enabled btn = false.
Proof.
  apply (revealed_question_keeps_icon window_1x3_question 0 1);
    [apply ui_ok_window_1x3_question | reflexivity].
Defined.

(** X17: [resetGame], whatever the buttons show and whatever the state of
    the board.  When [initialize] returns on the draws, [resetGame] returns
    its board; every button then has no icon, no text and no style sheet
    and is enabled, with the icon size it had; and every button shows its
    cell. *)
Theorem resetGame_redraws (w : Window) (draws : list Z) (b' : Board) :
  wf (m_board w) -> wf_buttons (m_board w) (m_buttons w) ->
  0 < m_width (m_board w) -> 0 < m_height (m_board w) -> 0 <= m_mineCount (m_board w) ->
  Forall (fun x => 0 <= x) draws ->
  initialize (m_board w) draws = Ret b' ->
  exists g',
    ui_resetGame w draws = Ret (mkWindow b' g') /\ ui_ok (mkWindow b' g') /\
    forall q, inGrid (m_board w) q ->
              exists btn, button_at (m_buttons w) q = Some btn /\
                          button_at g' q
                          = Some (mkButton NoIcon (b_iconSize btn) "" true "").
Proof.
  intros Hwf Hg Hw Hh Hmc Hdraws Hinit.
  destruct (ui_resetGame_facts w draws b') as (g' & E & Hok & _ & Hall); try done.
  exists g'. split_and!; try done. intros q Hq.
  destruct (button_ref_inBounds _ _ q.1 q.2 Hg Hq) as [btn Hbtn].
  exists btn. rewrite (Hall q Hq). unfold button_at. by rewrite Hbtn.
Qed.

Lemma resetGame_redraws_witness :
  exists g',
    ui_resetGame window_1x3_question [0; 0]
    = Ret (mkWindow (mkBoard 3 1 1 [[mine_cell; hid; hid]]) g') /\
    ui_ok (mkWindow (mkBoard 3 1 1 [[mine_cell; hid; hid]]) g') /\
    forall q, inGrid (m_board window_1x3_question) q ->
              exists btn, button_at (m_buttons window_1x3_question) q = Some btn /\
                          button_at g' q
                          = Some (mkButton NoIcon (b_iconSize btn) "" true "").
Proof.
  apply (resetGame_redraws window_1x3_question [0; 0]
           (mkBoard 3 1 1 [[mine_cell; hid; hid]])).
  - split; [reflexivity | repeat constructor].
  - split; [reflexivity | repeat constructor].
  - reflexivity.
  - reflexivity.
  - discriminate.
  - repeat constructor; discriminate.
  - reflexivity.
Defined.

(** X18: the constructor, for any positive [m_rows] and [m_cols] and a
    mine count from zero to the number of cells ([MinesweeperWindow_new] is
    the case 16, 30, 99).  It never indexes outside the grid; there are
    draws on which it returns; and the window it returns has a board of
    [m_cols] by [m_rows] cells with [mineCount] mines, all hidden and
    unmarked, and one new button per cell, which shows its cell without any
    call of [updateButtonAppearance]. *)
Theorem MinesweeperWindow_drawn (m_rows m_cols mineCount : Z) (draws : list Z) :
  0 < m_rows -> 0 < m_cols -> 0 <= mineCount <= m_rows * m_cols ->
  Forall (fun x => 0 <= x) draws ->
  MinesweeperWindow_with m_rows m_cols mineCount draws <> Undef /\
  (forall w, MinesweeperWindow_with m_rows m_cols mineCount draws = Ret w ->
     ui_ok w /\
     m_width (m_board w) = m_cols /\ m_height (m_board w) = m_rows /\
     Z.of_nat (length (mined_coords (m_board w))) = mineCount /\
     all_hidden_unmarked (m_board w) /\
     (forall q, inGrid (m_board w) q -> button_at (m_buttons w) q = Some Button_new)) /\
  (exists w, MinesweeperWindow_with m_rows m_cols mineCount
               (fresh_draws m_cols 0 (Z.to_nat mineCount)) = Ret w).
Proof.
  intros Hr Hc Hmc Hdraws. split_and!.
  - unfold MinesweeperWindow_with.
    pose proof (initialize_defined (Board_new m_cols m_rows mineCount) draws
                  (wf_Board_new _ _ _)) as Hdef.
    destruct (initialize _ draws); simpl; try done. intros _. by apply Hdef; simpl; try lia.
  - intros w E.
    destruct (MinesweeperWindow_with_facts m_rows m_cols mineCount draws w)
      as (_ & Hg & Hok & (Hw & Hh & _) & Hhid & Hlen); try done; [lia|].
    split_and!; try done. intros q Hq. rewrite Hg.
    apply inBounds_spec in Hq. simpl in *. apply button_at_setupUI; lia.
  - destruct (initialize_fresh (Board_new m_cols m_rows mineCount)) as [b' E];
      simpl; try done; try lia; [apply wf_Board_new|].
    exists (mkWindow b' (setupUI m_rows m_cols)). unfold MinesweeperWindow_with.
    simpl in E. by rewrite E.
Qed.

Lemma MinesweeperWindow_drawn_witness :
  MinesweeperWindow_new (fresh_draws 30 0 99) <> Undef /\
  (forall w, MinesweeperWindow_new (fresh_draws 30 0 99) = Ret w ->
     ui_ok w /\
     m_width (m_board w) = 30 /\ m_height (m_board w) = 16 /\
     Z.of_nat (length (mined_coords (m_board w))) = 99 /\
     all_hidden_unmarked (m_board w) /\
     (forall q, inGrid (m_board w) q -> button_at (m_buttons w) q = Some Button_new)) /\
  (exists w, MinesweeperWindow_with 16 30 99 (fresh_draws 30 0 (Z.to_nat 99)) = Ret w).
Proof.
  apply (MinesweeperWindow_drawn 16 30 99 (fresh_draws 30 0 99)).
  - lia.
  - lia.
  - lia.
  - apply fresh_draws_nonneg; lia.
Defined.

(** X19: through a whole session (left clicks, right clicks, and new
    games after a left click that ended one) every window has its buttons
    showing their cells: a button is enabled exactly when its cell is
    hidden, shows a flag or question mark exactly as the hidden cell is
    marked, and a count or a mine only once the cell is revealed. *)
Theorem session_buttons_show_cells (w0 w : Window) :
  ui_ok w0 ->
  0 < m_width (m_board w0) -> 0 < m_height (m_board w0) -> 0 <= m_mineCount (m_board w0) ->
  ui_plays w0 w ->
  ui_ok w /\ same_dims (m_board w0) (m_board w) /\
  forall q, inGrid (m_board w) q ->
            exists btn, button_at (m_buttons w) q = Some btn /\
                        b_enabled btn = negb (revealedAt (m_board w) q) /\
                        (b_icon btn = FlagIcon ->
                         revealedAt (m_board w) q = false /\ markAt (m_board w) q = Flag) /\
                        (b_icon btn = MineIcon ->
                         revealedAt (m_board w) q = true /\ mineAt (m_board w) q = true) /\
                        (b_text btn <> "" ->
                         revealedAt (m_board w) q = true /\ mineAt (m_board w) q = false).
Proof.
  intros Hok0 Hw Hh Hmc Hplays.
  destruct (ui_plays_ok w0 w Hok0 Hw Hh Hmc Hplays) as [Hok Hd].
  split_and!; try done. intros q Hq.
  destruct Hok as (_ & _ & Hok). destruct (Hok q Hq) as (btn & Hbtn & He & _ & Hb).
  exists btn. split; [done|]. split; [done|].
  destruct (revealedAt (m_board w) q); [destruct (mineAt (m_board w) q)|].
  - destruct Hb as (Hi & Ht & _). rewrite Hi, Ht. split_and!; done.
  - destruct Hb as ([Hi|Hi] & _); rewrite Hi; split_and!; done.
  - destruct Hb as (Hi & Ht & _). rewrite Hi, Ht.
    destruct (markAt (m_board w) q); split_and!; done.
Qed.

Lemma session_buttons_show_cells_witness :
  ui_ok window_1x3_question /\
  same_dims (m_board window_1x3) (m_board window_1x3_question) /\
  forall q, inGrid (m_board window_1x3_question) q ->
            exists btn, button_at (m_buttons window_1x3_question) q = Some btn /\
                        b_enabled btn = negb (revealedAt (m_board window_1x3_question) q) /\
                        (b_icon btn = FlagIcon ->
                         revealedAt (m_board window_1x3_question) q = false /\
                         markAt (m_board window_1x3_question) q = Flag) /\
                        (b_icon btn = MineIcon ->
                         revealedAt (m_board window_1x3_question) q = true /\
                         mineAt (m_board window_1x3_question) q = true) /\
                        (b_text btn <> "" ->
                         revealedAt (m_board window_1x3_question) q = true /\
                         mineAt (m_board window_1x3_question) q = false).
Proof.
  apply (session_buttons_show_cells window_1x3 window_1x3_question).
  - apply ui_ok_window_1x3.
  - reflexivity.
  - reflexivity.
  - discriminate.
  - apply ui_plays_question.
Defined.
